(** * Open Web Agent: the workspace provisioning and lifecycle controller

    A shallow embedding of [src/lib/docker.ts] (the provisioner and the
    lifecycle controller), of the create-workspace route and of the
    readiness route, together with the properties the design document
    states about them.

    Layout:
    - [JS]       the string operations of the JavaScript runtime the code uses;
    - [Labels]   the Traefik label maps of the two service containers;
    - [Config]   the synthesis of [opencode.json];
    - [Runtime]  the container runtime behind dockerode, as an explicit state
                 with a failure plan;
    - [Docker]   the functions of [docker.ts] over that runtime;
    - [Routes]   the HTTP handlers that call them;
    - the theorems, one group per property. *)

From Stdlib Require Import ZArith Lia Ascii.
From stdpp Require Import base option list gmap strings pretty.

Local Open Scope Z_scope.
Local Open Scope stdpp_scope.

(* ------------------------------------------------------------------------- *)
(** ** JavaScript strings *)
(* ------------------------------------------------------------------------- *)

Module JS.

(** Truthiness of an optional string: [undefined], [null] and [""] are
    falsy, every other string is truthy. *)
Definition truthy (o : option string) : bool :=
  match o with
  | Some (String _ _) => true
  | _ => false
  end.

(** [s.startsWith(p)], returning what follows the prefix. *)
Fixpoint strip_prefix (p s : string) : option string :=
  match p, s with
  | "", _ => Some s
  | String a p', String b s' =>
      if Ascii.eqb a b then strip_prefix p' s' else None
  | String _ _, "" => None
  end.

(** The leftmost occurrence of [pat] in [s]: what stands before it and
    what stands after it ([s.indexOf(pat)] and the two slices). *)
Fixpoint find_first (pat s : string) : option (string * string) :=
  match strip_prefix pat s with
  | Some rest => Some ("", rest)
  | None =>
      match s with
      | "" => None
      | String c s' =>
          match find_first pat s' with
          | Some (before, rest) => Some (String c before, rest)
          | None => None
          end
      end
  end.

(** GetSubstitution of ECMA-262 for a string pattern (no capture groups):
    in the replacement text [$$] is a dollar sign, [$&] the matched text,
    [$`] the text before the match, [$'] the text after it; a dollar sign
    followed by anything else stands for itself. *)
Fixpoint getSubstitution (matched before rest template : string) : string :=
  match template with
  | "" => ""
  | String a t' =>
      if Ascii.eqb a "$"%char then
        match t' with
        | "" => "$"
        | String c t =>
            if Ascii.eqb c "$"%char then String "$"%char (getSubstitution matched before rest t)
            else if Ascii.eqb c "&"%char then matched +:+ getSubstitution matched before rest t
            else if Ascii.eqb c "`"%char then before +:+ getSubstitution matched before rest t
            else if Ascii.eqb c "'"%char then rest +:+ getSubstitution matched before rest t
            else String "$"%char (getSubstitution matched before rest t')
        end
      else String a (getSubstitution matched before rest t')
  end.

(** [s.replace(pat, repl)] with a string pattern: only the leftmost
    occurrence is replaced; without an occurrence [s] is returned. *)
Definition replace (s pat repl : string) : string :=
  match find_first pat s with
  | None => s
  | Some (before, rest) =>
      before +:+ getSubstitution pat before rest repl +:+ rest
  end.

(** [arr.includes(x)] on an array of strings. *)
Definition includes (x : string) (arr : list string) : bool :=
  existsb (String.eqb x) arr.

(** [arr.find(p)]: the first element that satisfies [p]. *)
Definition find {A} (p : A → bool) (arr : list A) : option A :=
  List.find p arr.

(** [arr.join(sep)]. *)
Fixpoint join (sep : string) (arr : list string) : string :=
  match arr with
  | [] => ""
  | [x] => x
  | x :: rest => x +:+ sep +:+ join sep rest
  end.

(** The double quote, which a literal of this file cannot hold. *)
Definition dq : string := String (ascii_of_nat 34) "".

(** A scalar of a flat settings object. *)
Inductive scalar := JStr (s : string) | JBool (b : bool).

(** [JSON.stringify] of a flat object whose keys and strings need no
    escaping. *)
Definition stringify_flat (o : list (string * scalar)) : string :=
  "{" +:+ join ","
    (map (λ kv,
       dq +:+ kv.1 +:+ dq +:+ ":" +:+
       match kv.2 with
       | JStr v => dq +:+ v +:+ dq
       | JBool true => "true"
       | JBool false => "false"
       end) o) +:+ "}".

End JS.

(* ------------------------------------------------------------------------- *)
(** ** Records read from the store, and the host environment *)
(* ------------------------------------------------------------------------- *)

(** An enabled-or-not model of a provider (table [LLMModel]). *)
Record LLMModel := {
  modelId : string;
  m_isDefault : bool;
  m_isEnabled : bool;
}.

(** A headers object: keys in insertion order. *)
Abbreviation headers_object := (list (string * string)).

(** A provider of a user (table [LLMProvider]), with its models. *)
Record LLMProvider := {
  p_userId : string;
  providerId : string;
  p_isDefault : bool;
  p_isEnabled : bool;
  baseUrl : option string;
  envVarName : option string;
  apiKey : option string;
  headers : option headers_object;
  models : list LLMModel;
}.

(** A skill of a user (table [Skill]). *)
Record Skill := {
  s_userId : string;
  skill_name : string;
  skill_content : string;
}.

(** [opencodeConfig.provider[key].options] *)
Record ProviderOptions := {
  opt_baseURL : option string;
  opt_apiKey : option string;
  opt_headers : option headers_object;
}.

(** The object that becomes [opencode.json]. *)
Record OpencodeConfig := {
  schema : string;
  provider : gmap string ProviderOptions;
  enabled_providers : list string;
  disabled_providers : list string;
  model : option string;
}.

(** What the process takes from Node itself rather than from this
    repository: [String.prototype.toLowerCase], base64 encoding of a Buffer,
    [JSON.stringify] of the configuration object with two-space
    indentation, and the environment variable [DOMAIN]. *)
Record Host := {
  toLowerCase : string → string;
  base64 : string → string;
  JSON_stringify : OpencodeConfig → string;
  env_DOMAIN : option string;
}.

(* ------------------------------------------------------------------------- *)
(** ** Routing labels *)
(* ------------------------------------------------------------------------- *)

Module Labels.

(** A [Labels] object literal: keys in the order they are written. *)
Abbreviation label_map := (list (string * string)).

Definition mainNetwork : string := "open-web-agent-2_web".

(** [process.env.DOMAIN || 'localhost'] *)
Definition domain (H : Host) : string :=
  match env_DOMAIN H with
  | Some (String c d) => String c d
  | _ => "localhost"
  end.

(** The [Labels] of the code-server container. *)
Definition codeServerLabels (workspaceId domain : string) : label_map :=
  [ ("traefik.enable", "true");
    ("traefik.docker.network", mainNetwork);
    ("traefik.http.routers.vscode-" +:+ workspaceId +:+ ".rule",
      "Host(`vscode-" +:+ workspaceId +:+ "." +:+ domain +:+ "`)");
    ("traefik.http.services.vscode-" +:+ workspaceId +:+ ".loadbalancer.server.port",
      "8443");
    ("traefik.http.routers.vscode-" +:+ workspaceId +:+ ".entrypoints", "web");
    ("workspace.id", workspaceId) ].

(** The [Labels] of the OpenCode container. *)
Definition opencodeLabels (workspaceId domain : string) : label_map :=
  [ ("traefik.enable", "true");
    ("traefik.docker.network", mainNetwork);
    ("traefik.http.routers.opencode-" +:+ workspaceId +:+ ".rule",
      "Host(`opencode-" +:+ workspaceId +:+ "." +:+ domain +:+ "`)");
    ("traefik.http.routers.opencode-" +:+ workspaceId +:+ ".service",
      "opencode-" +:+ workspaceId);
    ("traefik.http.routers.opencode-" +:+ workspaceId +:+ ".entrypoints", "web");
    ("traefik.http.services.opencode-" +:+ workspaceId +:+ ".loadbalancer.server.port",
      "3001");
    ("traefik.http.routers.preview-" +:+ workspaceId +:+ ".rule",
      "Host(`preview-" +:+ workspaceId +:+ "." +:+ domain +:+ "`)");
    ("traefik.http.routers.preview-" +:+ workspaceId +:+ ".service",
      "preview-" +:+ workspaceId);
    ("traefik.http.routers.preview-" +:+ workspaceId +:+ ".entrypoints", "web");
    ("traefik.http.services.preview-" +:+ workspaceId +:+ ".loadbalancer.server.port",
      "3000");
    ("traefik.http.middlewares.preview-headers-" +:+ workspaceId
       +:+ ".headers.customResponseHeaders.X-Frame-Options", "");
    ("traefik.http.middlewares.preview-headers-" +:+ workspaceId
       +:+ ".headers.customResponseHeaders.Content-Security-Policy", "");
    ("traefik.http.routers.preview-" +:+ workspaceId +:+ ".middlewares",
      "preview-headers-" +:+ workspaceId);
    ("workspace.id", workspaceId) ].

(** The init container carries no routing label. *)
Definition initLabels (workspaceId : string) : label_map :=
  [ ("workspace.id", workspaceId); ("workspace.type", "init") ].

(** *** How the proxy reads a label map *)

(** The value of label [k]; the last binding wins, as in an object literal. *)
Fixpoint label (k : string) (l : label_map) : option string :=
  match l with
  | [] => None
  | (k', v) :: rest =>
      match label k rest with
      | Some v' => Some v'
      | None => if String.eqb k k' then Some v else None
      end
  end.

(** [s.endsWith(suf)], returning what precedes the suffix. *)
Fixpoint strip_suffix (suf s : string) : option string :=
  if String.eqb s suf then Some ""
  else match s with
       | "" => None
       | String c s' => String c <$> strip_suffix suf s'
       end.

(** The router [r] a key [traefik.http.routers.<r>.<field>] belongs to. *)
Definition router_key (field k : string) : option string :=
  JS.strip_prefix "traefik.http.routers." k ≫= strip_suffix ("." +:+ field).

(** The routers that carry field [field], with its value, in label order. *)
Definition router_fields (field : string) (l : label_map) : list (string * string) :=
  omap (λ kv, (λ r, (r, kv.2)) <$> router_key field kv.1) l.

(** The routers that carry a rule, with the rule. *)
Definition routing_rules (l : label_map) : list (string * string) :=
  router_fields "rule" l.

(** The routers that carry a middleware chain, with the chain. *)
Definition middleware_attachments (l : label_map) : list (string * string) :=
  router_fields "middlewares" l.

(** The backend port of router [r]: the port of the service it names. *)
Definition backend_port (l : label_map) (r : string) : option string :=
  label ("traefik.http.routers." +:+ r +:+ ".service") l ≫= λ s,
  label ("traefik.http.services." +:+ s +:+ ".loadbalancer.server.port") l.

(** The value a middleware sets a response header to. *)
Definition custom_response_header (l : label_map) (mw header : string) : option string :=
  label ("traefik.http.middlewares." +:+ mw +:+ ".headers.customResponseHeaders." +:+ header) l.

End Labels.

(* ------------------------------------------------------------------------- *)
(** ** Synthesis of the agent configuration *)
(* ------------------------------------------------------------------------- *)

Module Config.

Definition allPossibleProviders : list string :=
  ["openai"; "anthropic"; "google"; "groq"; "openrouter"; "mistral";
   "together"; "deepseek"; "xai"; "ollama"; "lmstudio"].

Section WithHost.
Variable H : Host.

(** The default model across all providers:
    [providers.find(p => p.isDefault)], then
    [defaultProvider?.models.find(m => m.isDefault)], and the reference
    [`${providerKey}/${defaultModel.modelId}`] when both exist. *)
Definition defaultModelRef (providers : list LLMProvider) : option string :=
  let defaultProvider := JS.find p_isDefault providers in
  let defaultModel := defaultProvider ≫= λ p, JS.find m_isDefault (models p) in
  match defaultModel, defaultProvider with
  | Some m, Some p =>
      let providerKey := toLowerCase H (providerId p) in
      Some (providerKey +:+ "/" +:+ modelId m)
  | _, _ => None
  end.

(** The custom headers of a provider, without [Authorization]. *)
Definition customHeaders (p : LLMProvider) : option headers_object :=
  match headers p with
  | Some (kv :: hs) =>
      match filter (λ kv, kv.1 ≠ "Authorization") (kv :: hs) with
      | [] => None
      | custom => Some custom
      end
  | _ => None
  end.

(** The options written for one provider. *)
Definition providerOptions (p : LLMProvider) : ProviderOptions :=
  {| opt_baseURL := if JS.truthy (baseUrl p) then baseUrl p else None;
     opt_apiKey :=
       match envVarName p with
       | Some (String c n) => Some ("{env:" +:+ String c n +:+ "}")
       | _ => None
       end;
     opt_headers := customHeaders p |}.

(** One turn of the loop over the providers. *)
Definition addProvider (cfg : OpencodeConfig) (p : LLMProvider) : OpencodeConfig :=
  let providerKey := toLowerCase H (providerId p) in
  {| schema := schema cfg;
     provider := <[providerKey := providerOptions p]> (provider cfg);
     enabled_providers := enabled_providers cfg ++ [providerKey];
     disabled_providers := disabled_providers cfg;
     model := model cfg |}.

(** The configuration object built from the enabled providers. *)
Definition opencodeConfig (providers : list LLMProvider) : OpencodeConfig :=
  let cfg0 :=
    {| schema := "https://opencode.ai/config.json";
       provider := ∅;
       enabled_providers := [];
       disabled_providers := [];
       model := defaultModelRef providers |} in
  match providers with
  | [] => cfg0
  | _ =>
      let cfg := foldl addProvider cfg0 providers in
      {| schema := schema cfg;
         provider := provider cfg;
         enabled_providers := enabled_providers cfg;
         disabled_providers :=
           List.filter (λ p, negb (JS.includes p (enabled_providers cfg)))
             allPossibleProviders;
         model := model cfg |}
  end.

(** The environment of the OpenCode container: the upstream token under
    two names, then one binding per provider that has both a key and a
    variable name. *)
Definition opencodeEnv (githubToken : option string)
    (providers : list LLMProvider) : list string :=
  (match githubToken with
   | Some (String c t) =>
       ["GITHUB_TOKEN=" +:+ String c t; "GH_TOKEN=" +:+ String c t]
   | _ => []
   end)
  ++ flat_map (λ p,
       match apiKey p, envVarName p with
       | Some (String c k), Some (String d n) =>
           [String d n +:+ "=" +:+ String c k]
       | _, _ => []
       end) providers.

(** The shell commands that write the skills, joined by [&&]. *)
Definition skillsSetupCommands (skills : list Skill) : string :=
  JS.join " && "
    (map (λ skill,
       let skillDir := "/root/.config/opencode/skills/" +:+ skill_name skill in
       let escapedContent := base64 H (skill_content skill) in
       "mkdir -p " +:+ skillDir +:+ " && echo '" +:+ escapedContent
         +:+ "' | base64 -d > " +:+ skillDir +:+ "/SKILL.md") skills).

End WithHost.

(** The clone URL: [githubToken ? githubRepo.replace('https://',
    `https://${githubToken}@`) : githubRepo]. *)
Definition repoUrl (githubToken : option string) (githubRepo : string) : string :=
  match githubToken with
  | Some (String c t) =>
      JS.replace githubRepo "https://" ("https://" +:+ String c t +:+ "@")
  | _ => githubRepo
  end.

End Config.

(* ------------------------------------------------------------------------- *)
(** ** The container runtime *)
(* ------------------------------------------------------------------------- *)

(** What a rejected promise carries. *)
Inductive error :=
| NotFound                      (* 404: no such container, network, volume, image *)
| NotModified                   (* 304: already started, already stopped *)
| Conflict                      (* 409: name in use, volume in use, running *)
| Forbidden                     (* 403: network has active endpoints *)
| Unreachable                   (* the control plane did not answer *)
| PullFailed (msg : string)     (* reported by the pull progress stream *)
| CloneFailed (exitCode : option Z)   (* Failed to clone repository. Exit code: ... *)
| FetchFailed                   (* fetch: the connection could not be made *)
| Aborted                       (* fetch: the signal was aborted *)
| BadRequest.                   (* request.json(): the body is not JSON *)

Global Instance error_eq_dec : EqDecision error.
Proof. solve_decision. Defined.

Inductive outcome (A : Type) :=
| Returned (a : A)
| Threw (e : error).
Global Arguments Returned {A} a.
Global Arguments Threw {A} e.

Definition returned {A} (o : outcome A) : bool :=
  match o with Returned _ => true | Threw _ => false end.

Module Runtime.

(** The options of [docker.createContainer]. *)
Record ContainerSpec := {
  name : string;
  Image : string;
  User : option string;
  Entrypoint : list string;
  Cmd : list string;
  Env : list string;
  ExposedPorts : list string;
  Binds : list (string * string);        (* volume, mount point *)
  NetworkMode : option string;
  RestartPolicy : option string;
  Memory : option Z;
  NanoCpus : option Z;
  Labels : Labels.label_map;
}.

Inductive cstate := Created | Running | Exited.

Global Instance cstate_eq_dec : EqDecision cstate.
Proof. solve_decision. Defined.

(** A container the runtime holds. *)
Record container := {
  spec : ContainerSpec;
  state : cstate;
  connected : list string;               (* networks joined after creation *)
}.

Record t := {
  containers : gmap string container;    (* by name *)
  networks : gset string;
  volumes : gset string;
  images : gset string;
}.

(** The requests dockerode sends. A container handle is rendered by the
    container's name, which the runtime resolves like its identifier. *)
Inductive call :=
| ListImages (reference : string)
| Pull (image : string)
| FollowProgress (image : string)
| CreateVolume (volume : string)
| CreateNetwork (network : string)
| CreateContainer (s : ContainerSpec)
| Start (container : string)
| Wait (container : string)
| Logs (container : string)
| Stop (container : string)
| RemoveContainer (container : string) (force : bool)
| Connect (network container : string)
| RemoveNetwork (network : string)
| RemoveVolume (volume : string).

Inductive reply :=
| Done
| ContainerId (id : string)
| ImageList (l : list string)
| ExitStatus (StatusCode : Z)
| LogText (s : string).

(** What the code does not decide: which requests the runtime fails
    beyond the failures its state explains, how the processes it runs
    end, and in which order the answers to concurrent requests arrive. *)
Record Plan := {
  fault : nat → call → option error;     (* the n-th request of the run *)
  exit_code : string → Z;                (* by container name *)
  logs : string → string;
  new_id : string → string;              (* identifier of a new container *)
  schedule : list nat;                   (* pending pull answered next *)
}.

Definition uses_volume (v : string) (c : container) : bool :=
  existsb (λ b, String.eqb b.1 v) (Binds (spec c)).

Definition attached (n : string) (c : container) : bool :=
  match NetworkMode (spec c) with
  | Some m => String.eqb m n
  | None => false
  end || JS.includes n (connected c).

Definition running (c : container) : bool :=
  bool_decide (state c = Running).

Definition set_state (st : cstate) (c : container) : container :=
  {| spec := spec c; state := st; connected := connected c |}.

Definition with_containers (cs : gmap string container) (s : t) : t :=
  {| containers := cs; networks := networks s;
     volumes := volumes s; images := images s |}.

(** Does some container satisfy [p]? *)
Definition some_container (p : container → bool) (s : t) : bool :=
  bool_decide (map_Exists (λ _ c, p c = true) (containers s)).

(** The runtime's own answer to a request, in state [s]. *)
Definition answer (P : Plan) (c : call) (s : t) : outcome reply * t :=
  match c with
  | ListImages reference =>
      (Returned (ImageList (if decide (reference ∈ images s) then [reference] else [])), s)
  | Pull image => (Returned Done, s)
  | FollowProgress image =>
      (Returned Done,
       {| containers := containers s; networks := networks s;
          volumes := volumes s; images := {[image]} ∪ images s |})
  | CreateVolume volume =>
      (Returned Done,
       {| containers := containers s; networks := networks s;
          volumes := {[volume]} ∪ volumes s; images := images s |})
  | CreateNetwork network =>
      if decide (network ∈ networks s) then (Threw Conflict, s)
      else (Returned Done,
            {| containers := containers s; networks := {[network]} ∪ networks s;
               volumes := volumes s; images := images s |})
  | CreateContainer sp =>
      match containers s !! name sp with
      | Some _ => (Threw Conflict, s)
      | None =>
          if decide (Image sp ∈ images s) then
            (Returned (ContainerId (new_id P (name sp))),
             with_containers
               (<[name sp := {| spec := sp; state := Created; connected := [] |}]>
                  (containers s)) s)
          else (Threw NotFound, s)
      end
  | Start n =>
      match containers s !! n with
      | None => (Threw NotFound, s)
      | Some c =>
          if running c then (Threw NotModified, s)
          else (Returned Done,
                with_containers (<[n := set_state Running c]> (containers s)) s)
      end
  | Wait n =>
      match containers s !! n with
      | None => (Threw NotFound, s)
      | Some c =>
          (Returned (ExitStatus (exit_code P n)),
           with_containers (<[n := set_state Exited c]> (containers s)) s)
      end
  | Logs n =>
      match containers s !! n with
      | None => (Threw NotFound, s)
      | Some c => (Returned (LogText (logs P n)), s)
      end
  | Stop n =>
      match containers s !! n with
      | None => (Threw NotFound, s)
      | Some c =>
          if running c then
            (Returned Done,
             with_containers (<[n := set_state Exited c]> (containers s)) s)
          else (Threw NotModified, s)
      end
  | RemoveContainer n force =>
      match containers s !! n with
      | None => (Threw NotFound, s)
      | Some c =>
          if running c && negb force then (Threw Conflict, s)
          else (Returned Done, with_containers (delete n (containers s)) s)
      end
  | Connect network n =>
      if decide (network ∈ networks s) then
        match containers s !! n with
        | None => (Threw NotFound, s)
        | Some c =>
            (Returned Done,
             with_containers
               (<[n := {| spec := spec c; state := state c;
                          connected := connected c ++ [network] |}]>
                  (containers s)) s)
        end
      else (Threw NotFound, s)
  | RemoveNetwork network =>
      if decide (network ∈ networks s) then
        if some_container (λ c, running c && attached network c) s
        then (Threw Forbidden, s)
        else (Returned Done,
              {| containers := containers s; networks := networks s ∖ {[network]};
                 volumes := volumes s; images := images s |})
      else (Threw NotFound, s)
  | RemoveVolume volume =>
      if decide (volume ∈ volumes s) then
        if some_container (uses_volume volume) s
        then (Threw Conflict, s)
        else (Returned Done,
              {| containers := containers s; networks := networks s;
                 volumes := volumes s ∖ {[volume]}; images := images s |})
      else (Threw NotFound, s)
  end.

(** The [n]-th request of a run: it fails as the plan says, with the
    state untouched, or is answered by the runtime. *)
Definition exec (P : Plan) (n : nat) (c : call) (s : t) : outcome reply * t :=
  match fault P n c with
  | Some e => (Threw e, s)
  | None => answer P c s
  end.

End Runtime.

(* ------------------------------------------------------------------------- *)
(** ** The record store *)
(* ------------------------------------------------------------------------- *)

Module Store.

(** The [status] column of a workspace. *)
Inductive status := pending | starting | running | stopped | error.

Global Instance status_eq_dec : EqDecision status.
Proof. solve_decision. Defined.

Record Workspace := {
  id : string;
  name : string;
  githubRepo : string;
  githubBranch : string;
  userId : string;
  status_of : status;
  containerId : option string;
}.

(** The tables the controller reads and writes. New workspaces take their
    identifier from [cuid], the store's generator, at the count of the
    workspaces created so far. *)
Record t := {
  workspaces : gmap string Workspace;
  providers : list LLMProvider;
  skills : list Skill;
  cuid : nat → string;
  created : nat;
}.

Definition with_workspaces (ws : gmap string Workspace) (s : t) : t :=
  {| workspaces := ws; providers := providers s; skills := skills s;
     cuid := cuid s; created := created s |}.

(** [prisma.workspace.create({ data })] *)
Definition create (name githubRepo githubBranch userId : string) (st : status)
    (s : t) : Workspace * t :=
  let w := {| id := cuid s (created s); name := name; githubRepo := githubRepo;
              githubBranch := githubBranch; userId := userId;
              status_of := st; containerId := None |} in
  (w, {| workspaces := <[id w := w]> (workspaces s); providers := providers s;
         skills := skills s; cuid := cuid s; created := S (created s) |}).

(** [prisma.workspace.update({ where: { id }, data })]: the status, and
    the container handle when one is given. *)
Definition update (i : string) (st : status) (cid : option string) (s : t) : t :=
  with_workspaces
    (alter (λ w, {| id := id w; name := name w; githubRepo := githubRepo w;
                    githubBranch := githubBranch w; userId := userId w;
                    status_of := st;
                    containerId := match cid with Some c => Some c | None => containerId w end |})
       i (workspaces s)) s.

(** A [where] clause on the owner: [undefined] filters nothing. *)
Definition owner_matches (u : option string) (owner : string) : bool :=
  match u with
  | Some u => String.eqb owner u
  | None => true
  end.

(** [prisma.skill.findMany({ where: { userId } })] *)
Definition findSkills (u : option string) (s : t) : list Skill :=
  List.filter (λ k, owner_matches u (s_userId k)) (skills s).

(** [prisma.lLMProvider.findMany({ where: { userId, isEnabled: true },
    include: { models: { where: { isEnabled: true } } } })] *)
Definition findProviders (u : option string) (s : t) : list LLMProvider :=
  map (λ p, {| p_userId := p_userId p; providerId := providerId p;
               p_isDefault := p_isDefault p; p_isEnabled := p_isEnabled p;
               baseUrl := baseUrl p; envVarName := envVarName p;
               apiKey := apiKey p; headers := headers p;
               models := List.filter m_isEnabled (models p) |})
    (List.filter (λ p, owner_matches u (p_userId p) && p_isEnabled p) (providers s)).

(** What the controller asks of the store, as it shows in a run. *)
Inductive op :=
| Create (i : string) (st : status)
| Update (i : string) (st : status)
| FindSkills
| FindProviders.

End Store.

(* ------------------------------------------------------------------------- *)
(** ** Asynchronous operations over the runtime and the store *)
(* ------------------------------------------------------------------------- *)

(** One step of a run, in the order the requests are issued. *)
Inductive event :=
| Rt (c : Runtime.call) (r : outcome Runtime.reply)
| Db (o : Store.op).

Record world := {
  rt : Runtime.t;
  store : Store.t;
  trace : list event;
}.

(** An [async] function: from a world to what it returns or throws, and
    the world it leaves. *)
Definition Async (A : Type) : Type := world → outcome A * world.

Global Instance Async_ret : MRet Async := λ A a w, (Returned a, w).
Global Instance Async_bind : MBind Async := λ A B f m w,
  match m w with
  | (Returned a, w') => f a w'
  | (Threw e, w') => (Threw e, w')
  end.
Global Instance Async_throw : MThrow error Async := λ A e w, (Threw e, w).

(** [try { m } catch (e) { h e }] *)
Definition try_catch {A} (m : Async A) (h : error → Async A) : Async A := λ w,
  match m w with
  | (Returned a, w') => (Returned a, w')
  | (Threw e, w') => h e w'
  end.

(** [m.catch(() => { })]: whatever [m] does, the result is fulfilled. *)
Definition swallow {A} (m : Async A) : Async unit := λ w,
  (Returned tt, (m w).2).

(** The requests of a run, without their answers. *)
Definition calls (evs : list event) : list Runtime.call :=
  omap (λ ev, match ev with Rt c _ => Some c | Db _ => None end) evs.

(** What a run added to the trace. *)
Definition new_events (w w' : world) : list event :=
  drop (length (trace w)) (trace w').

(* ------------------------------------------------------------------------- *)
(** ** [src/lib/docker.ts] *)
(* ------------------------------------------------------------------------- *)

Module Docker.
Import Runtime.

Record WorkspaceContainerConfig := {
  workspaceId : string;
  userId : option string;
  githubRepo : string;
  githubBranch : option string;
  githubToken : option string;
}.

(** What [createWorkspaceContainer] returns. *)
Record Handles := {
  codeServerContainerId : option string;
  opencodeContainerId : option string;
  networkName : string;
  volumeName : string;
}.

(** [{ success: true }] *)
Record Success := { success : bool }.

Definition gitImage : string := "alpine/git:latest".
Definition codeServerImage : string := "codercom/code-server:latest".
Definition opencodeImage : string :=
  "ghcr.io/anomalyco/opencode:0.0.0-beta-202601311004".

(** The editor settings written into the code-server container. *)
Definition vscodeSettings : list (string * JS.scalar) :=
  [ ("workbench.startupEditor", JS.JStr "none");
    ("workbench.welcomePage.walkthroughs.openOnInstall", JS.JBool false);
    ("workbench.tips.enabled", JS.JBool false);
    ("security.workspace.trust.enabled", JS.JBool false);
    ("security.workspace.trust.startupPrompt", JS.JStr "never");
    ("git.openRepositoryInParentFolders", JS.JStr "always");
    ("workbench.colorTheme", JS.JStr "Default Dark Modern");
    ("window.autoDetectColorScheme", JS.JBool true);
    ("telemetry.telemetryLevel", JS.JStr "off");
    ("update.mode", JS.JStr "none");
    ("extensions.autoUpdate", JS.JBool false);
    ("workbench.secondarySideBar.visible", JS.JBool false);
    ("workbench.secondarySideBar.defaultVisibility", JS.JStr "hidden");
    ("workbench.activityBar.location", JS.JStr "default");
    ("breadcrumbs.enabled", JS.JBool true);
    ("editor.minimap.enabled", JS.JBool false);
    ("workbench.layoutControl.enabled", JS.JBool false) ].

(** The names every resource of a workspace derives from its identifier. *)
Definition network_of (workspaceId : string) : string :=
  "workspace-" +:+ workspaceId.
Definition data_volume_of (workspaceId : string) : string :=
  "workspace-" +:+ workspaceId +:+ "-data".
Definition opencode_volume_of (workspaceId : string) : string :=
  "workspace-" +:+ workspaceId +:+ "-opencode".
Definition init_of (workspaceId : string) : string :=
  "init-" +:+ workspaceId.
Definition code_server_of (workspaceId : string) : string :=
  "code-server-" +:+ workspaceId.
Definition opencode_of (workspaceId : string) : string :=
  "opencode-" +:+ workspaceId.

(** The options of the three [docker.createContainer] calls. *)
Definition initSpec (workspaceId githubBranch repoUrl : string) : ContainerSpec :=
  {| name := init_of workspaceId;
     Image := gitImage;
     User := None;
     Entrypoint := ["sh"; "-c"];
     Cmd := ["git clone --branch " +:+ githubBranch +:+ " " +:+ repoUrl +:+ " /workspace"];
     Env := [];
     ExposedPorts := [];
     Binds := [(data_volume_of workspaceId, "/workspace")];
     NetworkMode := None;
     RestartPolicy := None;
     Memory := None;
     NanoCpus := None;
     Labels := Labels.initLabels workspaceId |}.

Definition codeServerSpec (workspaceId domain : string) : ContainerSpec :=
  {| name := code_server_of workspaceId;
     Image := "codercom/code-server:latest";
     User := Some "1000:1000";
     Entrypoint := ["sh"; "-c"];
     Cmd := ["mkdir -p /home/coder/.local/share/code-server/User && " +:+
             "echo '" +:+ JS.stringify_flat vscodeSettings +:+
             "' > /home/coder/.local/share/code-server/User/settings.json && " +:+
             "exec code-server --bind-addr 0.0.0.0:8443 --auth none /home/coder/workspace"];
     Env := ["TZ=UTC"];
     ExposedPorts := ["8443/tcp"];
     Binds := [(data_volume_of workspaceId, "/home/coder/workspace")];
     NetworkMode := Some (network_of workspaceId);
     RestartPolicy := Some "unless-stopped";
     Memory := Some (2 * 1024 * 1024 * 1024);
     NanoCpus := Some (2 * 1000000000);
     Labels := Labels.codeServerLabels workspaceId domain |}.

Definition opencodeSpec (workspaceId domain : string) (opencodeEnv : list string)
    (opencodeConfigCommand skillsSetupCommands : string) : ContainerSpec :=
  {| name := opencode_of workspaceId;
     Image := opencodeImage;
     User := None;
     Entrypoint := ["sh"; "-c"];
     Cmd := ["apk add --no-cache git github-cli nodejs npm python3 sqlite" +:+
             " && " +:+ opencodeConfigCommand +:+
             (if JS.truthy (Some skillsSetupCommands)
              then " && " +:+ skillsSetupCommands else "") +:+
             " && cd /workspace && exec opencode web --port 3001 --hostname 0.0.0.0"];
     Env := opencodeEnv;
     ExposedPorts := ["3001/tcp"; "3000/tcp"];
     Binds := [(data_volume_of workspaceId, "/workspace");
               (opencode_volume_of workspaceId, "/root/.local/share/opencode")];
     NetworkMode := Some (network_of workspaceId);
     RestartPolicy := Some "unless-stopped";
     Memory := Some (4 * 1024 * 1024 * 1024);
     NanoCpus := Some (2 * 1000000000);
     Labels := Labels.opencodeLabels workspaceId domain |}.

(** [initResult.StatusCode] and [container.id] *)
Definition StatusCode (r : reply) : option Z :=
  match r with ExitStatus c => Some c | _ => None end.
Definition id_of (r : reply) : option string :=
  match r with ContainerId i => Some i | _ => None end.

(** A call of [pullImageIfNeeded] between two of its suspension points,
    with the answer that is on its way. *)
Inductive pull_task :=
| Listing (image : string) (r : outcome reply)    (* awaiting docker.listImages *)
| Pulling (image : string) (r : outcome reply)    (* awaiting the callback of docker.pull *)
| Following (image : string) (r : outcome reply)  (* awaiting followProgress *)
| Settled (r : outcome unit).

Section WithEnvironment.
Variable H : Host.
Variable P : Plan.

(** One request to the runtime, awaited. *)
Definition request (c : call) : Async reply := λ w,
  let '(r, s) := exec P (length (trace w)) c (rt w) in
  (r, {| rt := s; store := store w; trace := trace w ++ [Rt c r] |}).

(** One request sent without awaiting it: its answer is kept aside. *)
Definition send (c : call) : Async (outcome reply) := λ w,
  let '(r, w') := request c w in (Returned r, w').

(** The two reads of the store. *)
Definition findSkills (u : option string) : Async (list Skill) := λ w,
  (Returned (Store.findSkills u (store w)),
   {| rt := rt w; store := store w; trace := trace w ++ [Db Store.FindSkills] |}).
Definition findProviders (u : option string) : Async (list LLMProvider) := λ w,
  (Returned (Store.findProviders u (store w)),
   {| rt := rt w; store := store w; trace := trace w ++ [Db Store.FindProviders] |}).

(** *** [pullImageIfNeeded] *)

(** The call runs up to its first [await]. *)
Definition pullImageIfNeeded (imageName : string) : Async pull_task :=
  r ← send (ListImages imageName); mret (Listing imageName r).

(** The call runs on when the answer it awaits arrives: a non-empty
    listing fulfils it; an empty or failed listing starts the pull; an
    error of the pull or of its progress rejects it. *)
Definition resume (t : pull_task) : Async pull_task :=
  match t with
  | Listing image (Returned (ImageList (_ :: _))) => mret (Settled (Returned tt))
  | Listing image _ => r ← send (Pull image); mret (Pulling image r)
  | Pulling image (Threw e) => mret (Settled (Threw e))
  | Pulling image (Returned _) =>
      r ← send (FollowProgress image); mret (Following image r)
  | Following image (Threw e) => mret (Settled (Threw e))
  | Following image (Returned _) => mret (Settled (Returned tt))
  | Settled r => mret (Settled r)
  end.

(** A call taken to its end: at most three answers. *)
Definition settle (t : pull_task) : Async unit :=
  t1 ← resume t; t2 ← resume t1; t3 ← resume t2;
  match t3 with
  | Settled (Threw e) => mthrow e
  | _ => mret tt
  end.

(** When no order is given the answers arrive call by call. *)
Fixpoint in_order (tasks : list pull_task) : Async unit :=
  match tasks with
  | [] => mret tt
  | t :: tasks' => settle t ;; in_order tasks'
  end.

(** [await Promise.all(tasks)]: the answers arrive in the order
    [order] gives (an index that names no call is skipped); the first
    rejection rejects the whole at once, leaving the other calls
    behind; when all are fulfilled the whole is. *)
Fixpoint promise_all (order : list nat) (tasks : list pull_task) : Async unit :=
  match order with
  | [] => in_order tasks
  | i :: order' =>
      match tasks !! i with
      | None => promise_all order' tasks
      | Some t =>
          t' ← resume t;
          match t' with
          | Settled (Threw e) => mthrow e
          | _ => promise_all order' (<[i := t']> tasks)
          end
      end
  end.

(** *** [cleanupWorkspace] *)
Definition cleanupWorkspace (workspaceId : string) : Async unit :=
  let networkName := "workspace-" +:+ workspaceId in
  let volumeName := "workspace-" +:+ workspaceId +:+ "-data" in
  let opencodeDataVolume := "workspace-" +:+ workspaceId +:+ "-opencode" in
  try_catch
    (let initContainer := "init-" +:+ workspaceId in
     swallow (request (RemoveContainer initContainer true)))
    (λ _, mret tt) ;;
  try_catch (swallow (request (RemoveNetwork networkName))) (λ _, mret tt) ;;
  try_catch (swallow (request (RemoveVolume volumeName))) (λ _, mret tt) ;;
  try_catch (swallow (request (RemoveVolume opencodeDataVolume))) (λ _, mret tt).

(** *** [createWorkspaceContainer] *)
Definition createWorkspaceContainer (config : WorkspaceContainerConfig)
    : Async Handles :=
  let workspaceId := workspaceId config in
  let userId := userId config in
  let githubRepo := githubRepo config in
  let githubBranch := default "main" (githubBranch config) in
  let githubToken := githubToken config in
  let networkName := "workspace-" +:+ workspaceId in
  let mainNetwork := Labels.mainNetwork in
  let volumeName := "workspace-" +:+ workspaceId +:+ "-data" in
  let opencodeDataVolume := "workspace-" +:+ workspaceId +:+ "-opencode" in
  let repoUrl := Config.repoUrl githubToken githubRepo in
  let domain := Labels.domain H in
  try_catch
    (t1 ← pullImageIfNeeded gitImage;
     t2 ← pullImageIfNeeded codeServerImage;
     t3 ← pullImageIfNeeded opencodeImage;
     promise_all (schedule P) [t1; t2; t3] ;;
     request (CreateVolume volumeName) ;;
     request (CreateVolume opencodeDataVolume) ;;
     skills ← findSkills userId;
     providers ← findProviders userId;
     request (CreateNetwork networkName) ;;
     let skillsSetupCommands := Config.skillsSetupCommands H skills in
     let opencodeConfig := Config.opencodeConfig H providers in
     let opencodeConfigJson := JSON_stringify H opencodeConfig in
     let opencodeConfigBase64 := base64 H opencodeConfigJson in
     let opencodeConfigCommand :=
       "mkdir -p /root/.config/opencode && echo '" +:+ opencodeConfigBase64 +:+
       "' | base64 -d > /root/.config/opencode/opencode.json" in
     let initContainer := "init-" +:+ workspaceId in
     request (CreateContainer (initSpec workspaceId githubBranch repoUrl)) ;;
     request (Start initContainer) ;;
     initResult ← request (Wait initContainer);
     (if decide (StatusCode initResult = Some 0) then mret tt
      else request (Logs initContainer) ;;
           mthrow (CloneFailed (StatusCode initResult))) ;;
     request (RemoveContainer initContainer false) ;;
     codeServerContainer ← request (CreateContainer (codeServerSpec workspaceId domain));
     let opencodeEnv := Config.opencodeEnv githubToken providers in
     opencodeContainer ←
       request (CreateContainer
         (opencodeSpec workspaceId domain opencodeEnv
            opencodeConfigCommand skillsSetupCommands));
     request (Connect mainNetwork ("code-server-" +:+ workspaceId)) ;;
     request (Connect mainNetwork ("opencode-" +:+ workspaceId)) ;;
     request (Start ("code-server-" +:+ workspaceId)) ;;
     request (Start ("opencode-" +:+ workspaceId)) ;;
     mret {| codeServerContainerId := id_of codeServerContainer;
             opencodeContainerId := id_of opencodeContainer;
             networkName := networkName;
             volumeName := volumeName |})
    (λ error,
       try_catch (cleanupWorkspace workspaceId) (λ cleanupError, mret tt) ;;
       mthrow error).

(** *** [stopWorkspaceContainer], [startWorkspaceContainer] *)
Definition stopWorkspaceContainer (workspaceId : string) : Async Success :=
  try_catch
    (let codeServerContainer := "code-server-" +:+ workspaceId in
     let opencodeContainer := "opencode-" +:+ workspaceId in
     swallow (request (Stop codeServerContainer)) ;;
     swallow (request (Stop opencodeContainer)) ;;
     mret {| success := true |})
    (λ error, mthrow error).

Definition startWorkspaceContainer (workspaceId : string) : Async Success :=
  try_catch
    (let codeServerContainer := "code-server-" +:+ workspaceId in
     let opencodeContainer := "opencode-" +:+ workspaceId in
     swallow (request (Start codeServerContainer)) ;;
     swallow (request (Start opencodeContainer)) ;;
     mret {| success := true |})
    (λ error, mthrow error).

(** *** [removeWorkspaceContainer] *)
Definition removeWorkspaceContainer (workspaceId : string) : Async Success :=
  try_catch
    (stopWorkspaceContainer workspaceId ;;
     let codeServerContainer := "code-server-" +:+ workspaceId in
     let opencodeContainer := "opencode-" +:+ workspaceId in
     swallow (request (RemoveContainer codeServerContainer true)) ;;
     swallow (request (RemoveContainer opencodeContainer true)) ;;
     cleanupWorkspace workspaceId ;;
     mret {| success := true |})
    (λ error, mthrow error).

End WithEnvironment.

End Docker.

(* ------------------------------------------------------------------------- *)
(** ** The HTTP handlers *)
(* ------------------------------------------------------------------------- *)

Module Routes.
Import Docker.

Record User := {
  user_id : string;
  user_githubToken : option string;
}.

(** [await auth()] *)
Record Session := { user : option User }.

(** The JSON body of a create-workspace request. *)
Record Body := {
  body_name : option string;
  body_githubRepo : option string;
  body_githubBranch : option string;
}.

Inductive payload :=
| ErrorMessage (error : string)
| WorkspaceJson (workspace : Store.Workspace)
| Ready (ready : bool).

(** [NextResponse.json(payload, { status })] *)
Record Response := { status : Z; json : payload }.

(** The session's user, when there is a session with a user. *)
Definition authenticated (session : option Session) : option User :=
  session ≫= user.

(** *** The store, as the handlers use it *)

Definition workspace_create (name githubRepo githubBranch userId : string)
    (st : Store.status) : Async Store.Workspace := λ w,
  let '(ws, s) := Store.create name githubRepo githubBranch userId st (store w) in
  (Returned ws,
   {| rt := rt w; store := s;
      trace := trace w ++ [Db (Store.Create (Store.id ws) st)] |}).

(** [prisma.workspace.update] rejects when no record has the identifier. *)
Definition workspace_update (i : string) (st : Store.status)
    (cid : option string) : Async Store.Workspace := λ w,
  let s := Store.update i st cid (store w) in
  let w' := {| rt := rt w; store := s; trace := trace w ++ [Db (Store.Update i st)] |} in
  match Store.workspaces s !! i with
  | Some ws => (Returned ws, w')
  | None => (Threw NotFound, w')
  end.

(** *** [POST /api/workspaces] *)
Section Create.
Variable H : Host.
Variable P : Runtime.Plan.

Definition POST_body (session : option Session) (body : option Body)
    : Async Response :=
  match authenticated session with
  | None => mret {| status := 401; json := ErrorMessage "Unauthorized" |}
  | Some u =>
      b ← from_option mret (mthrow BadRequest) body;
      let name := body_name b in
      let githubRepo := body_githubRepo b in
      let githubBranch := default "main" (body_githubBranch b) in
      match name, githubRepo with
      | Some (String c n), Some (String d r) =>
          let name := String c n in
          let githubRepo := String d r in
          workspace ← workspace_create name githubRepo githubBranch
                        (user_id u) Store.pending;
          try_catch
            (workspace_update (Store.id workspace) Store.starting None ;;
             containerInfo ← createWorkspaceContainer H P
               {| workspaceId := Store.id workspace;
                  userId := None;
                  githubRepo := githubRepo;
                  githubBranch := Some githubBranch;
                  githubToken :=
                    if JS.truthy (user_githubToken u)
                    then user_githubToken u else None |};
             updatedWorkspace ← workspace_update (Store.id workspace)
               Store.running (opencodeContainerId containerInfo);
             mret {| status := 200; json := WorkspaceJson updatedWorkspace |})
            (λ error,
               workspace_update (Store.id workspace) Store.error None ;;
               mthrow error)
      | _, _ =>
          mret {| status := 400;
                  json := ErrorMessage "Name and GitHub repository are required" |}
      end
  end.

Definition POST (session : option Session) (body : option Body)
    : Async Response :=
  try_catch (POST_body session body)
    (λ error,
       mret {| status := 500; json := ErrorMessage "Failed to create workspace" |}).

End Create.

(** *** [GET /api/workspaces/:id/health] *)

(** What the probed address does, as seen from [fetch]: it answers with
    an HTTP status after some milliseconds, the request fails after some
    milliseconds, or nothing ever comes back. *)
Inductive behaviour :=
| Responds (http_status : Z) (after_ms : Z)
| Fails (after_ms : Z)
| Silent.

(** [fetch(url, { signal })] under [setTimeout(() => controller.abort(),
    timeout)]: what the promise settles to, and when. *)
Definition fetch (b : behaviour) (timeout : Z) : outcome Z * Z :=
  match b with
  | Responds st t =>
      if t <? timeout then (Returned st, t) else (Threw Aborted, timeout)
  | Fails t =>
      if t <? timeout then (Threw FetchFailed, t) else (Threw Aborted, timeout)
  | Silent => (Threw Aborted, timeout)
  end.

Section Health.
(** What each address of the network does. *)
Variable net : string → behaviour.

(** The inner [try]: the probe, with the time it takes. *)
Definition probe (url : string) : Response * Z :=
  match fetch (net url) 3000 with
  | (Returned response, t) => ({| status := 200; json := Ready true |}, t)
  | (Threw fetchError, t) => ({| status := 200; json := Ready false |}, t)
  end.

Definition health_GET (session : option Session) (id : string)
    (service : option string) (s : Store.t) : Response :=
  match authenticated session with
  | None => {| status := 401; json := ErrorMessage "Unauthorized" |}
  | Some u =>
      match service with
      | Some (String c sv) =>
          let service := String c sv in
          if JS.includes service ["opencode"; "vscode"] then
            match Store.workspaces s !! id with
            | Some workspace =>
                if String.eqb (Store.userId workspace) (user_id u) then
                  let containerName :=
                    if String.eqb service "opencode"
                    then "opencode-" +:+ Store.id workspace
                    else "code-server-" +:+ Store.id workspace in
                  let port : Z :=
                    if String.eqb service "opencode" then 3001 else 8443 in
                  let url := "http://" +:+ containerName +:+ ":" +:+ pretty port in
                  (probe url).1
                else {| status := 404; json := ErrorMessage "Workspace not found" |}
            | None => {| status := 404; json := ErrorMessage "Workspace not found" |}
            end
          else {| status := 400; json := ErrorMessage "Invalid service parameter" |}
      | _ => {| status := 400; json := ErrorMessage "Invalid service parameter" |}
      end
  end.

End Health.

End Routes.

(* ------------------------------------------------------------------------- *)
(** ** [getContainerStatus] and the routes of one workspace *)
(* ------------------------------------------------------------------------- *)

Module Lifecycle.
Import Docker.

(** [{ codeServer: codeServerInfo?.State, opencode: opencodeInfo?.State }] *)
Record ContainerStatus := {
  codeServer : option Runtime.cstate;
  opencode : option Runtime.cstate;
}.

(** The JSON body of a PATCH request: [action] when it is a string. *)
Record PatchBody := { action : option string }.

Inductive payload :=
| ErrorMessage (error : string)
| WorkspaceJson (workspace : Store.Workspace)
| WorkspaceWithStatus (workspace : Store.Workspace)
    (containerStatus : option ContainerStatus)
| SuccessTrue.

(** [NextResponse.json(payload, { status })] *)
Record Response := { status : Z; json : payload }.

(** [prisma.workspace.findFirst({ where: { id, userId } })]: a read of
    the store; it leaves no event. *)
Definition workspace_findFirst (i userId : string)
    : Async (option Store.Workspace) := λ w,
  (Returned
     match Store.workspaces (store w) !! i with
     | Some ws => if String.eqb (Store.userId ws) userId then Some ws else None
     | None => None
     end, w).

(** [prisma.workspace.delete({ where: { id } })] rejects when no record
    has the identifier. *)
Definition workspace_delete (i : string) : Async Store.Workspace := λ w,
  match Store.workspaces (store w) !! i with
  | Some ws =>
      (Returned ws,
       {| rt := rt w;
          store := Store.with_workspaces (delete i (Store.workspaces (store w))) (store w);
          trace := trace w |})
  | None => (Threw NotFound, w)
  end.

Section WithEnvironment.
Variable P : Runtime.Plan.

(** The inspections the runtime fails, by container name. *)
Variable inspect_fault : string → option error.

(** [container.inspect()]: a read of the runtime; it leaves no event. *)
Definition inspect (n : string) : Async Runtime.container := λ w,
  match inspect_fault n with
  | Some e => (Threw e, w)
  | None =>
      match Runtime.containers (rt w) !! n with
      | Some c => (Returned c, w)
      | None => (Threw NotFound, w)
      end
  end.

(** *** [getContainerStatus] *)
Definition getContainerStatus (workspaceId : string)
    : Async (option ContainerStatus) :=
  try_catch
    (let codeServerContainer := "code-server-" +:+ workspaceId in
     let opencodeContainer := "opencode-" +:+ workspaceId in
     codeServerInfo ←
       try_catch (c ← inspect codeServerContainer; mret (Some c)) (λ _, mret None);
     opencodeInfo ←
       try_catch (c ← inspect opencodeContainer; mret (Some c)) (λ _, mret None);
     mret (Some {| codeServer := Runtime.state <$> codeServerInfo;
                   opencode := Runtime.state <$> opencodeInfo |}))
    (λ error, mret None).

(** *** [GET /api/workspaces/:id] *)
Definition GET_body (session : option Routes.Session) (id : string)
    : Async Response :=
  match Routes.authenticated session with
  | None => mret {| status := 401; json := ErrorMessage "Unauthorized" |}
  | Some u =>
      workspace ← workspace_findFirst id (Routes.user_id u);
      match workspace with
      | None => mret {| status := 404; json := ErrorMessage "Workspace not found" |}
      | Some workspace =>
          containerStatus ← getContainerStatus (Store.id workspace);
          mret {| status := 200;
                  json := WorkspaceWithStatus workspace containerStatus |}
      end
  end.

Definition GET (session : option Routes.Session) (id : string) : Async Response :=
  try_catch (GET_body session id)
    (λ error,
       mret {| status := 500; json := ErrorMessage "Failed to fetch workspace" |}).

(** *** [PATCH /api/workspaces/:id] *)
Definition PATCH_body (session : option Routes.Session) (id : string)
    (body : option PatchBody) : Async Response :=
  match Routes.authenticated session with
  | None => mret {| status := 401; json := ErrorMessage "Unauthorized" |}
  | Some u =>
      workspace ← workspace_findFirst id (Routes.user_id u);
      match workspace with
      | None => mret {| status := 404; json := ErrorMessage "Workspace not found" |}
      | Some workspace =>
          b ← from_option mret (mthrow BadRequest) body;
          let action := action b in
          if decide (action = Some "stop") then
            stopWorkspaceContainer P (Store.id workspace) ;;
            updatedWorkspace ←
              Routes.workspace_update (Store.id workspace) Store.stopped None;
            mret {| status := 200; json := WorkspaceJson updatedWorkspace |}
          else if decide (action = Some "start") then
            startWorkspaceContainer P (Store.id workspace) ;;
            updatedWorkspace ←
              Routes.workspace_update (Store.id workspace) Store.running None;
            mret {| status := 200; json := WorkspaceJson updatedWorkspace |}
          else mret {| status := 400; json := ErrorMessage "Invalid action" |}
      end
  end.

Definition PATCH (session : option Routes.Session) (id : string)
    (body : option PatchBody) : Async Response :=
  try_catch (PATCH_body session id body)
    (λ error,
       mret {| status := 500; json := ErrorMessage "Failed to update workspace" |}).

(** *** [DELETE /api/workspaces/:id] *)
Definition DELETE_body (session : option Routes.Session) (id : string)
    : Async Response :=
  match Routes.authenticated session with
  | None => mret {| status := 401; json := ErrorMessage "Unauthorized" |}
  | Some u =>
      workspace ← workspace_findFirst id (Routes.user_id u);
      match workspace with
      | None => mret {| status := 404; json := ErrorMessage "Workspace not found" |}
      | Some workspace =>
          removeWorkspaceContainer P (Store.id workspace) ;;
          workspace_delete (Store.id workspace) ;;
          mret {| status := 200; json := SuccessTrue |}
      end
  end.

Definition DELETE (session : option Routes.Session) (id : string) : Async Response :=
  try_catch (DELETE_body session id)
    (λ error,
       mret {| status := 500; json := ErrorMessage "Failed to delete workspace" |}).

End WithEnvironment.

End Lifecycle.

(* ------------------------------------------------------------------------- *)
(** ** Vocabulary of the properties *)
(* ------------------------------------------------------------------------- *)

(** A string without a dot. *)
Fixpoint dotless (s : string) : bool :=
  match s with
  | "" => true
  | String c s' => negb (Ascii.eqb c ".") && dotless s'
  end.

(** A string without a dollar sign. *)
Fixpoint dollar_free (s : string) : bool :=
  match s with
  | "" => true
  | String c s' => negb (Ascii.eqb c "$") && dollar_free s'
  end.

(** [pat] occurs in [s] after [n] characters. *)
Definition occurs_at (pat s : string) (n : nat) : Prop :=
  ∃ a b, s = a +:+ pat +:+ b ∧ String.length a = n.

(** [pat] occurs in [s]. *)
Definition occurs (pat s : string) : Prop := ∃ n, occurs_at pat s n.

(** [s] is [before], then its leftmost occurrence of [pat], then [rest]. *)
Definition leftmost (pat s before rest : string) : Prop :=
  s = before +:+ pat +:+ rest ∧
  ∀ n, occurs_at pat s n → (String.length before ≤ n)%nat.

(** The models marked default among the models of a list of providers. *)
Definition default_models (providers : list LLMProvider) : list LLMModel :=
  flat_map (λ p, List.filter m_isDefault (models p)) providers.

(** [toLowerCase] on the letters A to Z. *)
Definition lower_ascii (c : ascii) : ascii :=
  let n := nat_of_ascii c in
  if (65 <=? n)%nat && (n <=? 90)%nat then ascii_of_nat (n + 32) else c.

Fixpoint lower (s : string) : string :=
  match s with
  | "" => ""
  | String c s' => String (lower_ascii c) (lower s')
  end.

(** A host for the examples: identifiers are lower-cased letter by letter;
    the encodings, which no example reads, are left as the identity and a
    constant; [DOMAIN] is not set. *)
Definition sample_host : Host :=
  {| toLowerCase := lower; base64 := λ s, s; JSON_stringify := λ _, "{}";
     env_DOMAIN := None |}.

(** Providers for the examples: [provider_A] is not the default provider
    and has a model marked default; [provider_B] is the default provider
    and has none. *)
Definition provider_A : LLMProvider :=
  {| p_userId := "u"; providerId := "Anthropic"; p_isDefault := false;
     p_isEnabled := true; baseUrl := None; envVarName := Some "ANTHROPIC_API_KEY";
     apiKey := Some "sk-a"; headers := None;
     models := [ {| modelId := "claude"; m_isDefault := true; m_isEnabled := true |} ] |}.

Definition provider_B : LLMProvider :=
  {| p_userId := "u"; providerId := "OpenAI"; p_isDefault := true;
     p_isEnabled := true; baseUrl := None; envVarName := Some "OPENAI_API_KEY";
     apiKey := Some "sk-b"; headers := None;
     models := [ {| modelId := "gpt-4o"; m_isDefault := false; m_isEnabled := true |} ] |}.

(** [provider_C] is the default provider and has a model marked default. *)
Definition provider_C : LLMProvider :=
  {| p_userId := "u"; providerId := "OpenAI"; p_isDefault := true;
     p_isEnabled := true; baseUrl := None; envVarName := Some "OPENAI_API_KEY";
     apiKey := Some "sk-c"; headers := None;
     models := [ {| modelId := "gpt-4o"; m_isDefault := true; m_isEnabled := true |} ] |}.

(** The world a request leaves, whatever its answer. *)
Definition step (P : Runtime.Plan) (c : Runtime.call) (w : world) : world :=
  (Docker.request P c w).2.

(** The containers, the network and the volumes that bear the identifier
    of a workspace. *)
Definition workspace_containers (id : string) : list string :=
  [Docker.init_of id; Docker.code_server_of id; Docker.opencode_of id].

(** A container holds a resource of the workspace: it is attached to its
    network or mounts one of its volumes. *)
Definition holds (id : string) (c : Runtime.container) : bool :=
  Runtime.attached (Docker.network_of id) c
  || Runtime.uses_volume (Docker.data_volume_of id) c
  || Runtime.uses_volume (Docker.opencode_volume_of id) c.

(** No network, no volume and no container of the workspace remains. *)
Definition no_resources (id : string) (s : Runtime.t) : Prop :=
  (∀ n, n ∈ workspace_containers id → Runtime.containers s !! n = None)
  ∧ (Docker.network_of id ∉ Runtime.networks s)
  ∧ (Docker.data_volume_of id ∉ Runtime.volumes s)
  ∧ (Docker.opencode_volume_of id ∉ Runtime.volumes s).

(** Only the containers of the workspace hold its network and volumes. *)
Definition exclusive (id : string) (s : Runtime.t) : Prop :=
  ∀ n c, Runtime.containers s !! n = Some c → holds id c = true →
    n ∈ workspace_containers id.

(** No container bears the identifier or holds a resource of the
    workspace: the identifier is new to the runtime. *)
Definition unused (id : string) (s : Runtime.t) : Prop :=
  ∀ n c, Runtime.containers s !! n = Some c →
    (n ∉ workspace_containers id) ∧ holds id c = false.

(** The requests that remove a resource. *)
Definition is_removal (c : Runtime.call) : bool :=
  match c with
  | Runtime.RemoveContainer _ _ | Runtime.RemoveNetwork _ | Runtime.RemoveVolume _ => true
  | _ => false
  end.

(** The runtime carries out the removals it is asked for: it fails none
    of them beyond what its state explains. *)
Definition honours_removals (P : Runtime.Plan) : Prop :=
  ∀ n c, is_removal c = true → Runtime.fault P n c = None.

(** The order of teardown the design document gives. *)
Definition documented_teardown (id : string) : list Runtime.call :=
  [ Runtime.Stop (Docker.code_server_of id); Runtime.Stop (Docker.opencode_of id);
    Runtime.RemoveContainer (Docker.code_server_of id) true;
    Runtime.RemoveContainer (Docker.opencode_of id) true;
    Runtime.RemoveNetwork (Docker.network_of id);
    Runtime.RemoveVolume (Docker.data_volume_of id);
    Runtime.RemoveVolume (Docker.opencode_volume_of id);
    Runtime.RemoveContainer (Docker.init_of id) true ].

(** The order of teardown of [removeWorkspaceContainer]. *)
Definition teardown (id : string) : list Runtime.call :=
  [ Runtime.Stop (Docker.code_server_of id); Runtime.Stop (Docker.opencode_of id);
    Runtime.RemoveContainer (Docker.code_server_of id) true;
    Runtime.RemoveContainer (Docker.opencode_of id) true;
    Runtime.RemoveContainer (Docker.init_of id) true;
    Runtime.RemoveNetwork (Docker.network_of id);
    Runtime.RemoveVolume (Docker.data_volume_of id);
    Runtime.RemoveVolume (Docker.opencode_volume_of id) ].

(** The four removals of [cleanupWorkspace]. *)
Definition cleanup_calls (id : string) : list Runtime.call :=
  [ Runtime.RemoveContainer (Docker.init_of id) true;
    Runtime.RemoveNetwork (Docker.network_of id);
    Runtime.RemoveVolume (Docker.data_volume_of id);
    Runtime.RemoveVolume (Docker.opencode_volume_of id) ].

(** Worlds and plans for the examples: a runtime that holds the proxy
    network and nothing else, an empty store, and plans that fail
    nothing, everything, or the removal of volumes. *)
Definition sample_runtime : Runtime.t :=
  {| Runtime.containers := ∅; Runtime.networks := {[ Labels.mainNetwork ]};
     Runtime.volumes := ∅; Runtime.images := ∅ |}.

Definition sample_store : Store.t :=
  {| Store.workspaces := ∅; Store.providers := []; Store.skills := [];
     Store.cuid := λ n, "w" +:+ pretty n; Store.created := 1 |}.

Definition sample_world : world :=
  {| rt := sample_runtime; store := sample_store; trace := [] |}.

Definition plan_with (f : nat → Runtime.call → option error) (order : list nat)
    : Runtime.Plan :=
  {| Runtime.fault := f; Runtime.exit_code := λ _, 0; Runtime.logs := λ _, "";
     Runtime.new_id := λ n, "id-" +:+ n; Runtime.schedule := order |}.

Definition reliable : Runtime.Plan := plan_with (λ _ _, None) [].

Definition unreachable : Runtime.Plan := plan_with (λ _ _, Some Unreachable) [].

Definition sample_config : Docker.WorkspaceContainerConfig :=
  {| Docker.workspaceId := "w1"; Docker.userId := None;
     Docker.githubRepo := "https://example.com/org/repo.git";
     Docker.githubBranch := Some "main"; Docker.githubToken := None |}.

(** The requests that add to what the runtime holds. *)
Definition creates (c : Runtime.call) : bool :=
  match c with
  | Runtime.CreateVolume _ | Runtime.CreateNetwork _
  | Runtime.CreateContainer _ | Runtime.Connect _ _ => true
  | _ => false
  end.

(** [s'] holds no container, network or volume that [s] did not hold, and
    its containers are configured as they were. *)
Definition shrinks (s s' : Runtime.t) : Prop :=
  (∀ n c', Runtime.containers s' !! n = Some c' →
     ∃ c, Runtime.containers s !! n = Some c
          ∧ Runtime.spec c = Runtime.spec c'
          ∧ Runtime.connected c = Runtime.connected c')
  ∧ Runtime.networks s' ⊆ Runtime.networks s
  ∧ Runtime.volumes s' ⊆ Runtime.volumes s.

(** The requests of [pullImageIfNeeded]. *)
Definition pull_call (c : Runtime.call) : bool :=
  match c with
  | Runtime.ListImages _ | Runtime.Pull _ | Runtime.FollowProgress _ => true
  | _ => false
  end.

Definition pull_event (ev : event) : bool :=
  match ev with
  | Rt c _ => pull_call c
  | Db _ => false
  end.

(** A pull that failed: the request to pull, or the progress of the pull,
    threw. A failed listing is no failed pull: the image is pulled then. *)
Definition failed_pull (ev : event) : option error :=
  match ev with
  | Rt (Runtime.Pull _) (Threw e) | Rt (Runtime.FollowProgress _) (Threw e) => Some e
  | _ => None
  end.

(** The error a call of [pullImageIfNeeded] is bound to end with. *)
Definition doomed (t : Docker.pull_task) : option error :=
  match t with
  | Docker.Pulling _ (Threw e) | Docker.Following _ (Threw e)
  | Docker.Settled (Threw e) => Some e
  | _ => None
  end.

(** [s'] differs from [s] in its images at most, and lost none. *)
Definition same_resources (s s' : Runtime.t) : Prop :=
  Runtime.containers s' = Runtime.containers s
  ∧ Runtime.networks s' = Runtime.networks s
  ∧ Runtime.volumes s' = Runtime.volumes s
  ∧ Runtime.images s ⊆ Runtime.images s'.

(** [w'] is [w] after the events [evs], none of which touched the store. *)
Definition extends (w : world) (evs : list event) (w' : world) : Prop :=
  trace w' = trace w ++ evs ∧ store w' = store w.

(** The answers a call of [pullImageIfNeeded] still awaits, at most. *)
Definition remaining (t : Docker.pull_task) : nat :=
  match t with
  | Docker.Listing _ _ => 3
  | Docker.Pulling _ _ => 2
  | Docker.Following _ _ => 1
  | Docker.Settled _ => 0
  end.

(** What awaiting the calls [tasks] in world [w] comes to: only pull
    requests are sent, and nothing but the images changes; the whole is
    fulfilled only if no call was bound to fail and no pull failed; it is
    rejected only with the error of a call bound to fail or of a pull that
    failed. *)
Definition pull_phase (tasks : list Docker.pull_task) (w : world)
    (res : outcome unit * world) : Prop :=
  ∃ evs,
    extends w evs res.2
    ∧ Forall (λ ev, pull_event ev = true) evs
    ∧ same_resources (rt w) (rt res.2)
    ∧ match res.1 with
      | Returned _ =>
          (∀ j t, tasks !! j = Some t → doomed t = None)
          ∧ Forall (λ ev, failed_pull ev = None) evs
      | Threw e =>
          (∃ j t, tasks !! j = Some t ∧ doomed t = Some e)
          ∨ (∃ ev, ev ∈ evs ∧ failed_pull ev = Some e)
      end.

(** The three listings [createWorkspaceContainer] starts with. *)
Definition listings (l1 l2 l3 : outcome Runtime.reply) : list event :=
  [ Rt (Runtime.ListImages Docker.gitImage) l1;
    Rt (Runtime.ListImages Docker.codeServerImage) l2;
    Rt (Runtime.ListImages Docker.opencodeImage) l3 ].

(** An event is an answered request, or a read of the store. *)
Definition answered (ev : event) : bool :=
  match ev with
  | Rt _ (Threw _) => false
  | _ => true
  end.

(** The container a request is about, by name. *)
Definition target (c : Runtime.call) : option string :=
  match c with
  | Runtime.CreateContainer sp => Some (Runtime.name sp)
  | Runtime.Start n | Runtime.Wait n | Runtime.Logs n | Runtime.Stop n
  | Runtime.RemoveContainer n _ | Runtime.Connect _ n => Some n
  | _ => None
  end.

(** The creation of the container named [n] was asked for and threw. *)
Definition failed_creation (n : string) (ev : event) : bool :=
  match ev with
  | Rt (Runtime.CreateContainer sp) (Threw _) => String.eqb (Runtime.name sp) n
  | _ => false
  end.

(** A plan that fails the creation of the container named [n], and
    nothing else. *)
Definition fails_creation_of (n : string) : Runtime.Plan :=
  plan_with
    (λ _ c, match c with
            | Runtime.CreateContainer sp =>
                if String.eqb (Runtime.name sp) n then Some Unreachable else None
            | _ => None
            end) [].

(** A plan that fails every removal of a volume, and nothing else. *)
Definition keeps_volumes : Runtime.Plan :=
  plan_with
    (λ _ c, match c with
            | Runtime.RemoveVolume _ => Some Unreachable
            | _ => None
            end) [].



(** The world after a provisioning that met no failure. *)
Definition provisioned : world :=
  (Docker.createWorkspaceContainer sample_host reliable sample_config sample_world).2.

(** The events that write the status of a workspace record. *)
Definition status_write (ev : event) : bool :=
  match ev with
  | Db (Store.Create _ _) | Db (Store.Update _ _) => true
  | _ => false
  end.


(* ------------------------------------------------------------------------- *)
(** ** More vocabulary: the configuration, single calls, one workspace *)
(* ------------------------------------------------------------------------- *)

(** The key a provider is configured under. *)
Definition providerKey (H : Host) (p : LLMProvider) : string :=
  toLowerCase H (providerId p).

(** A provider with another API key. *)
Definition with_apiKey (k : option string) (p : LLMProvider) : LLMProvider :=
  {| p_userId := p_userId p; providerId := providerId p; p_isDefault := p_isDefault p;
     p_isEnabled := p_isEnabled p; baseUrl := baseUrl p; envVarName := envVarName p;
     apiKey := k; headers := headers p; models := models p |}.

(** A provider for the examples, with an [Authorization] header among
    its headers. *)
Definition provider_D : LLMProvider :=
  {| p_userId := "u"; providerId := "Mistral"; p_isDefault := false;
     p_isEnabled := true; baseUrl := Some "https://llm.example.com";
     envVarName := Some "MISTRAL_API_KEY"; apiKey := Some "sk-m";
     headers := Some [("Authorization", "Bearer t"); ("X-Org", "acme")];
     models := [] |}.

(** The shell command that writes one skill. *)
Definition skillCommand (H : Host) (skill : Skill) : string :=
  "mkdir -p /root/.config/opencode/skills/" +:+ skill_name skill
  +:+ " && echo '" +:+ base64 H (skill_content skill)
  +:+ "' | base64 -d > /root/.config/opencode/skills/" +:+ skill_name skill
  +:+ "/SKILL.md".

(** The last character of a string. *)
Fixpoint last_char (s : string) : option ascii :=
  match s with
  | "" => None
  | String c "" => Some c
  | String _ s' => last_char s'
  end.

(** The volumes and the routed hosts of a workspace. *)
Definition workspace_volumes (id : string) : list string :=
  [Docker.data_volume_of id; Docker.opencode_volume_of id].

Definition workspace_hosts (id d : string) : list string :=
  (Labels.routing_rules (Labels.codeServerLabels id d)).*2
  ++ (Labels.routing_rules (Labels.opencodeLabels id d)).*2.

(** One call of [pullImageIfNeeded], awaited by itself. *)
Definition pull_alone (P : Runtime.Plan) (image : string) : Async unit :=
  t ← Docker.pullImageIfNeeded P image; Docker.settle P t.

(** The three requests a call of [pullImageIfNeeded] can send. *)
Definition pull_requests (image : string) : list Runtime.call :=
  [Runtime.ListImages image; Runtime.Pull image; Runtime.FollowProgress image].

(** A runtime that holds the image of the init container. *)
Definition runtime_with_git : Runtime.t :=
  {| Runtime.containers := ∅; Runtime.networks := ∅; Runtime.volumes := ∅;
     Runtime.images := {[ Docker.gitImage ]} |}.

(** The init container was waited for and did not exit with status 0. *)
Definition failed_clone (ev : event) : bool :=
  match ev with
  | Rt (Runtime.Wait _) (Returned r) => bool_decide (Docker.StatusCode r ≠ Some 0)
  | _ => false
  end.

(** A plan that fails no request and under which every process exits
    with status 128. *)
Definition clone_fails : Runtime.Plan :=
  {| Runtime.fault := λ _ _, None; Runtime.exit_code := λ _, 128;
     Runtime.logs := λ _, "fatal: repository not found";
     Runtime.new_id := λ n, "id-" +:+ n; Runtime.schedule := [] |}.

(** The creation of the container named [n] was asked for. *)
Definition asks_creation_of (n : string) (ev : event) : bool :=
  match ev with
  | Rt (Runtime.CreateContainer sp) _ => String.eqb (Runtime.name sp) n
  | _ => false
  end.

(** The configuration the create-workspace request provisions with. *)
Definition create_config (s : Store.t) (u : Routes.User) (repo : string)
    (branch : option string) : Docker.WorkspaceContainerConfig :=
  {| Docker.workspaceId := Store.cuid s (Store.created s);
     Docker.userId := None;
     Docker.githubRepo := repo;
     Docker.githubBranch := Some (default "main" branch);
     Docker.githubToken :=
       if JS.truthy (Routes.user_githubToken u) then Routes.user_githubToken u else None |}.

(** A store with one provider, of user [u], and a signed-in user who is
    not [u]. *)
Definition store_of_u : Store.t :=
  {| Store.workspaces := ∅; Store.providers := [provider_D]; Store.skills := [];
     Store.cuid := λ n, String "w" (String (ascii_of_nat (48 + n)) "");
     Store.created := 1 |}.

Definition visitor : Routes.User :=
  {| Routes.user_id := "v"; Routes.user_githubToken := None |}.

(** The signed-in user owns the record stored under [id]. *)
Definition owned (session : option Routes.Session) (id : string) (s : Store.t)
    (ws : Store.Workspace) : Prop :=
  ∃ u, Routes.authenticated session = Some u
       ∧ Store.workspaces s !! id = Some ws
       ∧ Store.userId ws = Routes.user_id u.

(** What [inspect] shows of a container: its state, unless the
    inspection fails or the container is not there. *)
Definition seen_state (inspect_fault : string → option error) (s : Runtime.t)
    (n : string) : option Runtime.cstate :=
  match inspect_fault n with
  | Some _ => None
  | None => Runtime.state <$> Runtime.containers s !! n
  end.

(** A runtime that fails nothing beyond what its state explains. *)
Definition faultless (P : Runtime.Plan) : Prop := ∀ k c, Runtime.fault P k c = None.

(** A store with one record, of user [v], in a world whose runtime holds
    nothing. *)
Definition record_w1 : Store.Workspace :=
  {| Store.id := "w1"; Store.name := "n"; Store.githubRepo := "r";
     Store.githubBranch := "main"; Store.userId := "v";
     Store.status_of := Store.stopped; Store.containerId := None |}.

Definition world_of_v : world :=
  {| rt := sample_runtime;
     store := {| Store.workspaces := {[ "w1" := record_w1 ]}; Store.providers := [];
                 Store.skills := []; Store.cuid := λ n, "w" +:+ pretty n;
                 Store.created := 2 |};
     trace := [] |}.

Definition session_of (u : Routes.User) : option Routes.Session :=
  Some {| Routes.user := Some u |}.

(** What [getContainerStatus] reports when no inspection fails. *)
Definition status_report (id : string) (w : world)
    : outcome (option Lifecycle.ContainerStatus) :=
  (Lifecycle.getContainerStatus (λ _, None) id w).1.

Definition report (editor agent : option Runtime.cstate)
    : outcome (option Lifecycle.ContainerStatus) :=
  Returned (Some {| Lifecycle.codeServer := editor; Lifecycle.opencode := agent |}).

Definition both (st : option Runtime.cstate)
    : outcome (option Lifecycle.ContainerStatus) :=
  report st st.

(** The answer to a request that does not reach a workspace: 401
    without a signed-in user, 404 otherwise. *)
Definition refusal (session : option Routes.Session) : Lifecycle.Response :=
  match Routes.authenticated session with
  | None => {| Lifecycle.status := 401; Lifecycle.json := Lifecycle.ErrorMessage "Unauthorized" |}
  | Some _ =>
      {| Lifecycle.status := 404;
         Lifecycle.json := Lifecycle.ErrorMessage "Workspace not found" |}
  end.

(** A signed-in user other than [v]. *)
Definition stranger : Routes.User :=
  {| Routes.user_id := "x"; Routes.user_githubToken := None |}.

(** The request of an action, and the status recorded for it. *)
Definition action_call (act : string) (n : string) : Runtime.call :=
  if decide (act = "stop") then Runtime.Stop n else Runtime.Start n.

Definition action_status (act : string) : Store.status :=
  if decide (act = "stop") then Store.stopped else Store.running.

(** A request about the images, or about a resource of workspace [id]. *)
Definition about (id : string) (c : Runtime.call) : bool :=
  match c with
  | Runtime.ListImages _ | Runtime.Pull _ | Runtime.FollowProgress _ => true
  | Runtime.CreateVolume v | Runtime.RemoveVolume v =>
      bool_decide (v ∈ workspace_volumes id)
  | Runtime.CreateNetwork n | Runtime.RemoveNetwork n =>
      bool_decide (n = Docker.network_of id)
  | Runtime.CreateContainer sp => bool_decide (Runtime.name sp ∈ workspace_containers id)
  | Runtime.Start n | Runtime.Wait n | Runtime.Logs n | Runtime.Stop n
  | Runtime.RemoveContainer n _ | Runtime.Connect _ n =>
      bool_decide (n ∈ workspace_containers id)
  end.

(** [s'] is [s] but for the resources of workspace [id] and for images
    that were added. *)
Definition same_outside (id : string) (s s' : Runtime.t) : Prop :=
  (∀ n, n ∉ workspace_containers id →
        Runtime.containers s' !! n = Runtime.containers s !! n)
  ∧ (∀ n, n ≠ Docker.network_of id →
          n ∈ Runtime.networks s' ↔ n ∈ Runtime.networks s)
  ∧ (∀ v, v ∉ workspace_volumes id →
          v ∈ Runtime.volumes s' ↔ v ∈ Runtime.volumes s)
  ∧ Runtime.images s ⊆ Runtime.images s'.

(** An operation that changes, in every world, the resources of
    workspace [id] at most, and not the store. *)
Definition confined {A} (id : string) (m : Async A) : Prop :=
  ∀ w, same_outside id (rt w) (rt (m w).2) ∧ store (m w).2 = store w.

(** The containers, the network and the volumes of workspace [id] are in
    [s'] as they are in [s]. *)
Definition untouched (id : string) (s s' : Runtime.t) : Prop :=
  (∀ n, n ∈ workspace_containers id →
        Runtime.containers s' !! n = Runtime.containers s !! n)
  ∧ (Docker.network_of id ∈ Runtime.networks s' ↔ Docker.network_of id ∈ Runtime.networks s)
  ∧ (∀ v, v ∈ workspace_volumes id →
          v ∈ Runtime.volumes s' ↔ v ∈ Runtime.volumes s).

(** The configuration of a second workspace. *)
Definition second_config : Docker.WorkspaceContainerConfig :=
  {| Docker.workspaceId := "w2"; Docker.userId := None;
     Docker.githubRepo := "https://example.com/org/other.git";
     Docker.githubBranch := None; Docker.githubToken := None |}.

(** A record with another status, and another container handle when one
    is given. *)
Definition with_status (st : Store.status) (cid : option string)
    (ws : Store.Workspace) : Store.Workspace :=
  {| Store.id := Store.id ws; Store.name := Store.name ws;
     Store.githubRepo := Store.githubRepo ws; Store.githubBranch := Store.githubBranch ws;
     Store.userId := Store.userId ws; Store.status_of := st;
     Store.containerId := match cid with Some c => Some c | None => Store.containerId ws end |}.

(* ------------------------------------------------------------------------- *)
(** ** Facts about strings *)
(* ------------------------------------------------------------------------- *)

Section StringFacts.

Lemma app_String a s t : String a s +:+ t = String a (s +:+ t).
Proof. reflexivity. Qed.

Lemma app_empty_l t : "" +:+ t = t.
Proof. reflexivity. Qed.

Lemma app_empty_r s : s +:+ "" = s.
Proof. induction s as [|a s IH]; [reflexivity|]. rewrite app_String. congruence. Qed.

Lemma app_assoc_s s t u : (s +:+ t) +:+ u = s +:+ t +:+ u.
Proof. induction s as [|a s IH]; [reflexivity|]. rewrite !app_String. congruence. Qed.

Lemma length_app_s s t :
  String.length (s +:+ t) = (String.length s + String.length t)%nat.
Proof.
  induction s as [|a s IH]; [reflexivity|].
  rewrite app_String. simpl. congruence.
Qed.

Lemma app_inv_empty s t : s +:+ t = t → s = "".
Proof.
  intros E. apply (f_equal String.length) in E. rewrite length_app_s in E.
  destruct s; [reflexivity|]. simpl in E. lia.
Qed.

Lemma app_inj_r s1 s2 t : s1 +:+ t = s2 +:+ t → s1 = s2.
Proof.
  revert s2. induction s1 as [|a s1 IH]; intros s2 E.
  - symmetry. by apply app_inv_empty with t.
  - destruct s2 as [|b s2].
    + by apply app_inv_empty in E.
    + rewrite !app_String in E. injection E as -> E. f_equal. by apply IH.
Qed.

(** [strip_prefix] decides whether a string starts with another. *)
Lemma strip_prefix_Some p s r : JS.strip_prefix p s = Some r ↔ s = p +:+ r.
Proof.
  revert s. induction p as [|a p IH]; intros s; simpl.
  - rewrite app_empty_l. split; congruence.
  - rewrite app_String. destruct s as [|b s]; [split; discriminate|].
    destruct (Ascii.eqb a b) eqn:E.
    + apply Ascii.eqb_eq in E as ->. rewrite IH. split; congruence.
    + apply Ascii.eqb_neq in E. split; [discriminate|congruence].
Qed.

Lemma strip_prefix_app p r : JS.strip_prefix p (p +:+ r) = Some r.
Proof. by apply strip_prefix_Some. Qed.

Lemma strip_prefix_None p s : JS.strip_prefix p s = None ↔ ∀ r, s ≠ p +:+ r.
Proof.
  destruct (JS.strip_prefix p s) as [r|] eqn:E.
  - apply strip_prefix_Some in E. split; [discriminate|]. intros Hr. by destruct (Hr r).
  - split; [|done]. intros _ r Hr. apply strip_prefix_Some in Hr. congruence.
Qed.

Lemma strip_suffix_unfold suf s :
  Labels.strip_suffix suf s =
    if String.eqb s suf then Some ""
    else match s with
         | "" => None
         | String c s' => String c <$> Labels.strip_suffix suf s'
         end.
Proof. by destruct s. Qed.

(** [strip_suffix] decides whether a string ends with another. *)
Lemma strip_suffix_Some suf s z : Labels.strip_suffix suf s = Some z ↔ s = z +:+ suf.
Proof.
  revert z. induction s as [|c s IH]; intros z; rewrite strip_suffix_unfold.
  - destruct (String.eqb "" suf) eqn:E.
    + apply String.eqb_eq in E as <-. split.
      * by intros [= <-].
      * intros E. by destruct z.
    + apply String.eqb_neq in E. split; [discriminate|]. intros Hz.
      by destruct z.
  - destruct (String.eqb (String c s) suf) eqn:E.
    + apply String.eqb_eq in E as <-. split.
      * by intros [= <-].
      * intros E. symmetry in E. by apply app_inv_empty in E as ->.
    + apply String.eqb_neq in E. split.
      * destruct (Labels.strip_suffix suf s) as [y|] eqn:Hy; simpl; [|done].
        intros [= <-]. rewrite app_String. f_equal. by apply IH.
      * intros Hz. destruct z as [|d z]; [by rewrite app_empty_l in Hz|].
        rewrite app_String in Hz. injection Hz as -> ->.
        by rewrite (proj2 (IH z) eq_refl).
Qed.

Lemma strip_suffix_app z suf : Labels.strip_suffix suf (z +:+ suf) = Some z.
Proof. by apply strip_suffix_Some. Qed.

Lemma strip_suffix_None suf s : Labels.strip_suffix suf s = None ↔ ∀ z, s ≠ z +:+ suf.
Proof.
  destruct (Labels.strip_suffix suf s) as [z|] eqn:E.
  - apply strip_suffix_Some in E. split; [discriminate|]. intros Hz. by destruct (Hz z).
  - split; [|done]. intros _ z Hz. apply strip_suffix_Some in Hz. congruence.
Qed.

(** Two strings that end in a dot and a dotless word end in the same
    word. *)
Lemma dotless_no_dot b g : dotless (b +:+ String "." g) = false.
Proof.
  induction b as [|e b IH]; [reflexivity|].
  rewrite app_String. simpl. rewrite IH. apply andb_false_r.
Qed.

Lemma dotted_suffix_inj a b f g :
  dotless f = true → dotless g = true →
  a +:+ String "." f = b +:+ String "." g → a = b ∧ f = g.
Proof.
  intros Hf Hg. revert b. induction a as [|c a IH]; intros b E.
  - destruct b as [|d b]; [by injection E as ->|].
    rewrite app_empty_l, app_String in E. injection E as <- E.
    subst f. by rewrite dotless_no_dot in Hf.
  - destruct b as [|d b].
    + rewrite app_empty_l, app_String in E. injection E as -> E.
      subst g. by rewrite dotless_no_dot in Hg.
    + rewrite !app_String in E. injection E as -> E.
      by destruct (IH _ E) as [-> ->].
Qed.

End StringFacts.

(* ------------------------------------------------------------------------- *)
(** ** Facts about label maps *)
(* ------------------------------------------------------------------------- *)

Section LabelFacts.

Lemma router_fields_skip f k v l res :
  Labels.router_key f k = None →
  Labels.router_fields f l = res →
  Labels.router_fields f ((k, v) :: l) = res.
Proof. intros Hk <-. unfold Labels.router_fields. simpl. by rewrite Hk. Qed.

Lemma router_fields_take f k v l r res :
  Labels.router_key f k = Some r →
  Labels.router_fields f l = res →
  Labels.router_fields f ((k, v) :: l) = (r, v) :: res.
Proof. intros Hk <-. unfold Labels.router_fields. simpl. by rewrite Hk. Qed.

(** A key outside [traefik.http.routers.] belongs to no router. *)
Lemma router_key_other f k :
  JS.strip_prefix "traefik.http.routers." k = None → Labels.router_key f k = None.
Proof. unfold Labels.router_key. by intros ->. Qed.

(** The key of field [g] of router [r] is a key of field [f] only when
    [f] is [g]. *)
Lemma router_key_field f r g :
  dotless f = true → dotless g = true →
  Labels.router_key f ("traefik.http.routers." +:+ r +:+ "." +:+ g) =
    if String.eqb f g then Some r else None.
Proof.
  intros Hf Hg. unfold Labels.router_key. rewrite strip_prefix_app. simpl.
  destruct (String.eqb f g) eqn:E.
  - apply String.eqb_eq in E as ->. apply strip_suffix_Some. reflexivity.
  - apply String.eqb_neq in E. apply strip_suffix_None. intros z Hz.
    apply (dotted_suffix_inj r z g f) in Hz as [_ ->]; done.
Qed.

Lemma label_cons_ne k k' v l : k ≠ k' → Labels.label k ((k', v) :: l) = Labels.label k l.
Proof.
  intros Hne. simpl. destruct (Labels.label k l); [done|].
  by apply String.eqb_neq in Hne as ->.
Qed.

Lemma label_cons_eq k v l : Labels.label k l = None → Labels.label k ((k, v) :: l) = Some v.
Proof. intros Hl. simpl. by rewrite Hl, String.eqb_refl. Qed.

Lemma option_bind_Some {A B} (x : A) (f : A → option B) : Some x ≫= f = f x.
Proof. reflexivity. Qed.

End LabelFacts.

(** Two strings built from literals around a shared variable differ. *)
Ltac string_neq :=
  let E := fresh "E" in
  intros E;
  repeat first
    [ discriminate E
    | apply (inj (String.append _)) in E ].


(** The router of a label key, for keys built from literals around the
    workspace identifier. *)
Ltac router_key_solve :=
  lazymatch goal with
  | |- Labels.router_key ?f ?k = _ =>
      first
        [ apply router_key_other; reflexivity
        | lazymatch k with
          | ?lit +:+ ?id +:+ ?suf =>
              let pre := eval vm_compute in (JS.strip_prefix "traefik.http.routers." lit) in
              let fld := eval vm_compute in (JS.strip_prefix "." suf) in
              lazymatch pre with
              | Some ?p =>
                  lazymatch fld with
                  | Some ?g => exact (router_key_field f (p +:+ id) g eq_refl eq_refl)
                  end
              end
          end ]
  end.

(** The routers that carry a field, label by label. *)
Ltac router_fields_eval :=
  repeat first
    [ apply router_fields_skip; [router_key_solve|]
    | apply router_fields_take; [router_key_solve|] ];
  reflexivity.

(** The value of a label, for such keys. *)
Ltac label_eval :=
  repeat first
    [ rewrite label_cons_ne by string_neq
    | rewrite label_cons_eq
        by (repeat (rewrite label_cons_ne by string_neq); reflexivity) ].

(** C7. The OpenCode container carries exactly two routing rules, one per
    hostname: [opencode-<id>.<domain>] to port 3001 and the distinct
    [preview-<id>.<domain>] to port 3000; the middleware
    [preview-headers-<id>] sets the response headers [X-Frame-Options] and
    [Content-Security-Policy] to the empty string; and that middleware is
    attached to the preview router alone: no other router of the container
    has a middleware chain, and no router of the code-server container has
    one. *)
Theorem agent_routes_and_preview_middleware (id d : string) :
  let l := Labels.opencodeLabels id d in
  (∀ env cmd skills, Runtime.Labels (Docker.opencodeSpec id d env cmd skills) = l)
  ∧ Labels.routing_rules l =
      [ ("opencode-" +:+ id, "Host(`opencode-" +:+ id +:+ "." +:+ d +:+ "`)");
        ("preview-" +:+ id, "Host(`preview-" +:+ id +:+ "." +:+ d +:+ "`)") ]
  ∧ Labels.backend_port l ("opencode-" +:+ id) = Some "3001"
  ∧ Labels.backend_port l ("preview-" +:+ id) = Some "3000"
  ∧ "opencode-" +:+ id +:+ "." +:+ d ≠ "preview-" +:+ id +:+ "." +:+ d
  ∧ Labels.custom_response_header l ("preview-headers-" +:+ id) "X-Frame-Options" = Some ""
  ∧ Labels.custom_response_header l ("preview-headers-" +:+ id) "Content-Security-Policy"
      = Some ""
  ∧ Labels.middleware_attachments l = [("preview-" +:+ id, "preview-headers-" +:+ id)]
  ∧ Labels.middleware_attachments (Labels.codeServerLabels id d) = [].
Proof.
  intros l. subst l. split; [reflexivity|].
  unfold Labels.opencodeLabels, Labels.codeServerLabels.
  repeat split.
  - unfold Labels.routing_rules. router_fields_eval.
  - unfold Labels.backend_port.
    change ("traefik.http.routers." +:+ ("opencode-" +:+ id) +:+ ".service")
      with ("traefik.http.routers.opencode-" +:+ id +:+ ".service").
    label_eval. rewrite option_bind_Some.
    change ("traefik.http.services." +:+ ("opencode-" +:+ id) +:+ ".loadbalancer.server.port")
      with ("traefik.http.services.opencode-" +:+ id +:+ ".loadbalancer.server.port").
    label_eval. reflexivity.
  - unfold Labels.backend_port.
    change ("traefik.http.routers." +:+ ("preview-" +:+ id) +:+ ".service")
      with ("traefik.http.routers.preview-" +:+ id +:+ ".service").
    label_eval. rewrite option_bind_Some.
    change ("traefik.http.services." +:+ ("preview-" +:+ id) +:+ ".loadbalancer.server.port")
      with ("traefik.http.services.preview-" +:+ id +:+ ".loadbalancer.server.port").
    label_eval. reflexivity.
  - string_neq.
  - unfold Labels.custom_response_header.
    change ("traefik.http.middlewares." +:+ ("preview-headers-" +:+ id)
              +:+ ".headers.customResponseHeaders." +:+ "X-Frame-Options")
      with ("traefik.http.middlewares.preview-headers-" +:+ id
              +:+ ".headers.customResponseHeaders.X-Frame-Options").
    label_eval. reflexivity.
  - unfold Labels.custom_response_header.
    change ("traefik.http.middlewares." +:+ ("preview-headers-" +:+ id)
              +:+ ".headers.customResponseHeaders." +:+ "Content-Security-Policy")
      with ("traefik.http.middlewares.preview-headers-" +:+ id
              +:+ ".headers.customResponseHeaders.Content-Security-Policy").
    label_eval. reflexivity.
  - unfold Labels.middleware_attachments. router_fields_eval.
  - unfold Labels.middleware_attachments. router_fields_eval.
Qed.
Lemma opencode_keys_distinct (id d : string) : NoDup (Labels.opencodeLabels id d).*1.
Proof.
  unfold Labels.opencodeLabels. simpl fmap. cbn [fmap list_fmap fst].
  repeat (apply NoDup_cons; split;
    [ repeat (apply not_elem_of_cons; split; [string_neq|]); apply not_elem_of_nil | ]).
  apply NoDup_nil_2.
Qed.

(* ------------------------------------------------------------------------- *)
(** ** The clone URL and the token *)
(* ------------------------------------------------------------------------- *)

Lemma find_first_unfold pat s :
  JS.find_first pat s =
    match JS.strip_prefix pat s with
    | Some rest => Some ("", rest)
    | None =>
        match s with
        | "" => None
        | String c s' =>
            match JS.find_first pat s' with
            | Some (before, rest) => Some (String c before, rest)
            | None => None
            end
        end
    end.
Proof. by destruct s. Qed.

Lemma occurs_at_tail pat c s n : occurs_at pat s n → occurs_at pat (String c s) (S n).
Proof.
  intros (a & b & -> & <-). exists (String c a), b. by rewrite app_String.
Qed.

(** [find_first] finds the leftmost occurrence. *)
Lemma find_first_leftmost pat s before rest :
  leftmost pat s before rest → JS.find_first pat s = Some (before, rest).
Proof.
  revert s. induction before as [|c before IH]; intros s [-> Hmin];
    rewrite find_first_unfold.
  - by rewrite app_empty_l, strip_prefix_app.
  - destruct (JS.strip_prefix pat _) as [r|] eqn:E.
    + apply strip_prefix_Some in E.
      assert (occurs_at pat (String c before +:+ pat +:+ rest) 0) as H0.
      { exists "", r. by rewrite app_empty_l. }
      apply Hmin in H0. simpl in H0. lia.
    + rewrite app_String, (IH (before +:+ pat +:+ rest)); [done|].
      split; [done|]. intros n Hn. apply (occurs_at_tail pat c) in Hn.
      rewrite <- app_String in Hn. apply Hmin in Hn. simpl in Hn. lia.
Qed.

(** [find_first] finds nothing only where nothing occurs. *)
Lemma find_first_none pat s : ¬ occurs pat s → JS.find_first pat s = None.
Proof.
  induction s as [|c s IH]; intros Hno; rewrite find_first_unfold.
  - destruct (JS.strip_prefix pat "") as [r|] eqn:E; [|done].
    apply strip_prefix_Some in E. destruct Hno. exists 0%nat, "", r. by rewrite app_empty_l.
  - destruct (JS.strip_prefix pat (String c s)) as [r|] eqn:E.
    + apply strip_prefix_Some in E. destruct Hno. exists 0%nat, "", r. by rewrite app_empty_l.
    + rewrite IH; [done|]. intros [n Hn]. apply Hno. exists (S n).
      by apply occurs_at_tail.
Qed.

(** A replacement text without a dollar sign stands for itself. *)
Lemma getSubstitution_dollar_free matched before rest template :
  dollar_free template = true →
  JS.getSubstitution matched before rest template = template.
Proof.
  induction template as [|a t IH]; [done|]. simpl. intros Ht.
  apply andb_true_iff in Ht as [Ha Ht]. apply negb_true_iff in Ha.
  rewrite Ha. f_equal. by apply IH.
Qed.

Lemma dollar_free_app s t :
  dollar_free (s +:+ t) = dollar_free s && dollar_free t.
Proof.
  induction s as [|a s IH]; [done|]. rewrite app_String. simpl.
  rewrite IH. by rewrite andb_assoc.
Qed.

Lemma repoUrl_leftmost tok repo before rest :
  tok ≠ "" → dollar_free tok = true →
  leftmost "https://" repo before rest →
  Config.repoUrl (Some tok) repo = before +:+ "https://" +:+ tok +:+ "@" +:+ rest.
Proof.
  intros Hne Hfree Hleft. unfold Config.repoUrl.
  destruct tok as [|c t]; [done|].
  unfold JS.replace. rewrite (find_first_leftmost _ _ _ _ Hleft).
  rewrite getSubstitution_dollar_free.
  - by rewrite !app_assoc_s.
  - rewrite !dollar_free_app, Hfree. reflexivity.
Qed.

(** C10, as amended. With a token that holds no dollar sign, the clone URL
    is the repository URL with the token placed after its leftmost
    [https://], wherever that stands (at the start in particular); a URL in
    which [https://] does not occur is left as it is; and in both cases
    the token is in the environment of the OpenCode container as
    [GITHUB_TOKEN] and as [GH_TOKEN]. *)
Theorem clone_url_token_after_first_https (tok repo : string) :
  tok ≠ "" → dollar_free tok = true →
  (∀ before rest, leftmost "https://" repo before rest →
     Config.repoUrl (Some tok) repo = before +:+ "https://" +:+ tok +:+ "@" +:+ rest)
  ∧ (∀ rest, repo = "https://" +:+ rest →
       Config.repoUrl (Some tok) repo = "https://" +:+ tok +:+ "@" +:+ rest)
  ∧ (¬ occurs "https://" repo → Config.repoUrl (Some tok) repo = repo)
  ∧ (∀ providers,
       "GITHUB_TOKEN=" +:+ tok ∈ Config.opencodeEnv (Some tok) providers
       ∧ "GH_TOKEN=" +:+ tok ∈ Config.opencodeEnv (Some tok) providers).
Proof.
  intros Hne Hfree. repeat split.
  - intros before rest. by apply repoUrl_leftmost.
  - intros rest ->. apply (repoUrl_leftmost tok _ "" rest Hne Hfree).
    split; [done|]. intros n _. simpl. lia.
  - intros Hno. unfold Config.repoUrl. destruct tok as [|c t]; [done|].
    unfold JS.replace. by rewrite find_first_none.
  - unfold Config.opencodeEnv. destruct tok as [|c t]; [done|].
    apply elem_of_app. left. apply elem_of_cons. by left.
  - unfold Config.opencodeEnv. destruct tok as [|c t]; [done|].
    apply elem_of_app. left. apply elem_of_cons. right. apply elem_of_cons. by left.
Qed.

(** The theorem at the token [tok] and a GitHub URL. *)
Lemma clone_url_token_after_first_https_witness :
  "tok" ≠ "" ∧ dollar_free "tok" = true
  ∧ Config.repoUrl (Some "tok") "https://github.com/o/r.git"
      = "https://tok@github.com/o/r.git".
Proof.
  split; [discriminate|]. split; [reflexivity|].
  apply (clone_url_token_after_first_https "tok" "https://github.com/o/r.git");
    [discriminate | reflexivity | reflexivity].
Defined.

(** C10, as stated, fails: the URL below does not start with [https://],
    and the token is embedded in it all the same. *)
Lemma token_embedded_without_leading_https :
  JS.strip_prefix "https://" "git+https://github.com/o/r.git" = None
  ∧ Config.repoUrl (Some "tok") "git+https://github.com/o/r.git"
      = "git+https://tok@github.com/o/r.git".
Proof. split; reflexivity. Qed.

(* ------------------------------------------------------------------------- *)
(** ** The default model of the configuration *)
(* ------------------------------------------------------------------------- *)

Lemma find_first_true {A} (p : A → bool) l1 x l2 :
  Forall (λ y, p y = false) l1 → p x = true →
  List.find p (l1 ++ x :: l2) = Some x.
Proof.
  intros Hl1 Hx. induction Hl1 as [|y l1 Hy _ IH]; simpl.
  - by rewrite Hx.
  - by rewrite Hy.
Qed.

Lemma find_all_false {A} (p : A → bool) l :
  Forall (λ y, p y = false) l → List.find p l = None.
Proof. intros Hl. induction Hl as [|y l Hy _ IH]; simpl; [done|]. by rewrite Hy. Qed.

Lemma addProvider_model H cfg p : model (Config.addProvider H cfg p) = model cfg.
Proof. reflexivity. Qed.

Lemma foldl_addProvider_model H ps cfg :
  model (foldl (Config.addProvider H) cfg ps) = model cfg.
Proof.
  revert cfg. induction ps as [|p ps IH]; intros cfg; simpl; [done|].
  by rewrite IH, addProvider_model.
Qed.

(** The loop over the providers leaves the default model as it was set. *)
Lemma opencodeConfig_model H providers :
  model (Config.opencodeConfig H providers) = Config.defaultModelRef H providers.
Proof.
  unfold Config.opencodeConfig. destruct providers as [|p ps]; [done|].
  cbn [model]. by rewrite foldl_addProvider_model.
Qed.

(** C9, as amended. The configuration names a default model exactly when
    the first provider marked default has a model marked default; the
    reference is then that provider's identifier in lower case, a slash,
    and the identifier of the first such model. It names none when that
    provider has no model marked default, and none when no provider is
    marked default, however many models are marked default elsewhere. *)
Theorem default_model_of_first_default_provider (H : Host) (providers : list LLMProvider) :
  let cfg := Config.opencodeConfig H providers in
  (∀ l1 p l2 k1 m k2,
     providers = l1 ++ p :: l2 →
     Forall (λ q, p_isDefault q = false) l1 → p_isDefault p = true →
     models p = k1 ++ m :: k2 →
     Forall (λ x, m_isDefault x = false) k1 → m_isDefault m = true →
     model cfg = Some (toLowerCase H (providerId p) +:+ "/" +:+ modelId m))
  ∧ (∀ l1 p l2,
       providers = l1 ++ p :: l2 →
       Forall (λ q, p_isDefault q = false) l1 → p_isDefault p = true →
       Forall (λ x, m_isDefault x = false) (models p) →
       model cfg = None)
  ∧ (Forall (λ q, p_isDefault q = false) providers → model cfg = None).
Proof.
  intros cfg. subst cfg. rewrite opencodeConfig_model.
  unfold Config.defaultModelRef, JS.find. repeat split.
  - intros l1 p l2 k1 m k2 -> Hl1 Hp Hm Hk1 Hmd.
    rewrite (find_first_true _ _ _ _ Hl1 Hp). simpl.
    by rewrite Hm, (find_first_true _ _ _ _ Hk1 Hmd).
  - intros l1 p l2 -> Hl1 Hp Hms.
    rewrite (find_first_true _ _ _ _ Hl1 Hp). simpl.
    by rewrite (find_all_false _ _ Hms).
  - intros Hps. by rewrite (find_all_false _ _ Hps).
Qed.

(** A provider for the examples. *)
Lemma default_model_of_first_default_provider_witness :
  model (Config.opencodeConfig sample_host
    [ {| p_userId := "u"; providerId := "OpenAI"; p_isDefault := true;
         p_isEnabled := true; baseUrl := None; envVarName := None; apiKey := None;
         headers := None;
         models := [ {| modelId := "gpt-4o"; m_isDefault := true; m_isEnabled := true |} ] |} ])
  = Some "openai/gpt-4o".
Proof.
  set (m := {| modelId := "gpt-4o"; m_isDefault := true; m_isEnabled := true |}).
  set (p := {| p_userId := "u"; providerId := "OpenAI"; p_isDefault := true;
               p_isEnabled := true; baseUrl := None; envVarName := None;
               apiKey := None; headers := None; models := [m] |}).
  exact (proj1 (default_model_of_first_default_provider sample_host [p])
           [] p [] [] m [] eq_refl (Forall_nil_2 _) eq_refl eq_refl
           (Forall_nil_2 _) eq_refl).
Defined.

(** C9, as stated, fails both ways. With [provider_A] and [provider_B]
    exactly one model is marked default and the configuration names no
    default model; with [provider_C] and [provider_A] two models are marked
    default and it names one. *)
Lemma default_model_not_by_count :
  length (default_models [provider_A; provider_B]) = 1%nat
  ∧ model (Config.opencodeConfig sample_host [provider_A; provider_B]) = None
  ∧ length (default_models [provider_C; provider_A]) = 2%nat
  ∧ model (Config.opencodeConfig sample_host [provider_C; provider_A])
      = Some "openai/gpt-4o".
Proof. repeat split. Qed.

(* ------------------------------------------------------------------------- *)
(** ** The readiness probe *)
(* ------------------------------------------------------------------------- *)




(* ------------------------------------------------------------------------- *)
(** ** Requests and their effect on the world *)
(* ------------------------------------------------------------------------- *)

Lemma request_eq P c w :
  Docker.request P c w =
    ((Runtime.exec P (length (trace w)) c (rt w)).1,
     {| rt := (Runtime.exec P (length (trace w)) c (rt w)).2;
        store := store w;
        trace := trace w ++ [Rt c (Runtime.exec P (length (trace w)) c (rt w)).1] |}).
Proof. unfold Docker.request. by destruct (Runtime.exec _ _ _ _). Qed.

Lemma step_rt P c w : rt (step P c w) = (Runtime.exec P (length (trace w)) c (rt w)).2.
Proof. unfold step. by rewrite request_eq. Qed.

Lemma step_store P c w : store (step P c w) = store w.
Proof. unfold step. by rewrite request_eq. Qed.

Lemma step_trace P c w :
  trace (step P c w) =
    trace w ++ [Rt c (Runtime.exec P (length (trace w)) c (rt w)).1].
Proof. unfold step. by rewrite request_eq. Qed.

Lemma new_events_app w w' evs : trace w' = trace w ++ evs → new_events w w' = evs.
Proof. intros E. unfold new_events. rewrite E. apply drop_app_length. Qed.


(** *** The lifecycle functions, request by request *)

Lemma stopWorkspaceContainer_eq P id w :
  Docker.stopWorkspaceContainer P id w =
    (Returned {| Docker.success := true |},
     step P (Runtime.Stop (Docker.opencode_of id))
       (step P (Runtime.Stop (Docker.code_server_of id)) w)).
Proof. reflexivity. Qed.

Lemma startWorkspaceContainer_eq P id w :
  Docker.startWorkspaceContainer P id w =
    (Returned {| Docker.success := true |},
     step P (Runtime.Start (Docker.opencode_of id))
       (step P (Runtime.Start (Docker.code_server_of id)) w)).
Proof. reflexivity. Qed.

Lemma cleanupWorkspace_eq P id w :
  Docker.cleanupWorkspace P id w =
    (Returned tt,
     step P (Runtime.RemoveVolume (Docker.opencode_volume_of id))
       (step P (Runtime.RemoveVolume (Docker.data_volume_of id))
          (step P (Runtime.RemoveNetwork (Docker.network_of id))
             (step P (Runtime.RemoveContainer (Docker.init_of id) true) w)))).
Proof. reflexivity. Qed.

Lemma removeWorkspaceContainer_eq P id w :
  Docker.removeWorkspaceContainer P id w =
    (Returned {| Docker.success := true |},
     (Docker.cleanupWorkspace P id
        (step P (Runtime.RemoveContainer (Docker.opencode_of id) true)
           (step P (Runtime.RemoveContainer (Docker.code_server_of id) true)
              (Docker.stopWorkspaceContainer P id w).2))).2).
Proof. reflexivity. Qed.

(* ------------------------------------------------------------------------- *)
(** ** The runtime under removals *)
(* ------------------------------------------------------------------------- *)

Lemma shrinks_refl s : shrinks s s.
Proof. split; [|done]. intros n c Hc. by exists c. Qed.

Lemma shrinks_trans s1 s2 s3 : shrinks s1 s2 → shrinks s2 s3 → shrinks s1 s3.
Proof.
  intros (Hc12 & Hn12 & Hv12) (Hc23 & Hn23 & Hv23). split; [|split; set_solver].
  intros n c3 H3. destruct (Hc23 _ _ H3) as (c2 & H2 & Hs & Hk).
  destruct (Hc12 _ _ H2) as (c1 & H1 & Hs' & Hk'). exists c1. split; [done|].
  split; congruence.
Qed.

Lemma shrinks_set_state s n c st :
  Runtime.containers s !! n = Some c →
  shrinks s (Runtime.with_containers (<[n := Runtime.set_state st c]> (Runtime.containers s)) s).
Proof.
  intros Hn. split; [|done]. simpl. intros m c' Hm.
  destruct (decide (n = m)) as [->|Hne].
  - rewrite lookup_insert_eq in Hm. injection Hm as <-. by exists c.
  - rewrite lookup_insert_ne in Hm by done. by exists c'.
Qed.

(** A request that creates nothing leaves nothing more than there was. *)
Lemma exec_shrinks P k c s : creates c = false → shrinks s (Runtime.exec P k c s).2.
Proof.
  intros Hc. unfold Runtime.exec. destruct (Runtime.fault P k c); [apply shrinks_refl|].
  destruct c; try discriminate Hc; simpl; try apply shrinks_refl.
  - (* FollowProgress *) split; [|done]. intros n c Hn. by exists c.
  - (* Start *)
    destruct (Runtime.containers s !! container) as [c|] eqn:E; [|apply shrinks_refl].
    destruct (Runtime.running c); [apply shrinks_refl|]. by apply shrinks_set_state.
  - (* Wait *)
    destruct (Runtime.containers s !! container) as [c|] eqn:E; [|apply shrinks_refl].
    by apply shrinks_set_state.
  - (* Logs *)
    destruct (Runtime.containers s !! container); apply shrinks_refl.
  - (* Stop *)
    destruct (Runtime.containers s !! container) as [c|] eqn:E; [|apply shrinks_refl].
    destruct (Runtime.running c); [|apply shrinks_refl]. by apply shrinks_set_state.
  - (* RemoveContainer *)
    destruct (Runtime.containers s !! container) as [c|] eqn:E; [|apply shrinks_refl].
    destruct (Runtime.running c && negb force); [apply shrinks_refl|].
    split; [|done]. simpl. intros m c' Hm.
    apply lookup_delete_Some in Hm as [_ Hm]. by exists c'.
  - (* RemoveNetwork *)
    destruct (decide _); [|apply shrinks_refl].
    destruct (Runtime.some_container _ _); [apply shrinks_refl|].
    split; [|split; simpl; set_solver]. intros n c Hn. by exists c.
  - (* RemoveVolume *)
    destruct (decide _); [|apply shrinks_refl].
    destruct (Runtime.some_container _ _); [apply shrinks_refl|].
    split; [|split; simpl; set_solver]. intros n c Hn. by exists c.
Qed.

Lemma step_shrinks P c w : creates c = false → shrinks (rt w) (rt (step P c w)).
Proof. intros Hc. rewrite step_rt. by apply exec_shrinks. Qed.

Lemma shrinks_absent s s' n :
  shrinks s s' → Runtime.containers s !! n = None → Runtime.containers s' !! n = None.
Proof.
  intros [Hc _] Hn. destruct (Runtime.containers s' !! n) as [c'|] eqn:E; [|done].
  destruct (Hc _ _ E) as (c & Hc' & _). congruence.
Qed.

Lemma holds_ext id c c' :
  Runtime.spec c = Runtime.spec c' → Runtime.connected c = Runtime.connected c' →
  holds id c = holds id c'.
Proof.
  intros Hs Hk. unfold holds, Runtime.attached, Runtime.uses_volume.
  by rewrite Hs, Hk.
Qed.

Lemma some_container_false p s :
  (∀ n c, Runtime.containers s !! n = Some c → p c = false) →
  Runtime.some_container p s = false.
Proof.
  intros Hp. unfold Runtime.some_container. apply bool_decide_eq_false.
  intros (n & c & Hn & Hc). rewrite (Hp _ _ Hn) in Hc. discriminate.
Qed.

(** A forced removal the runtime carries out leaves no such container. *)
Lemma remove_container_absent P k n s :
  honours_removals P →
  Runtime.containers (Runtime.exec P k (Runtime.RemoveContainer n true) s).2 !! n = None.
Proof.
  intros HP. unfold Runtime.exec. rewrite HP by done. simpl.
  destruct (Runtime.containers s !! n) as [c|] eqn:E; [|done].
  rewrite andb_false_r. simpl. apply lookup_delete_eq.
Qed.

(** So does the removal of a network no container is attached to. *)
Lemma remove_network_absent P k net s :
  honours_removals P →
  (∀ n c, Runtime.containers s !! n = Some c → Runtime.attached net c = false) →
  net ∉ Runtime.networks (Runtime.exec P k (Runtime.RemoveNetwork net) s).2.
Proof.
  intros HP Hfree. unfold Runtime.exec. rewrite HP by done. simpl.
  destruct (decide _); [|done].
  rewrite some_container_false.
  - simpl. set_solver.
  - intros n c Hn. by rewrite (Hfree _ _ Hn), andb_false_r.
Qed.

(** And the removal of a volume no container mounts. *)
Lemma remove_volume_absent P k v s :
  honours_removals P →
  (∀ n c, Runtime.containers s !! n = Some c → Runtime.uses_volume v c = false) →
  v ∉ Runtime.volumes (Runtime.exec P k (Runtime.RemoveVolume v) s).2.
Proof.
  intros HP Hfree. unfold Runtime.exec. rewrite HP by done. simpl.
  destruct (decide _); [|done].
  rewrite some_container_false; [simpl; set_solver|done].
Qed.

Lemma holds_false id c :
  holds id c = false →
  Runtime.attached (Docker.network_of id) c = false
  ∧ Runtime.uses_volume (Docker.data_volume_of id) c = false
  ∧ Runtime.uses_volume (Docker.opencode_volume_of id) c = false.
Proof.
  unfold holds. intros Hh. apply orb_false_elim in Hh as [Hh ?].
  by apply orb_false_elim in Hh as [? ?].
Qed.

(** The four removals of [cleanupWorkspace], on a runtime in which no
    container other than the init container holds the workspace's network
    or volumes, leave none of them. *)
Lemma cleanup_clears P id w :
  honours_removals P →
  (∀ n c, Runtime.containers (rt w) !! n = Some c →
     n ≠ Docker.init_of id → holds id c = false) →
  let s := rt (Docker.cleanupWorkspace P id w).2 in
  Runtime.containers s !! Docker.init_of id = None
  ∧ (Docker.network_of id ∉ Runtime.networks s)
  ∧ (Docker.data_volume_of id ∉ Runtime.volumes s)
  ∧ (Docker.opencode_volume_of id ∉ Runtime.volumes s)
  ∧ shrinks (rt w) s.
Proof.
  intros HP Hfree. rewrite cleanupWorkspace_eq. cbn [snd].
  set (w1 := step P (Runtime.RemoveContainer (Docker.init_of id) true) w).
  set (w2 := step P (Runtime.RemoveNetwork (Docker.network_of id)) w1).
  set (w3 := step P (Runtime.RemoveVolume (Docker.data_volume_of id)) w2).
  set (w4 := step P (Runtime.RemoveVolume (Docker.opencode_volume_of id)) w3).
  assert (shrinks (rt w) (rt w1)) as S1 by by apply step_shrinks.
  assert (shrinks (rt w1) (rt w2)) as S2 by by apply step_shrinks.
  assert (shrinks (rt w2) (rt w3)) as S3 by by apply step_shrinks.
  assert (shrinks (rt w3) (rt w4)) as S4 by by apply step_shrinks.
  assert (Runtime.containers (rt w1) !! Docker.init_of id = None) as Hinit.
  { unfold w1. rewrite step_rt. by apply remove_container_absent. }
  assert (∀ n c, Runtime.containers (rt w1) !! n = Some c → holds id c = false) as H1.
  { intros n c Hn. destruct (decide (n = Docker.init_of id)) as [->|Hne]; [congruence|].
    destruct (proj1 S1 _ _ Hn) as (c0 & H0 & Hs & Hk).
    rewrite <- (holds_ext id c0 c Hs Hk). by apply (Hfree n). }
  assert (∀ s', shrinks (rt w1) s' →
            ∀ n c, Runtime.containers s' !! n = Some c → holds id c = false) as Hall.
  { intros s' Hs' n c Hn. destruct (proj1 Hs' _ _ Hn) as (c0 & H0 & Hs & Hk).
    rewrite <- (holds_ext id c0 c Hs Hk). by apply (H1 n). }
  assert (Docker.network_of id ∉ Runtime.networks (rt w2)) as Hnet.
  { unfold w2. rewrite step_rt. apply remove_network_absent; [done|].
    intros n c Hn. by apply (holds_false id), (H1 n). }
  assert (Docker.data_volume_of id ∉ Runtime.volumes (rt w3)) as Hdata.
  { unfold w3. rewrite step_rt. apply remove_volume_absent; [done|].
    intros n c Hn. by apply (holds_false id), (Hall _ S2 n). }
  assert (Docker.opencode_volume_of id ∉ Runtime.volumes (rt w4)) as Hoc.
  { unfold w4. rewrite step_rt. apply remove_volume_absent; [done|].
    intros n c Hn. apply (holds_false id), (Hall (rt w3) (shrinks_trans _ _ _ S2 S3) n c Hn). }
  split_and!.
  - apply (shrinks_absent (rt w1)); [|done]. eauto using shrinks_trans.
  - intros Hin. apply Hnet. apply S3, S4, Hin.
  - intros Hin. apply Hdata. apply S4, Hin.
  - done.
  - eauto using shrinks_trans.
Qed.

(* ------------------------------------------------------------------------- *)
(** ** Stop, start and remove *)
(* ------------------------------------------------------------------------- *)

Lemma stop_trace P id w :
  ∃ r1 r2,
    trace (Docker.stopWorkspaceContainer P id w).2 =
      trace w ++ [Rt (Runtime.Stop (Docker.code_server_of id)) r1;
                  Rt (Runtime.Stop (Docker.opencode_of id)) r2].
Proof.
  rewrite stopWorkspaceContainer_eq. cbn [snd]. rewrite !step_trace.
  rewrite <- app_assoc. eauto.
Qed.

(** C4, as amended. [stopWorkspaceContainer] asks the runtime to stop the
    two service containers and ignores the error of each stop, whatever it
    is: it returns success in every world and under every plan, also when
    both stops fail for another reason than the container being absent or
    stopped. *)
Theorem stop_ignores_every_error (P : Runtime.Plan) (id : string) (w : world) :
  (Docker.stopWorkspaceContainer P id w).1 = Returned {| Docker.success := true |}
  ∧ calls (new_events w (Docker.stopWorkspaceContainer P id w).2) =
      [Runtime.Stop (Docker.code_server_of id); Runtime.Stop (Docker.opencode_of id)].
Proof.
  split; [reflexivity|].
  destruct (stop_trace P id w) as (r1 & r2 & E).
  by rewrite (new_events_app _ _ _ E).
Qed.

(** C4, as stated, fails: with the runtime unreachable both stops throw
    [Unreachable], which is no not-found error, and the function returns
    success. *)
Lemma stop_succeeds_when_runtime_unreachable :
  new_events sample_world (Docker.stopWorkspaceContainer unreachable "w1" sample_world).2
    = [Rt (Runtime.Stop "code-server-w1") (Threw Unreachable);
       Rt (Runtime.Stop "opencode-w1") (Threw Unreachable)]
  ∧ (Docker.stopWorkspaceContainer unreachable "w1" sample_world).1
      = Returned {| Docker.success := true |}.
Proof. split; reflexivity. Qed.

Lemma remove_trace P id w :
  ∃ evs,
    trace (Docker.removeWorkspaceContainer P id w).2 = trace w ++ evs
    ∧ calls evs = teardown id.
Proof.
  rewrite removeWorkspaceContainer_eq, cleanupWorkspace_eq, stopWorkspaceContainer_eq.
  cbn [snd]. rewrite !step_trace. rewrite <- !app_assoc.
  eexists. split; [reflexivity|]. reflexivity.
Qed.

(** C2, as amended. [removeWorkspaceContainer] sends, under every plan and
    in every world, these eight requests in this order: stop of the two
    service containers, forced removal of the two service containers,
    forced removal of the init container, removal of the network, removal
    of the data volume, removal of the agent-state volume. Each is sent
    whatever became of the ones before it, and the function returns
    success. *)
Theorem teardown_order (P : Runtime.Plan) (id : string) (w : world) :
  calls (new_events w (Docker.removeWorkspaceContainer P id w).2) = teardown id
  ∧ (Docker.removeWorkspaceContainer P id w).1 = Returned {| Docker.success := true |}.
Proof.
  split; [|reflexivity].
  destruct (remove_trace P id w) as (evs & E & Hc).
  by rewrite (new_events_app _ _ _ E).
Qed.

(** C2, as stated, fails: the init container is removed before the network
    and the volumes, not after them. *)
Lemma init_container_removed_before_network :
  calls (new_events sample_world
           (Docker.removeWorkspaceContainer reliable "w1" sample_world).2)
    = [ Runtime.Stop "code-server-w1"; Runtime.Stop "opencode-w1";
        Runtime.RemoveContainer "code-server-w1" true;
        Runtime.RemoveContainer "opencode-w1" true;
        Runtime.RemoveContainer "init-w1" true;
        Runtime.RemoveNetwork "workspace-w1";
        Runtime.RemoveVolume "workspace-w1-data";
        Runtime.RemoveVolume "workspace-w1-opencode" ]
  ∧ calls (new_events sample_world
             (Docker.removeWorkspaceContainer reliable "w1" sample_world).2)
      ≠ documented_teardown "w1".
Proof. split; [reflexivity|discriminate]. Qed.

(** After [removeWorkspaceContainer], under a plan that honours removals
    and in a runtime where only the workspace's containers hold its
    network and volumes, nothing of the workspace remains. *)
Lemma remove_clears P id w :
  honours_removals P → exclusive id (rt w) →
  let s := rt (Docker.removeWorkspaceContainer P id w).2 in
  no_resources id s ∧ exclusive id s.
Proof.
  intros HP Hex. rewrite removeWorkspaceContainer_eq, stopWorkspaceContainer_eq.
  cbn [snd].
  set (w1 := step P (Runtime.Stop (Docker.code_server_of id)) w).
  set (w2 := step P (Runtime.Stop (Docker.opencode_of id)) w1).
  set (w3 := step P (Runtime.RemoveContainer (Docker.code_server_of id) true) w2).
  set (w4 := step P (Runtime.RemoveContainer (Docker.opencode_of id) true) w3).
  assert (shrinks (rt w) (rt w1)) as S1 by by apply step_shrinks.
  assert (shrinks (rt w1) (rt w2)) as S2 by by apply step_shrinks.
  assert (shrinks (rt w2) (rt w3)) as S3 by by apply step_shrinks.
  assert (shrinks (rt w3) (rt w4)) as S4 by by apply step_shrinks.
  assert (shrinks (rt w) (rt w4)) as S04 by eauto using shrinks_trans.
  assert (Runtime.containers (rt w3) !! Docker.code_server_of id = None) as Hcs.
  { unfold w3. rewrite step_rt. by apply remove_container_absent. }
  assert (Runtime.containers (rt w4) !! Docker.opencode_of id = None) as Hoc.
  { unfold w4. rewrite step_rt. by apply remove_container_absent. }
  assert (Runtime.containers (rt w4) !! Docker.code_server_of id = None) as Hcs4
    by by apply (shrinks_absent (rt w3)).
  assert (∀ n c, Runtime.containers (rt w4) !! n = Some c →
            n ≠ Docker.init_of id → holds id c = false) as Hfree.
  { intros n c Hn Hne. destruct (holds id c) eqn:Hh; [|done].
    destruct (proj1 S04 _ _ Hn) as (c0 & H0 & Hs & Hk).
    rewrite <- (holds_ext id c0 c Hs Hk) in Hh.
    pose proof (Hex _ _ H0 Hh) as Hin. unfold workspace_containers in Hin.
    rewrite !elem_of_cons, elem_of_nil in Hin.
    destruct Hin as [->|[->|[->|[]]]]; congruence. }
  destruct (cleanup_clears P id w4 HP Hfree) as (Hi & Hnet & Hd & Ho & S5).
  split.
  - split_and!; try done. intros n Hin. unfold workspace_containers in Hin.
    rewrite !elem_of_cons, elem_of_nil in Hin.
    destruct Hin as [->|[->|[->|[]]]]; [done| |]; by apply (shrinks_absent (rt w4)).
  - intros n c Hn Hh. exfalso.
    destruct (proj1 S5 _ _ Hn) as (c4 & H4 & Hs & Hk).
    rewrite <- (holds_ext id c4 c Hs Hk) in Hh.
    destruct (decide (n = Docker.init_of id)) as [->|Hne]; [congruence|].
    rewrite (Hfree _ _ H4 Hne) in Hh. discriminate.
Qed.

(** C3, as amended. [removeWorkspaceContainer], [stopWorkspaceContainer]
    and [startWorkspaceContainer] never throw: they return success in
    every world, the one in which nothing of the workspace exists
    included, so a second removal succeeds like the first. When the
    runtime carries out the removals it is asked for and only the
    workspace's containers hold its network and volumes, nothing of the
    workspace remains after one removal, and nothing after a second. *)
Theorem removal_is_idempotent (P : Runtime.Plan) (id : string) (w : world) :
  let first := Docker.removeWorkspaceContainer P id w in
  let second := Docker.removeWorkspaceContainer P id first.2 in
  first.1 = Returned {| Docker.success := true |}
  ∧ second.1 = Returned {| Docker.success := true |}
  ∧ (∀ w', (Docker.stopWorkspaceContainer P id w').1 = Returned {| Docker.success := true |}
           ∧ (Docker.startWorkspaceContainer P id w').1
               = Returned {| Docker.success := true |}
           ∧ (Docker.removeWorkspaceContainer P id w').1
               = Returned {| Docker.success := true |})
  ∧ (honours_removals P → exclusive id (rt w) →
       no_resources id (rt first.2) ∧ no_resources id (rt second.2)).
Proof.
  intros first second. split_and!; try reflexivity.
  - intros w'. split_and!; reflexivity.
  - intros HP Hex. destruct (remove_clears P id w HP Hex) as [Hno1 Hex1].
    split; [done|]. by apply (remove_clears P id first.2 HP Hex1).
Qed.

(* ------------------------------------------------------------------------- *)
(** ** The pulls *)
(* ------------------------------------------------------------------------- *)

Lemma same_resources_refl s : same_resources s s.
Proof. done. Qed.

Lemma same_resources_trans s1 s2 s3 :
  same_resources s1 s2 → same_resources s2 s3 → same_resources s1 s3.
Proof.
  intros (Hc & Hn & Hv & Hi) (Hc' & Hn' & Hv' & Hi').
  split_and!; [congruence..|set_solver].
Qed.

Lemma exec_pull_same P k c s :
  pull_call c = true → same_resources s (Runtime.exec P k c s).2.
Proof.
  intros Hc. unfold Runtime.exec. destruct (Runtime.fault P k c); [done|].
  destruct c; try discriminate Hc; simpl; [done|done|].
  split_and!; [done..|set_solver].
Qed.

Lemma extends_refl w : extends w [] w.
Proof. split; [by rewrite app_nil_r|done]. Qed.

Lemma extends_trans w1 evs1 w2 evs2 w3 :
  extends w1 evs1 w2 → extends w2 evs2 w3 → extends w1 (evs1 ++ evs2) w3.
Proof. intros [E1 S1] [E2 S2]. split; [by rewrite E2, E1, app_assoc|congruence]. Qed.

Lemma send_eq P c w :
  Docker.send P c w =
    (Returned (Runtime.exec P (length (trace w)) c (rt w)).1, step P c w).
Proof. unfold Docker.send, step. by rewrite request_eq. Qed.

Lemma step_extends P c w :
  extends w [Rt c (Runtime.exec P (length (trace w)) c (rt w)).1] (step P c w).
Proof. split; [apply step_trace|apply step_store]. Qed.

(** What one answer does to a call of [pullImageIfNeeded]: it never
    throws; it sends at most one request, a pull request; a call bound to
    fail stays so, with the same error and without a further request; a
    call not bound to fail becomes so exactly when the request it sends
    fails, with that error. *)
Lemma resume_spec P t w :
  ∃ t' evs w',
    Docker.resume P t w = (Returned t', w')
    ∧ extends w evs w'
    ∧ Forall (λ ev, pull_event ev = true) evs
    ∧ same_resources (rt w) (rt w')
    ∧ (remaining t' ≤ remaining t - 1)%nat
    ∧ match doomed t with
      | Some e => doomed t' = Some e ∧ evs = []
      | None =>
          match doomed t' with
          | Some e => ∃ ev, evs = [ev] ∧ failed_pull ev = Some e
          | None => Forall (λ ev, failed_pull ev = None) evs
          end
      end.
Proof.
  assert (∀ c image (K : string → outcome Runtime.reply → Docker.pull_task),
            pull_call c = true →
            (∀ o, remaining (K image o) ≤ remaining t - 1)%nat →
            (∀ e, failed_pull (Rt c (Threw e)) = Some e) →
            (∀ a, failed_pull (Rt c (Returned a)) = None) →
            (∀ e, doomed (K image (Threw e)) = Some e) →
            (∀ a, doomed (K image (Returned a)) = None) →
            ∃ t' evs w',
              (r ← Docker.send P c; mret (K image r)) w = (Returned t', w')
              ∧ extends w evs w'
              ∧ Forall (λ ev, pull_event ev = true) evs
              ∧ same_resources (rt w) (rt w')
              ∧ (remaining t' ≤ remaining t - 1)%nat
              ∧ match doomed t' with
                | Some e => ∃ ev, evs = [ev] ∧ failed_pull ev = Some e
                | None => Forall (λ ev, failed_pull ev = None) evs
                end) as Hissue.
  { intros c image K Hc Hrem Hfe Hfa Hde Hda.
    exists (K image (Runtime.exec P (length (trace w)) c (rt w)).1),
      [Rt c (Runtime.exec P (length (trace w)) c (rt w)).1], (step P c w).
    split; [unfold mbind, Async_bind; by rewrite send_eq|].
    split; [apply step_extends|].
    split; [by repeat constructor|].
    split; [rewrite step_rt; by apply exec_pull_same|].
    split; [apply Hrem|].
    destruct (Runtime.exec P (length (trace w)) c (rt w)).1 as [a|e].
    - rewrite Hda. repeat constructor. apply Hfa.
    - rewrite Hde. eexists. split; [reflexivity|]. apply Hfe. }
  assert (∀ t',
            doomed t = doomed t' →
            (remaining t' ≤ remaining t - 1)%nat →
            ∃ t'' evs w',
              (mret t' : Async Docker.pull_task) w = (Returned t'', w')
              ∧ extends w evs w'
              ∧ Forall (λ ev, pull_event ev = true) evs
              ∧ same_resources (rt w) (rt w')
              ∧ (remaining t'' ≤ remaining t - 1)%nat
              ∧ match doomed t with
                | Some e => doomed t'' = Some e ∧ evs = []
                | None =>
                    match doomed t'' with
                    | Some e => ∃ ev, evs = [ev] ∧ failed_pull ev = Some e
                    | None => Forall (λ ev, failed_pull ev = None) evs
                    end
                end) as Hstay.
  { intros t' Hd Hrem. exists t', [], w. split; [reflexivity|].
    split; [apply extends_refl|]. split; [constructor|]. split; [done|].
    split; [done|]. rewrite <- Hd. destruct (doomed t); [done|constructor]. }
  destruct t as [image [[| |l| |]|e]|image [a|e]|image [a|e]|[[]|e]]; simpl doomed; simpl Docker.resume;
    try (apply (Hissue (Runtime.Pull image) image Docker.Pulling); (done || (intros; simpl; lia)));
    try (apply (Hissue (Runtime.FollowProgress image) image Docker.Following);
         (done || (intros; simpl; lia)));
    try (apply Hstay; (done || (simpl; lia))).
  destruct l as [|x l].
  - apply (Hissue (Runtime.Pull image) image Docker.Pulling); (done || (intros; simpl; lia)).
  - exists (Docker.Settled (Returned tt)), [], w. split; [reflexivity|].
    split; [apply extends_refl|]. split; [constructor|]. split; [done|].
    split; [simpl; lia|constructor].
Qed.

Lemma extends_inj w evs evs' w' : extends w evs w' → extends w evs' w' → evs' = evs.
Proof. intros [E1 _] [E2 _]. rewrite E1 in E2. by apply app_inv_head in E2. Qed.

(** What the answer made of the call, read backwards. *)
Lemma resume_doomed_after P t w t' w' evs e :
  Docker.resume P t w = (Returned t', w') → extends w evs w' →
  doomed t' = Some e →
  doomed t = Some e ∨ ∃ ev, ev ∈ evs ∧ failed_pull ev = Some e.
Proof.
  intros Hr Hext Hd.
  destruct (resume_spec P t w) as (t'' & evs' & w'' & Hr' & Hext' & _ & _ & _ & Hm).
  rewrite Hr in Hr'. injection Hr' as <- <-. rename w' into t'w.
  assert (evs' = evs) as -> by (by apply (extends_inj w _ _ t'w)).
  destruct (doomed t) as [e0|].
  - left. destruct Hm. congruence.
  - right. rewrite Hd in Hm. destruct Hm as (ev & -> & Hev). exists ev.
    split; [apply elem_of_cons; by left|done].
Qed.

Lemma resume_clean_after P t w t' w' evs :
  Docker.resume P t w = (Returned t', w') → extends w evs w' →
  doomed t' = None →
  doomed t = None ∧ Forall (λ ev, failed_pull ev = None) evs.
Proof.
  intros Hr Hext Hd.
  destruct (resume_spec P t w) as (t'' & evs' & w'' & Hr' & Hext' & _ & _ & _ & Hm).
  rewrite Hr in Hr'. injection Hr' as <- <-. rename w' into t'w.
  assert (evs' = evs) as -> by (by apply (extends_inj w _ _ t'w)).
  destruct (doomed t) as [e0|].
  - destruct Hm. congruence.
  - by rewrite Hd in Hm.
Qed.


Lemma failed_pull_app_clean evs1 evs2 :
  Forall (λ ev, failed_pull ev = None) evs1 →
  Forall (λ ev, failed_pull ev = None) evs2 →
  Forall (λ ev, failed_pull ev = None) (evs1 ++ evs2).
Proof. intros. by apply Forall_app. Qed.

(** After three answers a call of [pullImageIfNeeded] is settled. *)
Lemma pull_settles_in_three_answers P t w :
  ∃ t1 w1 t2 w2 r w3,
    Docker.resume P t w = (Returned t1, w1)
    ∧ Docker.resume P t1 w1 = (Returned t2, w2)
    ∧ Docker.resume P t2 w2 = (Returned (Docker.Settled r), w3).
Proof.
  destruct (resume_spec P t w) as (t1 & evs1 & w1 & Hr1 & _ & _ & _ & Hm1 & _).
  destruct (resume_spec P t1 w1) as (t2 & evs2 & w2 & Hr2 & _ & _ & _ & Hm2 & _).
  destruct (resume_spec P t2 w2) as (t3 & evs3 & w3 & Hr3 & _ & _ & _ & Hm3 & _).
  assert (remaining t ≤ 3)%nat by (destruct t; simpl; lia).
  destruct t3 as [| | |r]; simpl in Hm3; try lia.
  by exists t1, w1, t2, w2, r, w3.
Qed.

Lemma settle_phase P t w : pull_phase [t] w (Docker.settle P t w).
Proof.
  destruct (pull_settles_in_three_answers P t w)
    as (t1 & w1 & t2 & w2 & r & w3 & Hr1 & Hr2 & Hr3).
  destruct (resume_spec P t w) as (? & evs1 & ? & Hr1' & X1 & F1 & S1 & _).
  rewrite Hr1 in Hr1'. injection Hr1' as <- <-.
  destruct (resume_spec P t1 w1) as (? & evs2 & ? & Hr2' & X2 & F2 & S2 & _).
  rewrite Hr2 in Hr2'. injection Hr2' as <- <-.
  destruct (resume_spec P t2 w2) as (? & evs3 & ? & Hr3' & X3 & F3 & S3 & _).
  rewrite Hr3 in Hr3'. injection Hr3' as <- <-.
  assert (Docker.settle P t w =
            (match r with Returned _ => Returned tt | Threw e => Threw e end, w3)) as ->.
  { unfold Docker.settle, mbind, Async_bind. rewrite Hr1, Hr2, Hr3. by destruct r. }
  exists (evs1 ++ evs2 ++ evs3). cbn [fst snd].
  split; [eauto using extends_trans|].
  split; [by rewrite !Forall_app|].
  split; [eauto using same_resources_trans|].
  destruct r as [[]|e].
  - destruct (resume_clean_after P t2 w2 _ _ _ Hr3 X3 eq_refl) as [D2 C3].
    destruct (resume_clean_after P t1 w1 _ _ _ Hr2 X2 D2) as [D1 C2].
    destruct (resume_clean_after P t w _ _ _ Hr1 X1 D1) as [D0 C1].
    split; [|by rewrite !Forall_app].
    intros [|j] t0 Hj; [by injection Hj as <-|done].
  - destruct (resume_doomed_after P t2 w2 _ _ _ e Hr3 X3 eq_refl) as [D2|(ev & Hin & Hev)];
      [|right; exists ev; by rewrite !elem_of_app; auto].
    destruct (resume_doomed_after P t1 w1 _ _ _ e Hr2 X2 D2) as [D1|(ev & Hin & Hev)];
      [|right; exists ev; by rewrite !elem_of_app; auto].
    destruct (resume_doomed_after P t w _ _ _ e Hr1 X1 D1) as [D0|(ev & Hin & Hev)];
      [|right; exists ev; by rewrite !elem_of_app; auto].
    left. by exists 0%nat, t.
Qed.

Lemma in_order_phase P tasks w : pull_phase tasks w (Docker.in_order P tasks w).
Proof.
  revert w. induction tasks as [|t tasks IH]; intros w.
  - exists []. cbn. split; [apply extends_refl|]. split; [constructor|].
    split; [done|]. split; [done|constructor].
  - destruct (settle_phase P t w) as (evs1 & X1 & F1 & S1 & M1).
    cbn [Docker.in_order]. unfold mbind, Async_bind.
    destruct (Docker.settle P t w) as [[[]|e] w1]; cbn [fst snd] in *.
    + destruct (IH w1) as (evs2 & X2 & F2 & S2 & M2).
      exists (evs1 ++ evs2).
      split; [eauto using extends_trans|]. split; [by rewrite Forall_app|].
      split; [eauto using same_resources_trans|].
      destruct M1 as [D1 C1].
      destruct (Docker.in_order P tasks w1) as [[[]|e] w2]; cbn [fst snd] in *.
      * destruct M2 as [D2 C2]. split; [|by rewrite Forall_app].
        intros [|j] t0 Hj; [apply (D1 0%nat t0 Hj)|apply (D2 j t0 Hj)].
      * destruct M2 as [(j & t0 & Hj & Hd)|(ev & Hin & Hev)].
        -- left. by exists (S j), t0.
        -- right. exists ev. rewrite elem_of_app. auto.
    + exists evs1. split; [done|]. split; [done|]. split; [done|].
      destruct M1 as [(j & t0 & Hj & Hd)|(ev & Hin & Hev)].
      * left. exists 0%nat, t0. destruct j; [done|]. by destruct j.
      * right. by exists ev.
Qed.

(** [Promise.all] over the pulls, whatever the order of the answers. *)
Lemma promise_all_phase P order tasks w :
  pull_phase tasks w (Docker.promise_all P order tasks w).
Proof.
  revert tasks w. induction order as [|i order IH]; intros tasks w.
  - apply in_order_phase.
  - cbn [Docker.promise_all]. destruct (tasks !! i) as [t|] eqn:Hi; [|apply IH].
    unfold mbind, Async_bind.
    destruct (resume_spec P t w) as (t' & evs1 & w1 & Hr & X1 & F1 & S1 & _).
    rewrite Hr.
    assert (∀ e, doomed t' = Some e →
              (∃ j t0, tasks !! j = Some t0 ∧ doomed t0 = Some e)
              ∨ (∃ ev, ev ∈ evs1 ∧ failed_pull ev = Some e)) as Hback.
    { intros e Hd.
      destruct (resume_doomed_after P t w _ _ _ e Hr X1 Hd) as [D|?]; [left|by right].
      by exists i, t. }
    assert (pull_phase (<[i:=t']> tasks) w1
              (Docker.promise_all P order (<[i:=t']> tasks) w1) →
            pull_phase tasks w (Docker.promise_all P order (<[i:=t']> tasks) w1)) as Hcont.
    { intros (evs2 & X2 & F2 & S2 & M2). exists (evs1 ++ evs2).
      split; [eauto using extends_trans|]. split; [by rewrite Forall_app|].
      split; [eauto using same_resources_trans|].
      destruct (Docker.promise_all P order (<[i:=t']> tasks) w1) as [[[]|e] w2];
        cbn [fst snd] in *.
      - destruct M2 as [D2 C2].
        assert (doomed t' = None) as Dt'.
        { apply (D2 i). apply list_lookup_insert_eq. by apply lookup_lt_Some in Hi. }
        destruct (resume_clean_after P t w _ _ _ Hr X1 Dt') as [Dt C1].
        split; [|by rewrite Forall_app].
        intros j t0 Hj. destruct (decide (i = j)) as [<-|Hne]; [congruence|].
        apply (D2 j). by rewrite list_lookup_insert_ne.
      - destruct M2 as [(j & t0 & Hj & Hd)|(ev & Hin & Hev)].
        + apply list_lookup_insert_Some in Hj as [(<- & <- & _)|[_ Hj]].
          * destruct (Hback _ Hd) as [?|(ev & Hin & Hev)]; [by left|].
            right. exists ev. rewrite elem_of_app. auto.
          * left. by exists j, t0.
        + right. exists ev. rewrite elem_of_app. auto. }
    destruct t' as [image r|image r|image r|[[]|e]]; try (apply Hcont, IH).
    exists evs1. cbn [fst snd]. split; [done|]. split; [done|]. split; [done|].
    by apply Hback.
Qed.

(* ------------------------------------------------------------------------- *)
(** ** Running [createWorkspaceContainer] step by step *)
(* ------------------------------------------------------------------------- *)

Lemma exec_Threw_state P k c s e s' : Runtime.exec P k c s = (Threw e, s') → s' = s.
Proof.
  unfold Runtime.exec. destruct (Runtime.fault P k c); [by intros [= _ <-]|].
  destruct c; simpl; repeat case_match; by intros [= <-] || intros [=].
Qed.

Lemma exec_Returned_answer P k c s a s' :
  Runtime.exec P k c s = (Returned a, s') → Runtime.answer P c s = (Returned a, s').
Proof. unfold Runtime.exec. by destruct (Runtime.fault P k c). Qed.

Lemma run_request {B} P c (k : Runtime.reply → Async B) h w res :
  try_catch (Docker.request P c ≫= k) h w = res →
  ∃ n o s, Runtime.exec P n c (rt w) = (o, s) ∧
    match o with
    | Returned a =>
        try_catch (k a) h
          {| rt := s; store := store w; trace := trace w ++ [Rt c (Returned a)] |} = res
    | Threw e =>
        h e {| rt := rt w; store := store w; trace := trace w ++ [Rt c (Threw e)] |} = res
    end.
Proof.
  unfold try_catch, mbind, Async_bind. rewrite request_eq.
  destruct (Runtime.exec P (length (trace w)) c (rt w)) as [[a|e] s] eqn:E;
    cbn [fst snd]; intros Hres; eexists _, _, _; (split; [exact E|]); [done|].
  by rewrite <- (exec_Threw_state _ _ _ _ _ _ E).
Qed.

Lemma run_request_throw {B C} P c e0 (k : C → Async B) h w res :
  try_catch ((Docker.request P c ≫= λ _, mthrow e0) ≫= k) h w = res →
  ∃ n o s, Runtime.exec P n c (rt w) = (o, s) ∧
    h (match o with Returned _ => e0 | Threw e => e end)
      {| rt := s; store := store w; trace := trace w ++ [Rt c o] |} = res.
Proof.
  unfold try_catch, mbind, Async_bind. rewrite request_eq.
  destruct (Runtime.exec P (length (trace w)) c (rt w)) as [[a|e] s] eqn:E;
    cbn [fst snd]; intros Hres; eexists _, _, _; (split; [exact E|]); done.
Qed.

Lemma run_ret {A B} (a : A) (k : A → Async B) h w :
  try_catch (mret a ≫= k) h w = try_catch (k a) h w.
Proof. reflexivity. Qed.

Lemma run_done {B} (b : B) (h : error → Async B) w :
  try_catch (mret b) h w = (Returned b, w).
Proof. reflexivity. Qed.

Lemma exec_list_images_state P k image s :
  (Runtime.exec P k (Runtime.ListImages image) s).2 = s.
Proof. unfold Runtime.exec. by destruct (Runtime.fault P k _). Qed.

Lemma run_pullImageIfNeeded {B} P image (k : Docker.pull_task → Async B) h w res :
  try_catch (Docker.pullImageIfNeeded P image ≫= k) h w = res →
  ∃ o,
    try_catch (k (Docker.Listing image o)) h
      {| rt := rt w; store := store w;
         trace := trace w ++ [Rt (Runtime.ListImages image) o] |} = res.
Proof.
  unfold Docker.pullImageIfNeeded, try_catch, mbind, Async_bind, mret, Async_ret.
  rewrite send_eq. unfold step. rewrite request_eq. cbn [fst snd].
  rewrite exec_list_images_state. intros Hres. by eexists.
Qed.

Lemma run_promise_all {B} P order tasks (k : unit → Async B) h w res :
  try_catch (Docker.promise_all P order tasks ≫= k) h w = res →
  ∃ r sp pevs,
    pull_phase tasks w (r, {| rt := sp; store := store w; trace := trace w ++ pevs |})
    ∧ match r with
      | Returned a =>
          try_catch (k a) h {| rt := sp; store := store w; trace := trace w ++ pevs |} = res
      | Threw e => h e {| rt := sp; store := store w; trace := trace w ++ pevs |} = res
      end.
Proof.
  pose proof (promise_all_phase P order tasks w) as Hphase.
  unfold try_catch, mbind, Async_bind.
  destruct (Docker.promise_all P order tasks w) as [r [sp st tr]].
  destruct Hphase as (pevs & [Htr Hst] & Hrest). cbn [fst snd trace store] in Htr, Hst.
  subst tr st. intros Hres. exists r, sp, pevs. split.
  - exists pevs. by split.
  - by destruct r.
Qed.

Lemma run_findSkills {B} u (k : list Skill → Async B) h w :
  try_catch (Docker.findSkills u ≫= k) h w =
    try_catch (k (Store.findSkills u (store w))) h
      {| rt := rt w; store := store w; trace := trace w ++ [Db Store.FindSkills] |}.
Proof. reflexivity. Qed.

Lemma run_findProviders {B} u (k : list LLMProvider → Async B) h w :
  try_catch (Docker.findProviders u ≫= k) h w =
    try_catch (k (Store.findProviders u (store w))) h
      {| rt := rt w; store := store w; trace := trace w ++ [Db Store.FindProviders] |}.
Proof. reflexivity. Qed.

(** The handler of [createWorkspaceContainer]: cleanup, then the error. *)
Lemma rollback_eq P id e w :
  (try_catch (Docker.cleanupWorkspace P id) (λ _, mret tt) ≫=
     λ _, (mthrow e : Async Docker.Handles)) w
  = (Threw e, (Docker.cleanupWorkspace P id w).2).
Proof. reflexivity. Qed.

Lemma rollback_inv P id e w (r : outcome Docker.Handles) w' :
  (try_catch (Docker.cleanupWorkspace P id) (λ _, mret tt) ≫=
     λ _, (mthrow e : Async Docker.Handles)) w = (r, w') →
  r = Threw e ∧ w' = (Docker.cleanupWorkspace P id w).2.
Proof. rewrite rollback_eq. by intros [= <- <-]. Qed.

Lemma cleanup_extends P id w :
  ∃ o1 o2 o3 o4,
    extends w
      [ Rt (Runtime.RemoveContainer (Docker.init_of id) true) o1;
        Rt (Runtime.RemoveNetwork (Docker.network_of id)) o2;
        Rt (Runtime.RemoveVolume (Docker.data_volume_of id)) o3;
        Rt (Runtime.RemoveVolume (Docker.opencode_volume_of id)) o4 ]
      (Docker.cleanupWorkspace P id w).2.
Proof.
  rewrite cleanupWorkspace_eq. cbn [snd]. eexists _, _, _, _. split.
  - rewrite !step_trace, <- !app_assoc. reflexivity.
  - by rewrite !step_store.
Qed.


(** One step of the run recorded in [Hrun]. *)
Ltac run_pull Hrun l :=
  apply run_pullImageIfNeeded in Hrun as (l & Hrun); cbn [rt store trace] in Hrun.

Ltac run_step Hrun n o s Hstep :=
  apply run_request in Hrun as (n & o & s & Hstep & Hrun);
  cbn [rt store trace] in Hrun, Hstep.

(** A request of the run: it was answered, or it threw. *)
Ltac run_request_cases Hrun a Hs :=
  let n := fresh "n" in
  let o := fresh "o" in
  let s := fresh "s" in
  let e := fresh "e" in
  apply run_request in Hrun as (n & o & s & Hs & Hrun);
  cbn [rt store trace] in Hrun, Hs;
  destruct o as [a|e].

Ltac run_rollback Hrun :=
  cbv beta in Hrun; apply rollback_inv in Hrun as [-> ->].

(** The rollback branch of [provision_run]. *)
Ltac close_rollback Hclean :=
  lazymatch goal with
  | |- context [Docker.cleanupWorkspace ?P ?id ?W] =>
      let Htr := fresh "Htr" in
      let Hst := fresh "Hst" in
      let wf := fresh "wf" in
      destruct (cleanup_extends P id W) as (?o1 & ?o2 & ?o3 & ?o4 & [Htr Hst]);
      set (wf := (Docker.cleanupWorkspace P id W).2) in *; clearbody wf;
      cbn [rt store trace] in Htr, Hst;
      rewrite <- !app_assoc in Htr;
      eexists _, _, _, _, _; split;
      [ split; [exact Htr|exact Hst]
      | split; [eassumption|];
        split; [by repeat constructor|];
        split; [right; exact Hclean|];
        reflexivity ]
  end.

(** The run of [createWorkspaceContainer], as a trace: three listings,
    then the pulls and nothing but pulls, then the rest, in which there
    is no pull and no write of a status. When it throws the trace ends with the four removals of
    the cleanup; when a pull failed it throws the error of a failed pull
    and the rest is the cleanup alone; when it returns no pull failed and
    every request of the rest was answered. *)
Lemma provision_run H P cfg w r w' :
  Docker.createWorkspaceContainer H P cfg w = (r, w') →
  ∃ l1 l2 l3 pevs rest,
    extends w (listings l1 l2 l3 ++ pevs ++ rest) w'
    ∧ Forall (λ ev, pull_event ev = true) pevs
    ∧ Forall (λ ev, pull_event ev = false ∧ status_write ev = false) rest
    ∧ ((∃ e ev, r = Threw e ∧ ev ∈ pevs ∧ failed_pull ev = Some e
                ∧ calls rest = cleanup_calls (Docker.workspaceId cfg))
       ∨ Forall (λ ev, failed_pull ev = None) pevs)
    ∧ match r with
      | Threw _ =>
          drop (length (calls rest) - 4) (calls rest) = cleanup_calls (Docker.workspaceId cfg)
      | Returned _ => Forall (λ ev, answered ev = true) rest
      end.
Proof.
  intros Hrun. unfold Docker.createWorkspaceContainer in Hrun. cbv zeta in Hrun.
  run_pull Hrun l1. run_pull Hrun l2. run_pull Hrun l3.
  apply run_promise_all in Hrun as (rp & sp & pevs & Hphase & Hrun).
  cbn [rt store trace] in Hrun.
  destruct Hphase as (pevs' & Hext & Hpull & _ & Hres).
  assert (pevs' = pevs) as ->.
  { destruct Hext as [Htr _]. cbn [snd trace] in Htr. by apply app_inv_head in Htr. }
  clear Hext. cbn [fst] in Hres.
  destruct rp as [[]|e].
  2:{ (* a pull failed *)
    run_rollback Hrun.
    destruct Hres as [(j & t & Hj & Hd)|(ev & Hin & Hev)].
    { destruct j as [|[|[|j]]]; simplify_eq/=. }
    lazymatch goal with
    | |- context [Docker.cleanupWorkspace ?P ?id ?W] =>
        destruct (cleanup_extends P id W) as (o1 & o2 & o3 & o4 & [Htr Hst]);
        set (wf := (Docker.cleanupWorkspace P id W).2) in *; clearbody wf
    end.
    cbn [rt store trace] in *.
    rewrite <- !app_assoc in Htr.
    eexists l1, l2, l3, pevs, _. split.
    { split; [exact Htr|exact Hst]. }
    split; [done|]. split; [by repeat constructor|].
    split; [|reflexivity]. left. by exists e, ev. }
  destruct Hres as [_ Hclean].
  do 2 (let a := fresh "a" in let Hs := fresh "Hs" in
        run_request_cases Hrun a Hs; [|run_rollback Hrun; close_rollback Hclean]).
  rewrite run_findSkills, run_findProviders in Hrun. cbn [rt store trace] in Hrun.
  do 3 (let a := fresh "a" in let Hs := fresh "Hs" in
        run_request_cases Hrun a Hs; [|run_rollback Hrun; close_rollback Hclean]).
  run_request_cases Hrun initResult Hwait; [|run_rollback Hrun; close_rollback Hclean].
  destruct (decide (Docker.StatusCode initResult = Some 0)) as [Hcode|Hcode].
  2:{ apply run_request_throw in Hrun as (n' & o' & s' & Hs' & Hrun).
      cbn [rt store trace] in Hrun. run_rollback Hrun. close_rollback Hclean. }
  rewrite run_ret in Hrun.
  do 7 (let a := fresh "a" in let Hs := fresh "Hs" in
        run_request_cases Hrun a Hs; [|run_rollback Hrun; close_rollback Hclean]).
  rewrite run_done in Hrun. injection Hrun as <- <-.
  rewrite <- !app_assoc.
  eexists _, _, _, _, _. split; [split; [reflexivity|reflexivity]|].
  split; [eassumption|]. split; [by repeat constructor|].
  split; [by right|]. by repeat constructor.
Qed.

(* ------------------------------------------------------------------------- *)
(** ** What a request leaves untouched, and what it establishes *)
(* ------------------------------------------------------------------------- *)

Lemma exec_state P k c s o s' :
  Runtime.exec P k c s = (o, s') → s' = (Runtime.exec P k c s).2.
Proof. by intros ->. Qed.

(** A request leaves the containers it is not about as they were. *)
Lemma exec_containers_frame P k c s o s' n :
  Runtime.exec P k c s = (o, s') → target c ≠ Some n →
  Runtime.containers s' !! n = Runtime.containers s !! n.
Proof.
  intros E Hn. apply exec_state in E as ->. unfold Runtime.exec.
  destruct (Runtime.fault P k c); [done|].
  destruct c; simpl in *; repeat case_match; simpl; try done;
    first [ apply lookup_insert_ne | apply lookup_delete_ne ]; congruence.
Qed.


(** Only the removal of a volume takes a volume away. *)
Lemma exec_keeps_volumes P k c s o s' :
  Runtime.exec P k c s = (o, s') → (∀ v, c ≠ Runtime.RemoveVolume v) →
  Runtime.volumes s ⊆ Runtime.volumes s'.
Proof.
  intros E Hc. apply exec_state in E as ->. unfold Runtime.exec.
  destruct (Runtime.fault P k c); [done|].
  destruct c; simpl in *; repeat case_match; simpl; try done; try set_solver.
Qed.


Lemma created_volume P k v s a s' :
  Runtime.exec P k (Runtime.CreateVolume v) s = (Returned a, s') →
  v ∈ Runtime.volumes s'.
Proof. intros E%exec_Returned_answer. injection E as _ <-. simpl. set_solver. Qed.


Lemma removed_container P k n force s a s' :
  Runtime.exec P k (Runtime.RemoveContainer n force) s = (Returned a, s') →
  Runtime.containers s' !! n = None.
Proof.
  intros E%exec_Returned_answer. simpl in E. repeat case_match; try done.
  injection E as _ <-. simpl. apply lookup_delete_eq.
Qed.

(* ------------------------------------------------------------------------- *)
(** ** Rollback when the creation of the editor container fails *)
(* ------------------------------------------------------------------------- *)

Lemma pull_event_not_failed_creation n ev :
  pull_event ev = true → failed_creation n ev = false.
Proof. by destruct ev as [[] []|]. Qed.

Lemma unused_absent id s n :
  unused id s → n ∈ workspace_containers id → Runtime.containers s !! n = None.
Proof.
  intros Hun Hn. destruct (Runtime.containers s !! n) as [c|] eqn:E; [|done].
  by destruct (Hun _ _ E).
Qed.

(** The branch of a run that ends in a rollback without a failed creation
    of the container [n]: the scenario [Hscen] is absurd. *)
Ltac no_failed_creation Hscen Hpull :=
  lazymatch type of Hscen with
  | context [Docker.cleanupWorkspace ?P ?id ?W] =>
      let Htr := fresh "Htr" in
      let wf := fresh "wf" in
      let ev := fresh "ev" in
      let Hin := fresh "Hin" in
      let Hev := fresh "Hev" in
      destruct (cleanup_extends P id W) as (?o1 & ?o2 & ?o3 & ?o4 & [Htr _]);
      set (wf := (Docker.cleanupWorkspace P id W).2) in *; clearbody wf;
      cbn [rt store trace] in Htr;
      rewrite <- !app_assoc in Htr;
      rewrite (new_events_app _ _ _ Htr) in Hscen;
      destruct Hscen as (ev & Hin & Hev);
      exfalso; revert Hev; apply not_true_iff_false; revert ev Hin;
      apply Forall_forall;
      repeat first
        [ apply Forall_nil_2
        | apply Forall_cons; split; [reflexivity|]
        | apply Forall_app; split;
          [ first [ by repeat (apply Forall_cons; split; [reflexivity|])
                  | eapply Forall_impl;
                    [exact Hpull|intros ? ?; by apply pull_event_not_failed_creation] ]
          | ] ]
  end.


(* ------------------------------------------------------------------------- *)
(** ** The rollback of a provisioning *)
(* ------------------------------------------------------------------------- *)




(* ------------------------------------------------------------------------- *)
(** ** The pulls, and removal twice *)
(* ------------------------------------------------------------------------- *)



Lemma removal_is_idempotent_witness :
  honours_removals reliable ∧ exclusive "w1" (rt provisioned)
  ∧ no_resources "w1"
      (rt (Docker.removeWorkspaceContainer reliable "w1"
             (Docker.removeWorkspaceContainer reliable "w1" provisioned).2).2).
Proof.
  assert (honours_removals reliable) as HP by done.
  assert (exclusive "w1" (rt provisioned)) as Hex.
  { intros n c Hn _.
    assert (dom (Runtime.containers (rt provisioned))
            = ({[ "code-server-w1"; "opencode-w1" ]} : gset string)) as Hdom
      by (vm_compute; reflexivity).
    apply elem_of_dom_2 in Hn. rewrite Hdom in Hn. unfold workspace_containers.
    apply elem_of_union in Hn as [Hn|Hn].
    - apply elem_of_singleton in Hn as ->. right; left.
    - apply elem_of_singleton in Hn as ->. right; right; left. }
  split; [exact HP|split; [exact Hex|]].
  destruct (removal_is_idempotent reliable "w1" provisioned) as (_ & _ & _ & Hno).
  exact (proj2 (Hno HP Hex)).
Defined.

(** The runtime fails the removal of volumes: both removals return
    success, and both volumes of the workspace remain after the second. *)
Lemma second_removal_may_leave_volumes :
  let first := Docker.removeWorkspaceContainer keeps_volumes "w1" provisioned in
  let second := Docker.removeWorkspaceContainer keeps_volumes "w1" first.2 in
  first.1 = Returned {| Docker.success := true |}
  ∧ second.1 = Returned {| Docker.success := true |}
  ∧ bool_decide (Docker.data_volume_of "w1" ∈ Runtime.volumes (rt second.2)) = true
  ∧ bool_decide (Docker.opencode_volume_of "w1" ∈ Runtime.volumes (rt second.2)) = true.
Proof. vm_compute. split_and!; reflexivity. Qed.

(* ------------------------------------------------------------------------- *)
(** ** A provisioning that returns *)
(* ------------------------------------------------------------------------- *)

(** A branch of the run that ends in a rollback, while the run returned. *)
Ltac run_threw Hrun :=
  cbv beta in Hrun; apply rollback_inv in Hrun as [[=] _].


Lemma exec_keeps_volume P k c s o s' v :
  Runtime.exec P k c s = (o, s') → (∀ m, c ≠ Runtime.RemoveVolume m) →
  v ∈ Runtime.volumes s → v ∈ Runtime.volumes s'.
Proof. intros E Hc Hv. by apply (exec_keeps_volumes _ _ _ _ _ _ E Hc). Qed.


(* ------------------------------------------------------------------------- *)
(** ** The create-workspace request *)
(* ------------------------------------------------------------------------- *)

Lemma workspace_create_eq name repo branch uid st w :
  Routes.workspace_create name repo branch uid st w =
    (Returned (Store.create name repo branch uid st (store w)).1,
     {| rt := rt w; store := (Store.create name repo branch uid st (store w)).2;
        trace := trace w
                 ++ [Db (Store.Create (Store.cuid (store w) (Store.created (store w))) st)] |}).
Proof. reflexivity. Qed.

(** The update of a record that exists returns the record, with the
    status it was given. *)
Lemma workspace_update_found i st cid w ws0 :
  Store.workspaces (store w) !! i = Some ws0 →
  ∃ ws,
    Routes.workspace_update i st cid w =
      (Returned ws,
       {| rt := rt w; store := Store.update i st cid (store w);
          trace := trace w ++ [Db (Store.Update i st)] |})
    ∧ Store.workspaces (Store.update i st cid (store w)) !! i = Some ws
    ∧ Store.status_of ws = st.
Proof.
  intros Hi. unfold Routes.workspace_update. cbv zeta.
  assert (∃ ws, Store.workspaces (Store.update i st cid (store w)) !! i = Some ws
                ∧ Store.status_of ws = st) as (ws & Hws & Hst).
  { unfold Store.update, Store.with_workspaces. cbn [Store.workspaces].
    rewrite lookup_alter_eq, Hi. cbn. by eexists. }
  exists ws. by rewrite Hws.
Qed.

Lemma provision_store H P cfg w :
  store (Docker.createWorkspaceContainer H P cfg w).2 = store w.
Proof.
  destruct (provision_run H P cfg w _ _ (surjective_pairing _))
    as (l1 & l2 & l3 & pevs & rest & [_ Hst] & _).
  exact Hst.
Qed.





(* ------------------------------------------------------------------------- *)
(** ** The agent configuration and the agent environment *)
(* ------------------------------------------------------------------------- *)

Lemma foldl_addProvider_enabled H ps cfg :
  enabled_providers (foldl (Config.addProvider H) cfg ps)
  = enabled_providers cfg ++ map (providerKey H) ps.
Proof.
  revert cfg. induction ps as [|p ps IH]; intros cfg; simpl.
  - by rewrite app_nil_r.
  - rewrite IH. cbn [Config.addProvider enabled_providers]. by rewrite <- app_assoc.
Qed.


Lemma opencodeConfig_enabled H providers :
  enabled_providers (Config.opencodeConfig H providers) = map (providerKey H) providers.
Proof.
  unfold Config.opencodeConfig. destruct providers as [|p ps]; [done|].
  cbn [enabled_providers]. by rewrite foldl_addProvider_enabled.
Qed.


Lemma includes_elem_of x l : JS.includes x l = true ↔ x ∈ l.
Proof.
  unfold JS.includes. rewrite existsb_exists. split.
  - intros (y & Hy & E). apply String.eqb_eq in E as ->. by apply list_elem_of_In.
  - intros Hx. exists x. split; [by apply list_elem_of_In|apply String.eqb_refl].
Qed.

Lemma not_includes x l : negb (JS.includes x l) = bool_decide (x ∉ l).
Proof.
  pose proof (includes_elem_of x l) as Hi. symmetry.
  destruct (JS.includes x l); simpl.
  - apply bool_decide_eq_false. intros Hn. apply Hn. by apply Hi.
  - apply bool_decide_eq_true. intros Hx. apply Hi in Hx. discriminate.
Qed.

(** X1. The configuration lists as enabled the keys of the providers, in
    their order; with no provider nothing is listed as disabled; with at
    least one, the disabled providers are the known providers that are
    not enabled, in the order of the list of known providers. *)
Theorem enabled_and_disabled_providers (H : Host) (providers : list LLMProvider) :
  let cfg := Config.opencodeConfig H providers in
  enabled_providers cfg = map (providerKey H) providers
  ∧ (providers = [] → disabled_providers cfg = [])
  ∧ (providers ≠ [] →
       disabled_providers cfg
       = List.filter (λ k, bool_decide (k ∉ enabled_providers cfg))
           Config.allPossibleProviders
       ∧ (∀ k, k ∈ Config.allPossibleProviders →
               (k ∈ enabled_providers cfg ∧ (k ∉ disabled_providers cfg))
               ∨ ((k ∉ enabled_providers cfg) ∧ k ∈ disabled_providers cfg))).
Proof.
  intros cfg. split; [apply opencodeConfig_enabled|]. split; [by intros ->|].
  intros Hne.
  assert (disabled_providers cfg
          = List.filter (λ k, bool_decide (k ∉ enabled_providers cfg))
              Config.allPossibleProviders) as Hdis.
  { subst cfg. unfold Config.opencodeConfig. destruct providers as [|p ps]; [done|].
    cbn [disabled_providers enabled_providers]. apply filter_ext. intros k.
    apply not_includes. }
  split; [exact Hdis|]. intros k Hk. rewrite Hdis.
  destruct (decide (k ∈ enabled_providers cfg)) as [Hin|Hout].
  - left. split; [done|]. rewrite list_elem_of_In, filter_In, bool_decide_eq_true. tauto.
  - right. split; [done|]. rewrite list_elem_of_In, filter_In, bool_decide_eq_true.
    split; [by apply list_elem_of_In|done].
Qed.








Lemma find_map_same {A} (f : A → bool) (g : A → A) l :
  (∀ x, f (g x) = f x) → List.find f (map g l) = g <$> List.find f l.
Proof.
  intros Hf. induction l as [|x l IH]; simpl; [done|]. rewrite Hf.
  by destruct (f x).
Qed.

Lemma foldl_addProvider_with_apiKey H (f : LLMProvider → option string) ps cfg :
  foldl (Config.addProvider H) cfg (map (λ p, with_apiKey (f p) p) ps)
  = foldl (Config.addProvider H) cfg ps.
Proof. revert cfg. induction ps as [|p ps IH]; intros cfg; simpl; [done|]. by rewrite IH. Qed.

(** X4. The configuration does not depend on the API keys of the
    providers: with other keys, or with none, the same configuration is
    built. A key reaches the agent through the environment only. *)
Theorem configuration_holds_no_api_key (H : Host) (f : LLMProvider → option string)
    (providers : list LLMProvider) :
  Config.opencodeConfig H (map (λ p, with_apiKey (f p) p) providers)
  = Config.opencodeConfig H providers.
Proof.
  assert (Config.defaultModelRef H (map (λ p, with_apiKey (f p) p) providers)
          = Config.defaultModelRef H providers) as Hd.
  { unfold Config.defaultModelRef, JS.find.
    rewrite (find_map_same p_isDefault (λ p, with_apiKey (f p) p)) by done.
    by destruct (List.find p_isDefault providers). }
  unfold Config.opencodeConfig. rewrite Hd.
  destruct providers as [|p ps]; [done|].
  change (map _ (p :: ps)) with (map (λ p, with_apiKey (f p) p) (p :: ps)).
  cbn [map]. change (with_apiKey (f p) p :: map (λ p0, with_apiKey (f p0) p0) ps)
    with (map (λ p0, with_apiKey (f p0) p0) (p :: ps)).
  by rewrite foldl_addProvider_with_apiKey.
Qed.

Lemma agent_env_token (tok : option string) (x : string) :
  x ∈ (match tok with
       | Some (String c t) => ["GITHUB_TOKEN=" +:+ String c t; "GH_TOKEN=" +:+ String c t]
       | _ => []
       end : list string) ↔
  ∃ t, tok = Some t ∧ t ≠ "" ∧ (x = "GITHUB_TOKEN=" +:+ t ∨ x = "GH_TOKEN=" +:+ t).
Proof.
  destruct tok as [[|c t]|].
  - split; [by intros ?%elem_of_nil|]. by intros (t & [= <-] & Ht & _).
  - split.
    + intros Hx. exists (String c t). split; [done|]. split; [done|].
      apply elem_of_cons in Hx as [->|Hx]; [by left|].
      apply elem_of_cons in Hx as [->|Hx]; [by right|]. by apply elem_of_nil in Hx.
    + intros (t' & [= <-] & _ & [-> | ->]); [by left|]. right. by left.
  - split; [by intros ?%elem_of_nil|]. by intros (t & [=] & _).
Qed.

Lemma agent_env_providers (providers : list LLMProvider) x :
  x ∈ flat_map (λ p,
         match apiKey p, envVarName p with
         | Some (String c k), Some (String d n) => [String d n +:+ "=" +:+ String c k]
         | _, _ => []
         end) providers ↔
  ∃ p n k, p ∈ providers ∧ envVarName p = Some n ∧ apiKey p = Some k
           ∧ n ≠ "" ∧ k ≠ "" ∧ x = n +:+ "=" +:+ k.
Proof.
  rewrite list_elem_of_In, in_flat_map. split.
  - intros (p & Hp & Hx). exists p.
    destruct (apiKey p) as [[|c k]|] eqn:Ek; try done.
    destruct (envVarName p) as [[|d n]|] eqn:En; try done.
    destruct Hx as [<-|[]]. exists (String d n), (String c k).
    split_and!; try done. by apply list_elem_of_In.
  - intros (p & n & k & Hp & En & Ek & Hn & Hk & ->). exists p.
    split; [by apply list_elem_of_In|]. rewrite Ek, En.
    destruct k as [|c k]; [done|]. destruct n as [|d n]; [done|]. by left.
Qed.


(** X5. What the environment of the agent container holds: the upstream
    token, when it is not empty, under [GITHUB_TOKEN] and [GH_TOKEN], and
    for each provider that has both a variable name and an API key,
    neither empty, the key under that name; nothing else. *)
Theorem agent_environment (tok : option string) (providers : list LLMProvider)
    (x : string) :
  x ∈ Config.opencodeEnv tok providers ↔
    (∃ t, tok = Some t ∧ t ≠ "" ∧ (x = "GITHUB_TOKEN=" +:+ t ∨ x = "GH_TOKEN=" +:+ t))
    ∨ (∃ p n k, p ∈ providers ∧ envVarName p = Some n ∧ apiKey p = Some k
                ∧ n ≠ "" ∧ k ≠ "" ∧ x = n +:+ "=" +:+ k).
Proof.
  unfold Config.opencodeEnv. rewrite elem_of_app.
  rewrite (agent_env_token tok x), agent_env_providers. done.
Qed.

Lemma skillsSetupCommands_cons H s rest :
  Config.skillsSetupCommands H (s :: rest)
  = match rest with
    | [] => skillCommand H s
    | _ => skillCommand H s +:+ " && " +:+ Config.skillsSetupCommands H rest
    end.
Proof. unfold Config.skillsSetupCommands. by destruct rest. Qed.

(** X6. The skills commands are empty exactly when there is no skill;
    otherwise they are the commands of the skills, one per skill in the
    order of the list, joined by [&&]. So the command of the agent
    container has a skills part exactly when the owner has a skill, and
    without one it goes from the configuration straight to the start of
    the agent. *)
Theorem skills_part_of_agent_command (H : Host) (skills : list Skill) :
  (Config.skillsSetupCommands H skills = "" ↔ skills = [])
  ∧ (∀ s rest, skills = s :: rest → rest ≠ [] →
       Config.skillsSetupCommands H skills
       = skillCommand H s +:+ " && " +:+ Config.skillsSetupCommands H rest)
  ∧ (∀ s, skills = [s] → Config.skillsSetupCommands H skills = skillCommand H s)
  ∧ (∀ id d env cfg,
       Runtime.Cmd (Docker.opencodeSpec id d env cfg (Config.skillsSetupCommands H skills))
       = [ "apk add --no-cache git github-cli nodejs npm python3 sqlite && " +:+ cfg
           +:+ (if bool_decide (skills = []) then ""
                else " && " +:+ Config.skillsSetupCommands H skills)
           +:+ " && cd /workspace && exec opencode web --port 3001 --hostname 0.0.0.0" ]).
Proof.
  assert (Config.skillsSetupCommands H skills = "" ↔ skills = []) as Hempty.
  { split; [|by intros ->]. destruct skills as [|s rest]; [done|].
    rewrite skillsSetupCommands_cons. by destruct rest. }
  split; [exact Hempty|]. split.
  { intros s rest -> Hrest. rewrite skillsSetupCommands_cons. by destruct rest. }
  split; [by intros s ->|].
  intros id d env cfg. unfold Docker.opencodeSpec. cbn [Runtime.Cmd]. f_equal.
  assert ((if JS.truthy (Some (Config.skillsSetupCommands H skills))
           then " && " +:+ Config.skillsSetupCommands H skills else "")
          = (if bool_decide (skills = []) then ""
             else " && " +:+ Config.skillsSetupCommands H skills)) as ->.
  { case_bool_decide as Hs.
    - by rewrite (proj2 Hempty Hs).
    - destruct (Config.skillsSetupCommands H skills) as [|c t] eqn:E; [|done].
      by destruct Hs; apply Hempty. }
  reflexivity.
Qed.

(* ------------------------------------------------------------------------- *)
(** ** The names of a workspace *)
(* ------------------------------------------------------------------------- *)

Lemma last_char_app s t : t ≠ "" → last_char (s +:+ t) = last_char t.
Proof.
  intros Ht. induction s as [|c s IH]; [done|].
  rewrite app_String. cbn [last_char]. rewrite IH.
  destruct (s +:+ t) eqn:E; [|done].
  destruct s; [by destruct t|done].
Qed.

Lemma editor_routing_rules id d :
  Labels.routing_rules (Labels.codeServerLabels id d)
  = [("vscode-" +:+ id, "Host(`vscode-" +:+ id +:+ "." +:+ d +:+ "`)")].
Proof.
  unfold Labels.routing_rules, Labels.codeServerLabels. router_fields_eval.
Qed.

Lemma agent_routing_rules id d :
  Labels.routing_rules (Labels.opencodeLabels id d)
  = [ ("opencode-" +:+ id, "Host(`opencode-" +:+ id +:+ "." +:+ d +:+ "`)");
      ("preview-" +:+ id, "Host(`preview-" +:+ id +:+ "." +:+ d +:+ "`)") ].
Proof.
  unfold Labels.routing_rules, Labels.opencodeLabels. router_fields_eval.
Qed.

Lemma workspace_hosts_eq id d :
  workspace_hosts id d
  = [ "Host(`vscode-" +:+ id +:+ "." +:+ d +:+ "`)";
      "Host(`opencode-" +:+ id +:+ "." +:+ d +:+ "`)";
      "Host(`preview-" +:+ id +:+ "." +:+ d +:+ "`)" ].
Proof.
  unfold workspace_hosts. by rewrite editor_routing_rules, agent_routing_rules.
Qed.

Lemma in3 {A} (x a b c : A) : x ∈ [a; b; c] → x = a ∨ x = b ∨ x = c.
Proof. rewrite !elem_of_cons, elem_of_nil. tauto. Qed.

Lemma in2 {A} (x a b : A) : x ∈ [a; b] → x = a ∨ x = b.
Proof. rewrite !elem_of_cons, elem_of_nil. tauto. Qed.

(** X7. Two workspaces share no name: a container name, a volume name or
    a routed host of one workspace is one of another only if the two
    identifiers are the same (for the hosts, under the same domain), and
    the network name determines the identifier. Within a workspace the
    three container names, the two volume names and the three hosts are
    pairwise different. *)
Theorem workspaces_share_no_name (id1 id2 d : string) :
  (∀ n, n ∈ workspace_containers id1 → n ∈ workspace_containers id2 → id1 = id2)
  ∧ (∀ v, v ∈ workspace_volumes id1 → v ∈ workspace_volumes id2 → id1 = id2)
  ∧ (∀ h, h ∈ workspace_hosts id1 d → h ∈ workspace_hosts id2 d → id1 = id2)
  ∧ (Docker.network_of id1 = Docker.network_of id2 → id1 = id2)
  ∧ NoDup (workspace_containers id1)
  ∧ NoDup (workspace_volumes id1)
  ∧ NoDup (workspace_hosts id1 d).
Proof.
  split_and!.
  - intros n H1%in3 H2%in3. unfold Docker.init_of, Docker.code_server_of,
      Docker.opencode_of in *.
    destruct H1 as [-> | [-> | ->]], H2 as [H2|[H2|H2]]; by simplify_eq/=.
  - intros v H1%in2 H2%in2. unfold Docker.data_volume_of, Docker.opencode_volume_of in *.
    destruct H1 as [-> | ->], H2 as [H2|H2].
    + simplify_eq/=. by eapply app_inj_r.
    + simplify_eq/=. apply (f_equal last_char) in H2.
      rewrite !last_char_app in H2; done.
    + simplify_eq/=. apply (f_equal last_char) in H2.
      rewrite !last_char_app in H2; done.
    + simplify_eq/=. by eapply app_inj_r.
  - rewrite !workspace_hosts_eq. intros h H1%in3 H2%in3.
    destruct H1 as [-> | [-> | ->]], H2 as [H2|[H2|H2]]; simplify_eq/=;
      by eapply app_inj_r.
  - unfold Docker.network_of. by intros ?; simplify_eq/=.
  - unfold workspace_containers, Docker.init_of, Docker.code_server_of, Docker.opencode_of.
    repeat (apply NoDup_cons; split; [rewrite ?elem_of_cons, elem_of_nil; naive_solver|]).
    apply NoDup_nil_2.
  - unfold workspace_volumes, Docker.data_volume_of, Docker.opencode_volume_of.
    apply NoDup_cons; split; [|apply NoDup_singleton].
    intros Hin%list_elem_of_singleton. simplify_eq/=.
  - rewrite workspace_hosts_eq.
    repeat (apply NoDup_cons; split; [rewrite ?elem_of_cons, elem_of_nil; naive_solver|]).
    apply NoDup_nil_2.
Qed.

(* ------------------------------------------------------------------------- *)
(** ** One call of [pullImageIfNeeded] *)
(* ------------------------------------------------------------------------- *)

Lemma pull_alone_eq P image w :
  pull_alone P image w =
    let w1 := step P (Runtime.ListImages image) w in
    match (Runtime.exec P (length (trace w)) (Runtime.ListImages image) (rt w)).1 with
    | Returned (Runtime.ImageList (_ :: _)) => (Returned tt, w1)
    | _ =>
        let w2 := step P (Runtime.Pull image) w1 in
        match (Runtime.exec P (length (trace w1)) (Runtime.Pull image) (rt w1)).1 with
        | Threw e => (Threw e, w2)
        | Returned _ =>
            let w3 := step P (Runtime.FollowProgress image) w2 in
            match (Runtime.exec P (length (trace w2))
                     (Runtime.FollowProgress image) (rt w2)).1 with
            | Threw e => (Threw e, w3)
            | Returned _ => (Returned tt, w3)
            end
        end
    end.
Proof.
  unfold pull_alone, Docker.pullImageIfNeeded, Docker.settle.
  unfold mbind, Async_bind, mret, Async_ret, mthrow, Async_throw.
  rewrite send_eq. cbv beta iota zeta.
  destruct (Runtime.exec P (length (trace w)) (Runtime.ListImages image) (rt w)).1
    as [[| |[|x l]| |]|e0]; cbn [Docker.resume];
    unfold mbind, Async_bind, mret, Async_ret; try reflexivity;
    rewrite send_eq; cbv beta iota;
    (destruct (Runtime.exec P _ (Runtime.Pull image) _).1 as [a1|e1];
     cbn [Docker.resume]; unfold mbind, Async_bind, mret, Async_ret;
     [|reflexivity]);
    rewrite send_eq; cbv beta iota;
    by destruct (Runtime.exec P _ (Runtime.FollowProgress image) _).1.
Qed.

Lemma exec_listing P k image s :
  (Runtime.exec P k (Runtime.ListImages image) s).2 = s
  ∧ match (Runtime.exec P k (Runtime.ListImages image) s).1 with
    | Returned (Runtime.ImageList []) =>
        Runtime.fault P k (Runtime.ListImages image) = None ∧ image ∉ Runtime.images s
    | Returned (Runtime.ImageList l) =>
        Runtime.fault P k (Runtime.ListImages image) = None
        ∧ image ∈ Runtime.images s ∧ l = [image]
    | Returned _ => False
    | Threw e => Runtime.fault P k (Runtime.ListImages image) = Some e
    end.
Proof.
  unfold Runtime.exec. destruct (Runtime.fault P k _) as [e|]; [done|].
  cbn [Runtime.answer fst snd]. split; [done|]. by case_decide.
Qed.

Lemma pull_alone_present P image w :
  Runtime.fault P (length (trace w)) (Runtime.ListImages image) = None →
  image ∈ Runtime.images (rt w) →
  pull_alone P image w =
    (Returned tt,
     {| rt := rt w; store := store w;
        trace := trace w ++ [Rt (Runtime.ListImages image)
                               (Returned (Runtime.ImageList [image]))] |}).
Proof.
  intros Hf Hin. rewrite pull_alone_eq. cbv zeta.
  unfold step. rewrite request_eq. cbn [snd].
  destruct (exec_listing P (length (trace w)) image (rt w)) as [-> Hl].
  destruct (Runtime.exec P _ (Runtime.ListImages image) _).1 as [[| |[|x l]| |]|e0];
    try done.
  - by destruct Hl.
  - by destruct Hl as (_ & _ & [= -> ->]).
  - congruence.
Qed.

(** X8. A call of [pullImageIfNeeded] for an image the runtime holds,
    the listing being answered, is fulfilled after that one listing: no
    pull is requested and the runtime is left as it was. *)
Theorem present_image_is_not_pulled (P : Runtime.Plan) (image : string) (w : world) :
  Runtime.fault P (length (trace w)) (Runtime.ListImages image) = None →
  image ∈ Runtime.images (rt w) →
  (pull_alone P image w).1 = Returned tt
  ∧ rt (pull_alone P image w).2 = rt w
  ∧ new_events w (pull_alone P image w).2
    = [Rt (Runtime.ListImages image) (Returned (Runtime.ImageList [image]))].
Proof.
  intros Hf Hin. rewrite (pull_alone_present P image w Hf Hin). cbn [fst snd rt].
  split; [done|]. split; [done|]. by apply new_events_app.
Qed.

Lemma present_image_is_not_pulled_witness :
  let w := {| rt := runtime_with_git; store := sample_store; trace := [] |} in
  (pull_alone reliable Docker.gitImage w).1 = Returned tt
  ∧ rt (pull_alone reliable Docker.gitImage w).2 = rt w
  ∧ new_events w (pull_alone reliable Docker.gitImage w).2
    = [Rt (Runtime.ListImages Docker.gitImage)
          (Returned (Runtime.ImageList [Docker.gitImage]))].
Proof.
  intros w. apply (present_image_is_not_pulled reliable Docker.gitImage w).
  - reflexivity.
  - exact (proj2 (elem_of_singleton (C:=gset string) Docker.gitImage Docker.gitImage) eq_refl).
Defined.

(** X9. A call of [pullImageIfNeeded], whatever the runtime does: it
    sends the listing, then at most the pull and the progress of the
    pull, in this order; it leaves the containers, networks, volumes and
    the store as they were; when it is fulfilled the runtime holds the
    image, so that a further call whose listing is answered sends the
    listing alone; when it is rejected, the error is the one of its last
    request, a pull or the progress of a pull, never the one of the
    listing. *)
Theorem pull_outcome (P : Runtime.Plan) (image : string) (w : world) :
  let res := pull_alone P image w in
  same_resources (rt w) (rt res.2)
  ∧ store res.2 = store w
  ∧ (∃ k, (1 ≤ k ≤ 3)%nat ∧ calls (new_events w res.2) = take k (pull_requests image))
  ∧ (res.1 = Returned tt →
       image ∈ Runtime.images (rt res.2)
       ∧ (Runtime.fault P (length (trace res.2)) (Runtime.ListImages image) = None →
            calls (new_events res.2 (pull_alone P image res.2).2)
            = [Runtime.ListImages image]))
  ∧ (∀ e, res.1 = Threw e →
       ∃ ev, last (new_events w res.2) = Some ev ∧ failed_pull ev = Some e).
Proof.
  intros res.
  assert (res.1 = Returned tt → image ∈ Runtime.images (rt res.2) →
          Runtime.fault P (length (trace res.2)) (Runtime.ListImages image) = None →
          calls (new_events res.2 (pull_alone P image res.2).2)
          = [Runtime.ListImages image]) as Hagain.
  { intros _ Hin Hf. rewrite (pull_alone_present P image res.2 Hf Hin). cbn [snd].
    by rewrite (new_events_app _ _ [Rt (Runtime.ListImages image)
                                      (Returned (Runtime.ImageList [image]))]). }
  revert Hagain. subst res. rewrite pull_alone_eq. cbv zeta.
  set (w1 := step P (Runtime.ListImages image) w).
  set (w2 := step P (Runtime.Pull image) w1).
  set (w3 := step P (Runtime.FollowProgress image) w2).
  pose proof (exec_listing P (length (trace w)) image (rt w)) as [Hs1 Hl].
  assert (rt w1 = rt w) as Hrt1 by (unfold w1; by rewrite step_rt).
  assert (same_resources (rt w1) (rt w2)) as S2
    by (unfold w2; rewrite step_rt; by apply exec_pull_same).
  assert (same_resources (rt w2) (rt w3)) as S3
    by (unfold w3; rewrite step_rt; by apply exec_pull_same).
  assert (same_resources (rt w) (rt w2)) as S02 by (by rewrite <- Hrt1).
  assert (same_resources (rt w) (rt w3)) as S03 by eauto using same_resources_trans.
  assert (trace w1 = trace w ++ [Rt (Runtime.ListImages image)
            (Runtime.exec P (length (trace w)) (Runtime.ListImages image) (rt w)).1])
    as T1 by apply step_trace.
  assert (trace w2 = trace w ++ [Rt (Runtime.ListImages image)
            (Runtime.exec P (length (trace w)) (Runtime.ListImages image) (rt w)).1;
            Rt (Runtime.Pull image)
              (Runtime.exec P (length (trace w1)) (Runtime.Pull image) (rt w1)).1])
    as T2 by (unfold w2; by rewrite step_trace, T1, <- app_assoc).
  assert (trace w3 = trace w ++ [Rt (Runtime.ListImages image)
            (Runtime.exec P (length (trace w)) (Runtime.ListImages image) (rt w)).1;
            Rt (Runtime.Pull image)
              (Runtime.exec P (length (trace w1)) (Runtime.Pull image) (rt w1)).1;
            Rt (Runtime.FollowProgress image)
              (Runtime.exec P (length (trace w2)) (Runtime.FollowProgress image)
                 (rt w2)).1])
    as T3 by (unfold w3; by rewrite step_trace, T2, <- app_assoc).
  assert (∀ a, (Runtime.exec P (length (trace w2)) (Runtime.FollowProgress image)
                  (rt w2)).1 = Returned a → image ∈ Runtime.images (rt w3)) as Himg.
  { intros a Ha. unfold w3. rewrite step_rt. revert Ha. unfold Runtime.exec.
    destruct (Runtime.fault P (length (trace w2)) (Runtime.FollowProgress image));
      cbn [fst snd]; [done|]. intros _.
    cbn [Runtime.answer snd Runtime.images]. set_solver. }
  destruct (Runtime.exec P (length (trace w)) (Runtime.ListImages image) (rt w)).1
    as [[| |[|x l]| |]|e0] eqn:E0; try done; cbn [fst snd]; intros Hagain.
  2:{ (* the image is there *)
      destruct Hl as (_ & Hin & _). rewrite Hrt1.
      split_and!; [done|by unfold w1; rewrite step_store| | |done].
      - exists 1%nat. split; [lia|]. by rewrite (new_events_app _ _ _ T1).
      - intros _. split; [done|]. apply Hagain; [done|]. by rewrite Hrt1. }
  all: destruct (Runtime.exec P (length (trace w1)) (Runtime.Pull image) (rt w1)).1
         as [a1|e1] eqn:E1; cbn [fst snd];
       [ destruct (Runtime.exec P (length (trace w2)) (Runtime.FollowProgress image)
                     (rt w2)).1 as [a2|e2] eqn:E2; cbn [fst snd] | ].
  all: split; [done|].
  all: split; [by unfold w3, w2, w1; rewrite ?step_store|].
  all: split;
       [ first [ exists 3%nat; split; [lia|]; by rewrite (new_events_app _ _ _ T3)
               | exists 2%nat; split; [lia|]; by rewrite (new_events_app _ _ _ T2) ] |].
  all: split;
       [ first [ done | intros _; split; [by eapply Himg|]; apply Hagain; [done|];
                        by eapply Himg ] |].
  all: intros e [= <-];
       first [ rewrite (new_events_app _ _ _ T3) | rewrite (new_events_app _ _ _ T2) ];
       eexists; split; reflexivity.
Qed.

(* ------------------------------------------------------------------------- *)
(** ** What a rollback leaves behind *)
(* ------------------------------------------------------------------------- *)

Lemma created_container P k sp s a s' :
  Runtime.exec P k (Runtime.CreateContainer sp) s = (Returned a, s') →
  a = Runtime.ContainerId (Runtime.new_id P (Runtime.name sp))
  ∧ Runtime.containers s' !! Runtime.name sp
    = Some {| Runtime.spec := sp; Runtime.state := Runtime.Created;
              Runtime.connected := [] |}.
Proof.
  intros E%exec_Returned_answer. cbn [Runtime.answer] in E.
  destruct (Runtime.containers s !! Runtime.name sp); [done|].
  case_decide; [|done]. injection E as <- <-. split; [done|].
  cbn. apply lookup_insert_eq.
Qed.

(** Only the removal of a volume takes that volume away. *)
Lemma exec_keeps_this_volume P k c s o s' v :
  Runtime.exec P k c s = (o, s') → c ≠ Runtime.RemoveVolume v →
  v ∈ Runtime.volumes s → v ∈ Runtime.volumes s'.
Proof.
  intros E Hc Hv. apply exec_state in E as ->. unfold Runtime.exec.
  destruct (Runtime.fault P k c); [done|].
  destruct c; simpl in *; repeat case_match; simpl; try done; try set_solver.
Qed.

(** A volume a container is bound to cannot be removed. *)
Lemma remove_volume_in_use P k v s n c :
  Runtime.containers s !! n = Some c → Runtime.uses_volume v c = true →
  (Runtime.exec P k (Runtime.RemoveVolume v) s).2 = s.
Proof.
  intros Hn Hu. unfold Runtime.exec. destruct (Runtime.fault P k _); [done|].
  cbn [Runtime.answer]. case_decide; [|done].
  assert (Runtime.some_container (Runtime.uses_volume v) s = true) as ->; [|done].
  apply bool_decide_eq_true. by exists n, c.
Qed.

Lemma step_containers_frame P c w n :
  target c ≠ Some n →
  Runtime.containers (rt (step P c w)) !! n = Runtime.containers (rt w) !! n.
Proof.
  intros Hn. rewrite step_rt.
  by apply (exec_containers_frame P (length (trace w)) c (rt w) _ _ n (surjective_pairing _)).
Qed.

(** The cleanup keeps a container other than the init container, and
    with it a volume it is bound to. *)
Lemma cleanup_keeps_bound_volume P id w n c v :
  n ≠ Docker.init_of id →
  Runtime.containers (rt w) !! n = Some c → Runtime.uses_volume v c = true →
  v ∈ Runtime.volumes (rt w) →
  Runtime.containers (rt (Docker.cleanupWorkspace P id w).2) !! n = Some c
  ∧ v ∈ Runtime.volumes (rt (Docker.cleanupWorkspace P id w).2).
Proof.
  intros Hne Hn Hu Hv. rewrite cleanupWorkspace_eq. cbn [snd].
  set (w1 := step P (Runtime.RemoveContainer (Docker.init_of id) true) w).
  set (w2 := step P (Runtime.RemoveNetwork (Docker.network_of id)) w1).
  set (w3 := step P (Runtime.RemoveVolume (Docker.data_volume_of id)) w2).
  set (w4 := step P (Runtime.RemoveVolume (Docker.opencode_volume_of id)) w3).
  assert (Runtime.containers (rt w1) !! n = Some c) as H1.
  { unfold w1. rewrite step_containers_frame; [done|]. cbn. congruence. }
  assert (Runtime.containers (rt w2) !! n = Some c) as H2
    by (unfold w2; by rewrite step_containers_frame).
  assert (Runtime.containers (rt w3) !! n = Some c) as H3
    by (unfold w3; by rewrite step_containers_frame).
  assert (Runtime.containers (rt w4) !! n = Some c) as H4
    by (unfold w4; by rewrite step_containers_frame).
  split; [done|].
  assert (v ∈ Runtime.volumes (rt w1)) as V1.
  { unfold w1. rewrite step_rt.
    by eapply exec_keeps_this_volume; [apply surjective_pairing|done|]. }
  assert (v ∈ Runtime.volumes (rt w2)) as V2.
  { unfold w2. rewrite step_rt.
    by eapply exec_keeps_this_volume; [apply surjective_pairing|done|]. }
  assert (∀ w0 v', Runtime.containers (rt w0) !! n = Some c →
            v ∈ Runtime.volumes (rt w0) →
            v ∈ Runtime.volumes (rt (step P (Runtime.RemoveVolume v') w0))) as Hstep.
  { intros w0 v' H0 V0. rewrite step_rt. destruct (decide (v' = v)) as [->|Hvv].
    - by rewrite (remove_volume_in_use P _ v (rt w0) n c).
    - eapply exec_keeps_this_volume; [apply surjective_pairing| |done]. congruence. }
  apply Hstep; [done|]. by apply Hstep.
Qed.

(** X10. When the creation of the agent container throws, the editor
    container has been created before it; the rollback sends the four
    removals of the cleanup, none of which is about the editor
    container, and the error is thrown again. Whatever the runtime does,
    the editor container is still there afterwards, as it was created,
    and so is the data volume, which it is bound to. *)
Theorem failed_agent_creation_leaves_editor (H : Host) (P : Runtime.Plan)
    (cfg : Docker.WorkspaceContainerConfig) (w : world)
    (r : outcome Docker.Handles) (w' : world) :
  Docker.createWorkspaceContainer H P cfg w = (r, w') →
  (∃ ev, ev ∈ new_events w w'
         ∧ failed_creation (Docker.opencode_of (Docker.workspaceId cfg)) ev = true) →
  ∃ e pre post,
    r = Threw e
    ∧ new_events w w' = pre ++ post
    ∧ last pre = Some (Rt (Runtime.CreateContainer
                 (Docker.opencodeSpec (Docker.workspaceId cfg) (Labels.domain H)
                    (Config.opencodeEnv (Docker.githubToken cfg)
                       (Store.findProviders (Docker.userId cfg) (store w)))
                    ("mkdir -p /root/.config/opencode && echo '"
                     +:+ base64 H (JSON_stringify H
                           (Config.opencodeConfig H
                              (Store.findProviders (Docker.userId cfg) (store w))))
                     +:+ "' | base64 -d > /root/.config/opencode/opencode.json")
                    (Config.skillsSetupCommands H
                       (Store.findSkills (Docker.userId cfg) (store w)))))
                 (Threw e))
    ∧ calls post = cleanup_calls (Docker.workspaceId cfg)
    ∧ Runtime.containers (rt w') !! Docker.code_server_of (Docker.workspaceId cfg)
      = Some {| Runtime.spec :=
                  Docker.codeServerSpec (Docker.workspaceId cfg) (Labels.domain H);
                Runtime.state := Runtime.Created; Runtime.connected := [] |}
    ∧ Docker.data_volume_of (Docker.workspaceId cfg) ∈ Runtime.volumes (rt w').
Proof.
  intros Hrun Hscen. unfold Docker.createWorkspaceContainer in Hrun. cbv zeta in Hrun.
  run_pull Hrun l1. run_pull Hrun l2. run_pull Hrun l3.
  apply run_promise_all in Hrun as (rp & sp & pevs & Hphase & Hrun).
  cbn [rt store trace] in Hrun.
  destruct Hphase as (pevs' & Hext & Hpull & _ & _).
  assert (pevs' = pevs) as ->.
  { destruct Hext as [Htr _]. cbn [snd trace] in Htr. by apply app_inv_head in Htr. }
  clear Hext.
  destruct rp as [[]|e]; [|run_rollback Hrun; no_failed_creation Hscen Hpull].
  run_request_cases Hrun a1 Hv1; [|run_rollback Hrun; no_failed_creation Hscen Hpull].
  run_request_cases Hrun a2 Hv2; [|run_rollback Hrun; no_failed_creation Hscen Hpull].
  rewrite run_findSkills, run_findProviders in Hrun. cbn [rt store trace] in Hrun.
  run_request_cases Hrun a3 Hnet; [|run_rollback Hrun; no_failed_creation Hscen Hpull].
  run_request_cases Hrun a4 Hci; [|run_rollback Hrun; no_failed_creation Hscen Hpull].
  run_request_cases Hrun a5 Hsi; [|run_rollback Hrun; no_failed_creation Hscen Hpull].
  run_request_cases Hrun initResult Hwait;
    [|run_rollback Hrun; no_failed_creation Hscen Hpull].
  destruct (decide (Docker.StatusCode initResult = Some 0)) as [Hcode|Hcode].
  2:{ apply run_request_throw in Hrun as (n' & o' & s' & Hs' & Hrun).
      cbn [rt store trace] in Hrun. run_rollback Hrun.
      no_failed_creation Hscen Hpull. }
  rewrite run_ret in Hrun.
  run_request_cases Hrun a6 Hri; [|run_rollback Hrun; no_failed_creation Hscen Hpull].
  run_request_cases Hrun a7 Hcs; [|run_rollback Hrun; no_failed_creation Hscen Hpull].
  run_request_cases Hrun a8 Hoc.
  { (* the agent container was created: the scenario is absurd *)
    do 4 (let a := fresh "a" in let Hs := fresh "Hs" in
          run_request_cases Hrun a Hs;
          [|run_rollback Hrun; no_failed_creation Hscen Hpull]).
    rewrite run_done in Hrun. injection Hrun as <- <-.
    destruct Hscen as (ev & Hin & Hev). exfalso. revert Hev.
    apply not_true_iff_false. revert ev Hin. apply Forall_forall.
    unfold new_events. cbn [trace]. rewrite <- !app_assoc, drop_app_length.
    repeat first
      [ apply Forall_nil_2
      | apply Forall_cons; split; [reflexivity|]
      | apply Forall_app; split;
        [ first [ by repeat (apply Forall_cons; split; [reflexivity|])
                | eapply Forall_impl;
                  [exact Hpull|intros ? ?; by apply pull_event_not_failed_creation] ]
        | ] ]. }
  (* the creation of the agent container threw *)
  clear Hscen. run_rollback Hrun.
  apply exec_Threw_state in Hoc as ->.
  pose proof (created_container _ _ _ _ _ _ Hcs) as [_ Hc].
  assert (Docker.data_volume_of (Docker.workspaceId cfg) ∈ Runtime.volumes s6) as Hvol.
  { apply (exec_keeps_volume _ _ _ _ _ _ _ Hcs); [done|].
    apply (exec_keeps_volume _ _ _ _ _ _ _ Hri); [done|].
    apply (exec_keeps_volume _ _ _ _ _ _ _ Hwait); [done|].
    apply (exec_keeps_volume _ _ _ _ _ _ _ Hsi); [done|].
    apply (exec_keeps_volume _ _ _ _ _ _ _ Hci); [done|].
    apply (exec_keeps_volume _ _ _ _ _ _ _ Hnet); [done|].
    apply (exec_keeps_volume _ _ _ _ _ _ _ Hv2); [done|].
    exact (created_volume _ _ _ _ _ _ Hv1). }
  assert (Runtime.uses_volume (Docker.data_volume_of (Docker.workspaceId cfg))
            {| Runtime.spec :=
                 Docker.codeServerSpec (Docker.workspaceId cfg) (Labels.domain H);
               Runtime.state := Runtime.Created; Runtime.connected := [] |} = true)
    as Huse.
  { unfold Runtime.uses_volume.
    cbn [Runtime.Binds Runtime.spec Docker.codeServerSpec existsb fst].
    by rewrite String.eqb_refl. }
  assert (Docker.code_server_of (Docker.workspaceId cfg)
          ≠ Docker.init_of (Docker.workspaceId cfg)) as Hne
    by (unfold Docker.code_server_of, Docker.init_of; string_neq).
  lazymatch goal with
  | |- context [Docker.cleanupWorkspace ?P ?id
                  {| rt := ?s; store := ?st; trace := ?tr ++ [?x] |}] =>
      destruct (cleanup_extends P id {| rt := s; store := st; trace := tr ++ [x] |})
        as (o1 & o2 & o3 & o4 & [Htr _]);
      destruct (cleanup_keeps_bound_volume P id
                  {| rt := s; store := st; trace := tr ++ [x] |}
                  _ _ _ Hne Hc Huse Hvol) as [Hkeep Hkept];
      set (wf := (Docker.cleanupWorkspace P id
                    {| rt := s; store := st; trace := tr ++ [x] |}).2) in *;
      clearbody wf; cbn [rt store trace] in Htr;
      exists e, (drop (length (trace w)) (tr ++ [x])),
        [ Rt (Runtime.RemoveContainer (Docker.init_of id) true) o1;
          Rt (Runtime.RemoveNetwork (Docker.network_of id)) o2;
          Rt (Runtime.RemoveVolume (Docker.data_volume_of id)) o3;
          Rt (Runtime.RemoveVolume (Docker.opencode_volume_of id)) o4 ];
      assert (length (trace w) ≤ length tr)%nat as Hlen
        by (rewrite !length_app; lia)
  end.
  split; [done|]. split.
  { apply new_events_app. rewrite Htr. rewrite <- !app_assoc, drop_app_length.
    by rewrite <- !app_assoc. }
  split.
  { rewrite drop_app_le by exact Hlen. apply last_snoc. }
  done.
Qed.

Lemma failed_agent_creation_leaves_editor_witness :
  let res := Docker.createWorkspaceContainer sample_host
               (fails_creation_of "opencode-w1") sample_config sample_world in
  res.1 = Threw Unreachable
  ∧ Runtime.containers (rt res.2) !! "code-server-w1"
    = Some {| Runtime.spec := Docker.codeServerSpec "w1" "localhost";
              Runtime.state := Runtime.Created; Runtime.connected := [] |}
  ∧ "workspace-w1-data" ∈ Runtime.volumes (rt res.2).
Proof.
  intros res.
  destruct (failed_agent_creation_leaves_editor sample_host
              (fails_creation_of "opencode-w1") sample_config sample_world
              res.1 res.2 (surjective_pairing _))
    as (e & pre & post & Hr & _ & _ & _ & Hc & Hv).
  - eexists. split.
    + apply (list_elem_of_lookup_2 _ 19). vm_compute. reflexivity.
    + vm_compute. reflexivity.
  - split; [vm_compute; reflexivity|]. split; [exact Hc|exact Hv].
Defined.

(* ------------------------------------------------------------------------- *)
(** ** A clone that fails *)
(* ------------------------------------------------------------------------- *)

Lemma pull_event_not_failed_clone ev : pull_event ev = true → failed_clone ev = false.
Proof. by destruct ev as [[] []|]. Qed.

Lemma waited_well_not_failed_clone n r :
  Docker.StatusCode r = Some 0 → failed_clone (Rt (Runtime.Wait n) (Returned r)) = false.
Proof. intros Hr. cbn. apply bool_decide_eq_false. by intros Hn. Qed.

(** Every event of a list fails the test of the scenario. *)
Ltac none_failed_clone Hpull Hcode :=
  repeat first
    [ apply Forall_nil_2
    | apply Forall_cons; split;
      [first [reflexivity | by apply waited_well_not_failed_clone]|]
    | apply Forall_app; split;
      [ first [ by repeat (apply Forall_cons; split;
                           [first [reflexivity
                                  | by apply waited_well_not_failed_clone]|])
              | eapply Forall_impl;
                [exact Hpull|intros ? ?; by apply pull_event_not_failed_clone] ]
      | ] ].

(** A branch of the run that ends in a rollback without a failed clone. *)
Ltac no_failed_clone Hscen Hpull Hcode :=
  lazymatch type of Hscen with
  | context [Docker.cleanupWorkspace ?P ?id ?W] =>
      let Htr := fresh "Htr" in
      let wf := fresh "wf" in
      let ev := fresh "ev" in
      let Hin := fresh "Hin" in
      let Hev := fresh "Hev" in
      destruct (cleanup_extends P id W) as (?o1 & ?o2 & ?o3 & ?o4 & [Htr _]);
      set (wf := (Docker.cleanupWorkspace P id W).2) in *; clearbody wf;
      cbn [rt store trace] in Htr;
      rewrite <- !app_assoc in Htr;
      rewrite (new_events_app _ _ _ Htr) in Hscen;
      destruct Hscen as (ev & Hin & Hev);
      exfalso; revert Hev; apply not_true_iff_false; revert ev Hin;
      apply Forall_forall; none_failed_clone Hpull Hcode
  end.

Lemma pull_event_asks_no_creation n m ev :
  pull_event ev = true → asks_creation_of n ev = false ∧ asks_creation_of m ev = false.
Proof. by destruct ev as [[] []|]. Qed.

Lemma exec_logs_state P k n s : (Runtime.exec P k (Runtime.Logs n) s).2 = s.
Proof.
  unfold Runtime.exec. destruct (Runtime.fault P k _); [done|].
  cbn [Runtime.answer]. by destruct (Runtime.containers s !! n).
Qed.

(** X11. When the init container exits with a status other than 0, the
    logs of the container are asked for, no service container is
    created, the cleanup runs and the function throws: the clone failure
    with the exit status when the logs were answered, and the error of
    the logs request, instead of the clone failure, when that request
    threw. When the runtime fails no removal and the identifier was new
    to it, nothing of the workspace remains. *)
Theorem failed_clone_rolls_back (H : Host) (P : Runtime.Plan)
    (cfg : Docker.WorkspaceContainerConfig) (w : world)
    (r : outcome Docker.Handles) (w' : world) :
  Docker.createWorkspaceContainer H P cfg w = (r, w') →
  (∃ ev, ev ∈ new_events w w' ∧ failed_clone ev = true) →
  ∃ initResult lo pre post,
    new_events w w'
    = pre ++ [ Rt (Runtime.Wait (Docker.init_of (Docker.workspaceId cfg)))
                  (Returned initResult);
               Rt (Runtime.Logs (Docker.init_of (Docker.workspaceId cfg))) lo ] ++ post
    ∧ Docker.StatusCode initResult ≠ Some 0
    ∧ calls post = cleanup_calls (Docker.workspaceId cfg)
    ∧ r = Threw match lo with
                | Returned _ => CloneFailed (Docker.StatusCode initResult)
                | Threw e => e
                end
    ∧ Forall (λ ev,
         asks_creation_of (Docker.code_server_of (Docker.workspaceId cfg)) ev = false
         ∧ asks_creation_of (Docker.opencode_of (Docker.workspaceId cfg)) ev = false)
        (new_events w w')
    ∧ (honours_removals P → unused (Docker.workspaceId cfg) (rt w) →
         no_resources (Docker.workspaceId cfg) (rt w')).
Proof.
  intros Hrun Hscen. unfold Docker.createWorkspaceContainer in Hrun. cbv zeta in Hrun.
  run_pull Hrun l1. run_pull Hrun l2. run_pull Hrun l3.
  apply run_promise_all in Hrun as (rp & sp & pevs & Hphase & Hrun).
  cbn [rt store trace] in Hrun.
  destruct Hphase as (pevs' & Hext & Hpull & Hsame & _).
  assert (pevs' = pevs) as ->.
  { destruct Hext as [Htr _]. cbn [snd trace] in Htr. by apply app_inv_head in Htr. }
  clear Hext. cbn [fst snd rt] in Hsame.
  destruct rp as [[]|e]; [|run_rollback Hrun; no_failed_clone Hscen Hpull I].
  run_request_cases Hrun a1 Hv1; [|run_rollback Hrun; no_failed_clone Hscen Hpull I].
  run_request_cases Hrun a2 Hv2; [|run_rollback Hrun; no_failed_clone Hscen Hpull I].
  rewrite run_findSkills, run_findProviders in Hrun. cbn [rt store trace] in Hrun.
  run_request_cases Hrun a3 Hnet; [|run_rollback Hrun; no_failed_clone Hscen Hpull I].
  run_request_cases Hrun a4 Hci; [|run_rollback Hrun; no_failed_clone Hscen Hpull I].
  run_request_cases Hrun a5 Hsi; [|run_rollback Hrun; no_failed_clone Hscen Hpull I].
  run_request_cases Hrun initResult Hwait;
    [|run_rollback Hrun; no_failed_clone Hscen Hpull I].
  destruct (decide (Docker.StatusCode initResult = Some 0)) as [Hcode|Hcode].
  { (* the clone went well: the scenario is absurd *)
    rewrite run_ret in Hrun.
    do 7 (let a := fresh "a" in let Hs := fresh "Hs" in
          run_request_cases Hrun a Hs;
          [|run_rollback Hrun; no_failed_clone Hscen Hpull Hcode]).
    rewrite run_done in Hrun. injection Hrun as <- <-.
    destruct Hscen as (ev & Hin & Hev). exfalso. revert Hev.
    apply not_true_iff_false. revert ev Hin. apply Forall_forall.
    unfold new_events. cbn [trace]. rewrite <- !app_assoc, drop_app_length.
    none_failed_clone Hpull Hcode. }
  clear Hscen.
  apply run_request_throw in Hrun as (n' & lo & s' & Hlogs & Hrun).
  cbn [rt store trace] in Hrun. run_rollback Hrun.
  assert (s' = s4) as ->.
  { apply exec_state in Hlogs as ->. apply exec_logs_state. }
  lazymatch goal with
  | |- context [Docker.cleanupWorkspace ?P ?id
                  {| rt := ?s; store := ?st; trace := (?tr ++ [?x]) ++ [?y] |}] =>
      destruct (cleanup_extends P id
                  {| rt := s; store := st; trace := (tr ++ [x]) ++ [y] |})
        as (o1 & o2 & o3 & o4 & [Htr _]);
      pose proof (cleanup_clears P id
                    {| rt := s; store := st; trace := (tr ++ [x]) ++ [y] |})
        as Hclears;
      set (wf := (Docker.cleanupWorkspace P id
                    {| rt := s; store := st; trace := (tr ++ [x]) ++ [y] |}).2) in *;
      clearbody wf; cbn [rt store trace] in Htr, Hclears;
      exists initResult, lo, (drop (length (trace w)) tr),
        [ Rt (Runtime.RemoveContainer (Docker.init_of id) true) o1;
          Rt (Runtime.RemoveNetwork (Docker.network_of id)) o2;
          Rt (Runtime.RemoveVolume (Docker.data_volume_of id)) o3;
          Rt (Runtime.RemoveVolume (Docker.opencode_volume_of id)) o4 ]
  end.
  rewrite <- !app_assoc in Htr.
  split.
  { apply new_events_app. rewrite Htr. rewrite <- !app_assoc, drop_app_length.
    by rewrite <- !app_assoc. }
  split; [done|]. split; [done|]. split; [done|]. split.
  { rewrite (new_events_app _ _ _ Htr).
    repeat first
      [ apply Forall_nil_2
      | apply Forall_cons; split; [split; reflexivity|]
      | apply Forall_app; split;
        [ first [ by repeat (apply Forall_cons; split; [split; reflexivity|])
                | eapply Forall_impl;
                  [exact Hpull|intros ? ?; by apply pull_event_asks_no_creation] ]
        | ] ]. }
  intros HP Hunused.
  set (id := Docker.workspaceId cfg) in *.
  assert (∀ m, m ≠ Docker.init_of id →
            Runtime.containers s4 !! m = Runtime.containers (rt w) !! m) as Hframe.
  { intros m Hm.
    rewrite (exec_containers_frame _ _ _ _ _ _ m Hwait) by (intros [= <-]; done).
    rewrite (exec_containers_frame _ _ _ _ _ _ m Hsi) by (intros [= <-]; done).
    rewrite (exec_containers_frame _ _ _ _ _ _ m Hci) by (intros [= <-]; done).
    rewrite (exec_containers_frame _ _ _ _ _ _ m Hnet) by done.
    rewrite (exec_containers_frame _ _ _ _ _ _ m Hv2) by done.
    rewrite (exec_containers_frame _ _ _ _ _ _ m Hv1) by done.
    by destruct Hsame as [-> _]. }
  destruct (Hclears HP) as (Hinit & Hnetw & Hdata & Hocv & Hshr).
  { intros m c Hm Hne. rewrite Hframe in Hm by done. by destruct (Hunused _ _ Hm). }
  split_and!; try done.
  intros m Hm. unfold workspace_containers in Hm.
  rewrite !elem_of_cons, elem_of_nil in Hm.
  destruct Hm as [->|[->|[->|[]]]]; [done| |].
  - apply (shrinks_absent s4); [done|]. rewrite Hframe by (unfold id; string_neq).
    apply (unused_absent id); [done|]. unfold workspace_containers.
    rewrite !elem_of_cons. auto.
  - apply (shrinks_absent s4); [done|]. rewrite Hframe by (unfold id; string_neq).
    apply (unused_absent id); [done|]. unfold workspace_containers.
    rewrite !elem_of_cons. auto.
Qed.

Lemma failed_clone_rolls_back_witness :
  let res := Docker.createWorkspaceContainer sample_host clone_fails
               sample_config sample_world in
  res.1 = Threw (CloneFailed (Some 128)) ∧ no_resources "w1" (rt res.2).
Proof.
  intros res.
  destruct (failed_clone_rolls_back sample_host clone_fails sample_config sample_world
              res.1 res.2 (surjective_pairing _))
    as (initResult & lo & pre & post & _ & _ & _ & _ & _ & Hno).
  - eexists. split.
    + apply (list_elem_of_lookup_2 _ 16). vm_compute. reflexivity.
    + vm_compute. reflexivity.
  - split; [vm_compute; reflexivity|]. apply Hno.
    + by intros n [].
    + intros n c Hn. change ((∅ : gmap string Runtime.container) !! n = Some c) in Hn.
      by rewrite lookup_empty in Hn.
Defined.

(* ------------------------------------------------------------------------- *)
(** ** What a provisioning that returns has built *)
(* ------------------------------------------------------------------------- *)

Lemma connected_container P k net n s a s' :
  Runtime.exec P k (Runtime.Connect net n) s = (Returned a, s') →
  net ∈ Runtime.networks s
  ∧ ∃ c, Runtime.containers s !! n = Some c
         ∧ Runtime.containers s' !! n
           = Some {| Runtime.spec := Runtime.spec c; Runtime.state := Runtime.state c;
                     Runtime.connected := Runtime.connected c ++ [net] |}.
Proof.
  intros E%exec_Returned_answer. cbn [Runtime.answer] in E.
  case_decide; [|done]. split; [done|].
  destruct (Runtime.containers s !! n) as [c|] eqn:En; [|done].
  injection E as _ <-. exists c. split; [done|]. cbn. apply lookup_insert_eq.
Qed.

Lemma started_container P k n s a s' :
  Runtime.exec P k (Runtime.Start n) s = (Returned a, s') →
  ∃ c, Runtime.containers s !! n = Some c
       ∧ Runtime.containers s' !! n = Some (Runtime.set_state Runtime.Running c).
Proof.
  intros E%exec_Returned_answer. cbn [Runtime.answer] in E.
  destruct (Runtime.containers s !! n) as [c|] eqn:En; [|done].
  destruct (Runtime.running c); [done|].
  injection E as _ <-. exists c. split; [done|]. cbn. apply lookup_insert_eq.
Qed.

(** A network the runtime holds after a request that did not create it
    was there before. *)
Lemma exec_network_before P k c s o s' n :
  Runtime.exec P k c s = (o, s') → c ≠ Runtime.CreateNetwork n →
  n ∈ Runtime.networks s' → n ∈ Runtime.networks s.
Proof.
  intros E Hc. apply exec_state in E as ->. unfold Runtime.exec.
  destruct (Runtime.fault P k c); [done|].
  destruct c; simpl in *; repeat case_match; simpl; try done; set_solver.
Qed.

(** The request is about another container than the one looked up. *)
Ltac other_container :=
  cbn [target Runtime.name Docker.opencodeSpec Docker.codeServerSpec];
  unfold Docker.code_server_of, Docker.opencode_of, Docker.init_of;
  congruence.

(** What the run leaves, read off request by request. *)
Lemma provision_built (H : Host) (P : Runtime.Plan)
    (cfg : Docker.WorkspaceContainerConfig) (w : world)
    (h : Docker.Handles) (w' : world) :
  Docker.createWorkspaceContainer H P cfg w = (Returned h, w') →
  h = {| Docker.codeServerContainerId :=
           Some (Runtime.new_id P (Docker.code_server_of (Docker.workspaceId cfg)));
         Docker.opencodeContainerId :=
           Some (Runtime.new_id P (Docker.opencode_of (Docker.workspaceId cfg)));
         Docker.networkName := Docker.network_of (Docker.workspaceId cfg);
         Docker.volumeName := Docker.data_volume_of (Docker.workspaceId cfg) |}
  ∧ Runtime.containers (rt w') !! Docker.code_server_of (Docker.workspaceId cfg)
    = Some {| Runtime.spec :=
                Docker.codeServerSpec (Docker.workspaceId cfg) (Labels.domain H);
              Runtime.state := Runtime.Running;
              Runtime.connected := [Labels.mainNetwork] |}
  ∧ (∃ sp, Runtime.containers (rt w') !! Docker.opencode_of (Docker.workspaceId cfg)
           = Some {| Runtime.spec := sp; Runtime.state := Runtime.Running;
                     Runtime.connected := [Labels.mainNetwork] |}
           ∧ Runtime.Env sp
             = Config.opencodeEnv (Docker.githubToken cfg)
                 (Store.findProviders (Docker.userId cfg) (store w))
           ∧ Runtime.Labels sp
             = Labels.opencodeLabels (Docker.workspaceId cfg) (Labels.domain H)
           ∧ Runtime.NetworkMode sp = Some (Docker.network_of (Docker.workspaceId cfg)))
  ∧ Runtime.containers (rt w') !! Docker.init_of (Docker.workspaceId cfg) = None
  ∧ Labels.mainNetwork ∈ Runtime.networks (rt w).
Proof.
  intros Hrun. unfold Docker.createWorkspaceContainer in Hrun. cbv zeta in Hrun.
  run_pull Hrun l1. run_pull Hrun l2. run_pull Hrun l3.
  apply run_promise_all in Hrun as (rp & sp & pevs & Hphase & Hrun).
  cbn [rt store trace] in Hrun.
  destruct Hphase as (pevs' & _ & _ & Hsame & _). cbn [fst snd rt] in Hsame.
  destruct rp as [[]|e]; [|run_threw Hrun].
  run_request_cases Hrun a1 Hv1; [|run_threw Hrun].
  run_request_cases Hrun a2 Hv2; [|run_threw Hrun].
  rewrite run_findSkills, run_findProviders in Hrun. cbn [rt store trace] in Hrun.
  run_request_cases Hrun a3 Hnet; [|run_threw Hrun].
  run_request_cases Hrun a4 Hci; [|run_threw Hrun].
  run_request_cases Hrun a5 Hsi; [|run_threw Hrun].
  run_request_cases Hrun initResult Hwait; [|run_threw Hrun].
  destruct (decide (Docker.StatusCode initResult = Some 0)) as [Hcode|Hcode].
  2:{ apply run_request_throw in Hrun as (n' & o' & s' & Hs' & Hrun).
      cbn [rt store trace] in Hrun. run_threw Hrun. }
  rewrite run_ret in Hrun.
  run_request_cases Hrun a6 Hri; [|run_threw Hrun].
  run_request_cases Hrun a7 Hcs; [|run_threw Hrun].
  run_request_cases Hrun a8 Hoc; [|run_threw Hrun].
  run_request_cases Hrun a9 Hc1; [|run_threw Hrun].
  run_request_cases Hrun a10 Hc2; [|run_threw Hrun].
  run_request_cases Hrun a11 Hs1; [|run_threw Hrun].
  run_request_cases Hrun a12 Hs2; [|run_threw Hrun].
  rewrite run_done in Hrun. injection Hrun as <- <-. cbn [rt store trace].
  set (id := Docker.workspaceId cfg) in *.
  pose proof (created_container _ _ _ _ _ _ Hcs) as [-> Kcs].
  pose proof (created_container _ _ _ _ _ _ Hoc) as [-> Koc].
  cbn [Runtime.name Docker.codeServerSpec Docker.opencodeSpec] in Kcs, Koc.
  unfold Docker.code_server_of, Docker.opencode_of, Docker.init_of in *.
  assert ("code-server-" +:+ id ≠ "opencode-" +:+ id) as Hne by string_neq.
  assert ("code-server-" +:+ id ≠ "init-" +:+ id) as Hne1 by string_neq.
  assert ("opencode-" +:+ id ≠ "init-" +:+ id) as Hne2 by string_neq.
  split; [reflexivity|]. split.
  { (* the editor container *)
    rewrite (exec_containers_frame _ _ _ _ _ _ _ Hs2) by other_container.
    destruct (started_container _ _ _ _ _ _ Hs1) as (c & Hc & ->).
    rewrite (exec_containers_frame _ _ _ _ _ _ _ Hc2) in Hc by other_container.
    destruct (connected_container _ _ _ _ _ _ _ Hc1) as (_ & c0 & Hc0 & Hc0').
    rewrite (exec_containers_frame _ _ _ _ _ _ _ Hoc) in Hc0 by other_container.
    by simplify_eq. }
  split.
  { (* the agent container *)
    destruct (started_container _ _ _ _ _ _ Hs2) as (c & Hc & ->).
    rewrite (exec_containers_frame _ _ _ _ _ _ _ Hs1) in Hc by other_container.
    destruct (connected_container _ _ _ _ _ _ _ Hc2) as (_ & c0 & Hc0 & Hc0').
    rewrite (exec_containers_frame _ _ _ _ _ _ _ Hc1) in Hc0 by other_container.
    simplify_eq. eexists. split; [reflexivity|]. done. }
  split.
  { (* the init container *)
    rewrite (exec_containers_frame _ _ _ _ _ _ _ Hs2) by other_container.
    rewrite (exec_containers_frame _ _ _ _ _ _ _ Hs1) by other_container.
    rewrite (exec_containers_frame _ _ _ _ _ _ _ Hc2) by other_container.
    rewrite (exec_containers_frame _ _ _ _ _ _ _ Hc1) by other_container.
    rewrite (exec_containers_frame _ _ _ _ _ _ _ Hoc) by other_container.
    rewrite (exec_containers_frame _ _ _ _ _ _ _ Hcs) by other_container.
    exact (removed_container _ _ _ _ _ _ _ Hri). }
  (* the proxy network *)
  destruct (connected_container _ _ _ _ _ _ _ Hc1) as (Hmain & _).
  destruct Hsame as (_ & <- & _).
  apply (exec_network_before _ _ _ _ _ _ _ Hv1); [done|].
  apply (exec_network_before _ _ _ _ _ _ _ Hv2); [done|].
  apply (exec_network_before _ _ _ _ _ _ _ Hnet);
    [intros [= E]; revert E; unfold Labels.mainNetwork; string_neq|].
  apply (exec_network_before _ _ _ _ _ _ _ Hci); [done|].
  apply (exec_network_before _ _ _ _ _ _ _ Hsi); [done|].
  apply (exec_network_before _ _ _ _ _ _ _ Hwait); [done|].
  apply (exec_network_before _ _ _ _ _ _ _ Hri); [done|].
  apply (exec_network_before _ _ _ _ _ _ _ Hcs); [done|].
  by apply (exec_network_before _ _ _ _ _ _ _ Hoc).
Qed.

(** X12. When [createWorkspaceContainer] returns, it returns the
    identifiers the runtime gave the two service containers and the names
    of the network and of the data volume. The runtime then holds the
    editor container and the agent container as they were specified, the
    agent with the environment built from the upstream token and the
    providers read from the store, both running and both joined to the
    proxy network after their creation; the init container is gone; and
    the proxy network was there before the call: without it no
    provisioning returns. *)
Theorem provisioning_result (H : Host) (P : Runtime.Plan)
    (cfg : Docker.WorkspaceContainerConfig) (w : world)
    (h : Docker.Handles) (w' : world) :
  Docker.createWorkspaceContainer H P cfg w = (Returned h, w') →
  h = {| Docker.codeServerContainerId :=
           Some (Runtime.new_id P (Docker.code_server_of (Docker.workspaceId cfg)));
         Docker.opencodeContainerId :=
           Some (Runtime.new_id P (Docker.opencode_of (Docker.workspaceId cfg)));
         Docker.networkName := Docker.network_of (Docker.workspaceId cfg);
         Docker.volumeName := Docker.data_volume_of (Docker.workspaceId cfg) |}
  ∧ Runtime.containers (rt w') !! Docker.code_server_of (Docker.workspaceId cfg)
    = Some {| Runtime.spec :=
                Docker.codeServerSpec (Docker.workspaceId cfg) (Labels.domain H);
              Runtime.state := Runtime.Running;
              Runtime.connected := [Labels.mainNetwork] |}
  ∧ (∃ sp, Runtime.containers (rt w') !! Docker.opencode_of (Docker.workspaceId cfg)
           = Some {| Runtime.spec := sp; Runtime.state := Runtime.Running;
                     Runtime.connected := [Labels.mainNetwork] |}
           ∧ Runtime.Env sp
             = Config.opencodeEnv (Docker.githubToken cfg)
                 (Store.findProviders (Docker.userId cfg) (store w))
           ∧ Runtime.Labels sp
             = Labels.opencodeLabels (Docker.workspaceId cfg) (Labels.domain H)
           ∧ Runtime.NetworkMode sp = Some (Docker.network_of (Docker.workspaceId cfg)))
  ∧ Runtime.containers (rt w') !! Docker.init_of (Docker.workspaceId cfg) = None
  ∧ Labels.mainNetwork ∈ Runtime.networks (rt w).
Proof. apply provision_built. Qed.

Lemma provisioning_result_witness :
  Runtime.containers (rt provisioned) !! "init-w1" = None
  ∧ Labels.mainNetwork ∈ Runtime.networks (rt sample_world).
Proof.
  assert (Docker.createWorkspaceContainer sample_host reliable sample_config sample_world
          = (Returned {| Docker.codeServerContainerId := Some "id-code-server-w1";
                         Docker.opencodeContainerId := Some "id-opencode-w1";
                         Docker.networkName := "workspace-w1";
                         Docker.volumeName := "workspace-w1-data" |}, provisioned))
    as Hrun.
  { etransitivity; [apply surjective_pairing|]. f_equal; vm_compute; reflexivity. }
  destruct (provisioning_result _ _ _ _ _ _ Hrun) as (_ & _ & _ & Hi & Hm).
  split; [exact Hi|exact Hm].
Defined.

(* ------------------------------------------------------------------------- *)
(** ** The create-workspace request, outside its main line *)
(* ------------------------------------------------------------------------- *)

(** The request of a signed-in user that names a workspace and a
    repository, as a run of [createWorkspaceContainer] between writes of
    the record. *)
Lemma POST_run H P u c n d r br w :
  let session := Some {| Routes.user := Some u |} in
  let body := Some {| Routes.body_name := Some (String c n);
                      Routes.body_githubRepo := Some (String d r);
                      Routes.body_githubBranch := br |} in
  let res := Routes.POST H P session body w in
  ∃ W2, rt W2 = rt w
    ∧ Store.providers (store W2) = Store.providers (store w)
    ∧ Store.skills (store W2) = Store.skills (store w)
    ∧ let prov := Docker.createWorkspaceContainer H P
                    (create_config (store w) u (String d r) br) W2 in
      rt res.2 = rt prov.2
      ∧ match prov.1 with
        | Returned h =>
            ∃ ws, res.1 = Returned {| Routes.status := 200;
                                      Routes.json := Routes.WorkspaceJson ws |}
        | Threw e =>
            res.1 = Returned {| Routes.status := 500;
                                Routes.json :=
                                  Routes.ErrorMessage "Failed to create workspace" |}
        end.
Proof.
  intros session body res. subst res.
  cbv [Routes.POST Routes.POST_body try_catch mbind Async_bind mret Async_ret
       mthrow Async_throw
       from_option Routes.authenticated option_bind Routes.user session body
       Routes.body_name Routes.body_githubRepo Routes.body_githubBranch].
  rewrite workspace_create_eq.
  set (wid := Store.cuid (store w) (Store.created (store w))).
  change (Store.id (Store.create _ _ _ _ _ (store w)).1) with wid.
  match goal with
  | |- context [Routes.workspace_update wid Store.starting None ?W] => set (W1 := W)
  end.
  destruct (workspace_update_found wid Store.starting None W1
              (Store.create (String c n) (String d r) (default "main" br)
                 (Routes.user_id u) Store.pending (store w)).1)
    as (ws1 & E1 & Hl1 & _).
  { unfold W1. cbn [store Store.create snd Store.workspaces fst Store.id].
    apply lookup_insert_eq. }
  rewrite E1.
  match goal with
  | |- context [Docker.createWorkspaceContainer H P ?cfg ?W] =>
      change cfg with (create_config (store w) u (String d r) br); set (W2 := W)
  end.
  exists W2. split; [done|]. split; [done|]. split; [done|]. cbv zeta.
  pose proof (provision_store H P (create_config (store w) u (String d r) br) W2) as Hst.
  destruct (Docker.createWorkspaceContainer H P _ W2) as [[h|e] W3] eqn:Hrun;
    cbn [fst snd] in Hst |- *.
  - destruct (workspace_update_found wid Store.running (Docker.opencodeContainerId h)
                W3 ws1) as (ws2 & E2 & _); [by rewrite Hst|].
    rewrite E2. cbn [fst snd rt]. split; [done|]. by exists ws2.
  - destruct (workspace_update_found wid Store.error None W3 ws1)
      as (ws2 & E2 & _); [by rewrite Hst|].
    rewrite E2. by cbn [fst snd rt].
Qed.

(** X13. The create-workspace request always answers, with status 200,
    400, 401 or 500. Without a signed-in user it answers 401; with a
    body that is no JSON, 500; when the name or the repository is
    missing or empty, 400; and in these three cases it sends nothing to
    the runtime and writes nothing to the store. *)
Theorem create_request_rejections (H : Host) (P : Runtime.Plan)
    (session : option Routes.Session) (body : option Routes.Body) (w : world) :
  (Routes.authenticated session = None →
     Routes.POST H P session body w
     = (Returned {| Routes.status := 401;
                    Routes.json := Routes.ErrorMessage "Unauthorized" |}, w))
  ∧ (is_Some (Routes.authenticated session) → body = None →
       Routes.POST H P session body w
       = (Returned {| Routes.status := 500;
                      Routes.json := Routes.ErrorMessage "Failed to create workspace" |},
          w))
  ∧ (∀ b, is_Some (Routes.authenticated session) → body = Some b →
       JS.truthy (Routes.body_name b) && JS.truthy (Routes.body_githubRepo b) = false →
       Routes.POST H P session body w
       = (Returned {| Routes.status := 400;
                      Routes.json :=
                        Routes.ErrorMessage "Name and GitHub repository are required" |},
          w))
  ∧ (∃ resp, (Routes.POST H P session body w).1 = Returned resp
             ∧ Routes.status resp ∈ [200; 400; 401; 500]).
Proof.
  split_and!.
  - intros Ha. unfold Routes.POST, Routes.POST_body. by rewrite Ha.
  - intros [u Hu] ->. unfold Routes.POST, Routes.POST_body. by rewrite Hu.
  - intros b [u Hu] -> Hb. unfold Routes.POST, Routes.POST_body. rewrite Hu.
    destruct b as [[[|c n]|] [[|d r]|] br]; try done.
  - destruct (Routes.authenticated session) as [u|] eqn:Hu.
    2:{ eexists. unfold Routes.POST, Routes.POST_body. rewrite Hu.
        split; [reflexivity|]. set_solver. }
    destruct body as [b|].
    2:{ eexists. unfold Routes.POST, Routes.POST_body. rewrite Hu.
        split; [reflexivity|]. set_solver. }
    destruct b as [[[|c n]|] [[|d r]|] br];
      try (eexists; unfold Routes.POST, Routes.POST_body; rewrite Hu;
           split; [reflexivity|]; set_solver).
    assert (Routes.POST H P session
              (Some {| Routes.body_name := Some (String c n);
                       Routes.body_githubRepo := Some (String d r);
                       Routes.body_githubBranch := br |}) w
            = Routes.POST H P (Some {| Routes.user := Some u |})
                (Some {| Routes.body_name := Some (String c n);
                         Routes.body_githubRepo := Some (String d r);
                         Routes.body_githubBranch := br |}) w) as ->.
    { unfold Routes.POST, Routes.POST_body. by rewrite Hu. }
    destruct (POST_run H P u c n d r br w) as (W2 & _ & _ & _ & _ & Hres).
    destruct (Docker.createWorkspaceContainer H P _ W2).1 as [h|e].
    + destruct Hres as [ws ->]. eexists. split; [reflexivity|]. set_solver.
    + rewrite Hres. eexists. split; [reflexivity|]. set_solver.
Qed.




(* ------------------------------------------------------------------------- *)
(** ** [getContainerStatus] and the routes of one workspace *)
(* ------------------------------------------------------------------------- *)

Lemma inspect_caught f n w :
  try_catch (c ← Lifecycle.inspect f n; mret (Some c)) (λ _, mret None) w
  = (Returned match f n with
              | Some _ => None
              | None => Runtime.containers (rt w) !! n
              end, w).
Proof.
  unfold try_catch, mbind, Async_bind, mret, Async_ret, Lifecycle.inspect.
  destruct (f n); [done|]. by destruct (Runtime.containers (rt w) !! n).
Qed.

Lemma getContainerStatus_eq f id w :
  Lifecycle.getContainerStatus f id w
  = (Returned (Some {| Lifecycle.codeServer := seen_state f (rt w) (Docker.code_server_of id);
                       Lifecycle.opencode := seen_state f (rt w) (Docker.opencode_of id) |}),
     w).
Proof.
  unfold Lifecycle.getContainerStatus. cbv zeta.
  unfold try_catch at 1. unfold mbind at 1. unfold Async_bind at 1.
  rewrite inspect_caught. unfold mbind at 1. unfold Async_bind at 1.
  rewrite inspect_caught. unfold mret, Async_ret, seen_state,
    Docker.code_server_of, Docker.opencode_of.
  by destruct (f _), (f _).
Qed.

(** X15. [getContainerStatus] never throws and never returns [null]:
    it returns the state of each of the two service containers, or
    nothing for a container that is not there or whose inspection fails,
    one independently of the other, and it changes nothing. *)
Theorem container_status_report (f : string → option error) (id : string) (w : world) :
  ∃ st, Lifecycle.getContainerStatus f id w = (Returned (Some st), w)
        ∧ Lifecycle.codeServer st
          = match f (Docker.code_server_of id) with
            | Some _ => None
            | None => Runtime.state <$> Runtime.containers (rt w) !! Docker.code_server_of id
            end
        ∧ Lifecycle.opencode st
          = match f (Docker.opencode_of id) with
            | Some _ => None
            | None => Runtime.state <$> Runtime.containers (rt w) !! Docker.opencode_of id
            end.
Proof.
  rewrite getContainerStatus_eq. eexists. split; [reflexivity|].
  done.
Qed.

Lemma status_report_eq id w :
  status_report id w
  = Returned (Some {| Lifecycle.codeServer :=
                        Runtime.state <$> Runtime.containers (rt w) !! Docker.code_server_of id;
                      Lifecycle.opencode :=
                        Runtime.state <$> Runtime.containers (rt w) !! Docker.opencode_of id |}).
Proof. unfold status_report. by rewrite getContainerStatus_eq. Qed.

Lemma status_report_is id w st1 st2 :
  status_report id w = report st1 st2 ↔
    Runtime.state <$> Runtime.containers (rt w) !! Docker.code_server_of id = st1
    ∧ Runtime.state <$> Runtime.containers (rt w) !! Docker.opencode_of id = st2.
Proof.
  rewrite status_report_eq. unfold report. split.
  - by intros [= -> ->].
  - by intros [-> ->].
Qed.

Lemma step_stop P n w c :
  faultless P → Runtime.containers (rt w) !! n = Some c →
  Runtime.containers (rt (step P (Runtime.Stop n) w)) !! n
  = Some (if Runtime.running c then Runtime.set_state Runtime.Exited c else c).
Proof.
  intros HP Hn. rewrite step_rt. unfold Runtime.exec. rewrite HP.
  cbn [Runtime.answer]. rewrite Hn. destruct (Runtime.running c); cbn; [|done].
  apply lookup_insert_eq.
Qed.

Lemma step_start P n w c :
  faultless P → Runtime.containers (rt w) !! n = Some c →
  Runtime.containers (rt (step P (Runtime.Start n) w)) !! n
  = Some (if Runtime.running c then c else Runtime.set_state Runtime.Running c).
Proof.
  intros HP Hn. rewrite step_rt. unfold Runtime.exec. rewrite HP.
  cbn [Runtime.answer]. rewrite Hn. destruct (Runtime.running c); cbn; [done|].
  apply lookup_insert_eq.
Qed.

Lemma state_after_stop c :
  Runtime.state (if Runtime.running c then Runtime.set_state Runtime.Exited c else c)
  = match Runtime.state c with Runtime.Running => Runtime.Exited | st => st end.
Proof. unfold Runtime.running. by destruct c as [sp [] k]. Qed.

Lemma state_after_start c :
  Runtime.state (if Runtime.running c then c else Runtime.set_state Runtime.Running c)
  = Runtime.Running.
Proof. unfold Runtime.running. by destruct c as [sp [] k]. Qed.

Lemma names_differ id :
  Docker.code_server_of id ≠ Docker.opencode_of id.
Proof. unfold Docker.code_server_of, Docker.opencode_of. string_neq. Qed.

(** After [stopWorkspaceContainer] and after [startWorkspaceContainer],
    under a runtime that fails nothing: the state of a service container
    that is there. *)
Lemma stop_states P id w n c :
  faultless P → n = Docker.code_server_of id ∨ n = Docker.opencode_of id →
  Runtime.containers (rt w) !! n = Some c →
  Runtime.state <$> Runtime.containers (rt (Docker.stopWorkspaceContainer P id w).2) !! n
  = Some match Runtime.state c with Runtime.Running => Runtime.Exited | st => st end.
Proof.
  intros HP Hn Hc. rewrite stopWorkspaceContainer_eq. cbn [snd].
  pose proof (names_differ id) as Hne. destruct Hn as [-> | ->].
  - rewrite step_containers_frame by (cbn [target]; congruence).
    rewrite (step_stop P _ w c HP Hc). cbn. by rewrite state_after_stop.
  - rewrite (step_stop P _ _ c HP).
    + cbn. by rewrite state_after_stop.
    + by rewrite step_containers_frame by (cbn [target]; congruence).
Qed.

Lemma start_states P id w n c :
  faultless P → n = Docker.code_server_of id ∨ n = Docker.opencode_of id →
  Runtime.containers (rt w) !! n = Some c →
  Runtime.state <$> Runtime.containers (rt (Docker.startWorkspaceContainer P id w).2) !! n
  = Some Runtime.Running.
Proof.
  intros HP Hn Hc. rewrite startWorkspaceContainer_eq. cbn [snd].
  pose proof (names_differ id) as Hne. destruct Hn as [-> | ->].
  - rewrite step_containers_frame by (cbn [target]; congruence).
    rewrite (step_start P _ w c HP Hc). cbn. by rewrite state_after_start.
  - rewrite (step_start P _ _ c HP).
    + cbn. by rewrite state_after_start.
    + by rewrite step_containers_frame by (cbn [target]; congruence).
Qed.

Lemma remove_absent P id w n :
  honours_removals P → n = Docker.code_server_of id ∨ n = Docker.opencode_of id →
  Runtime.containers (rt (Docker.removeWorkspaceContainer P id w).2) !! n = None.
Proof.
  intros HP Hn. rewrite removeWorkspaceContainer_eq, cleanupWorkspace_eq. cbn [snd].
  set (w0 := (Docker.stopWorkspaceContainer P id w).2).
  set (w1 := step P (Runtime.RemoveContainer (Docker.code_server_of id) true) w0).
  set (w2 := step P (Runtime.RemoveContainer (Docker.opencode_of id) true) w1).
  assert (Runtime.containers (rt w2) !! n = None) as H2.
  { destruct Hn as [-> | ->].
    - apply (shrinks_absent (rt w1)); [by apply step_shrinks|].
      unfold w1. rewrite step_rt. by apply remove_container_absent.
    - unfold w2. rewrite step_rt. by apply remove_container_absent. }
  do 4 (eapply shrinks_absent; [apply step_shrinks; reflexivity|]).
  exact H2.
Qed.

(** X16. What [getContainerStatus] reports along the lifecycle, under a
    runtime that fails nothing. After [stopWorkspaceContainer] on two
    running containers both are reported exited; after
    [startWorkspaceContainer] on two containers that are there, whatever
    their state, both are reported running, so that stop followed by
    start brings a workspace back to running; after
    [removeWorkspaceContainer] neither container is reported. *)
Theorem status_follows_lifecycle (P : Runtime.Plan) (id : string) :
  faultless P →
  (∀ w, status_report id w = both (Some Runtime.Running) →
        status_report id (Docker.stopWorkspaceContainer P id w).2
        = both (Some Runtime.Exited))
  ∧ (∀ w st1 st2, status_report id w = report (Some st1) (Some st2) →
       status_report id (Docker.startWorkspaceContainer P id w).2
       = both (Some Runtime.Running))
  ∧ (∀ w st1 st2, status_report id w = report (Some st1) (Some st2) →
       status_report id
         (Docker.startWorkspaceContainer P id (Docker.stopWorkspaceContainer P id w).2).2
       = both (Some Runtime.Running))
  ∧ (∀ w, status_report id (Docker.removeWorkspaceContainer P id w).2 = both None).
Proof.
  intros HP.
  assert (∀ w st1 st2, status_report id w = report (Some st1) (Some st2) →
            ∃ c1 c2, Runtime.containers (rt w) !! Docker.code_server_of id = Some c1
                     ∧ Runtime.containers (rt w) !! Docker.opencode_of id = Some c2
                     ∧ Runtime.state c1 = st1 ∧ Runtime.state c2 = st2) as Hthere.
  { intros w st1 st2 [H1 H2]%status_report_is.
    destruct (Runtime.containers (rt w) !! Docker.code_server_of id) as [c1|]; [|done].
    destruct (Runtime.containers (rt w) !! Docker.opencode_of id) as [c2|]; [|done].
    exists c1, c2. by simplify_eq/=. }
  assert (∀ w st1 st2, status_report id w = report (Some st1) (Some st2) →
            status_report id (Docker.startWorkspaceContainer P id w).2
            = both (Some Runtime.Running)) as Hstart.
  { intros w st1 st2 (c1 & c2 & H1 & H2 & _)%Hthere. apply status_report_is.
    split; [by apply (start_states P id w _ c1); auto
           |by apply (start_states P id w _ c2); auto]. }
  split_and!.
  - intros w (c1 & c2 & H1 & H2 & S1 & S2)%Hthere. apply status_report_is.
    rewrite (stop_states P id w _ c1), (stop_states P id w _ c2) by auto.
    by rewrite S1, S2.
  - exact Hstart.
  - intros w st1 st2 (c1 & c2 & H1 & H2 & _)%Hthere.
    eapply Hstart. apply status_report_is.
    rewrite (stop_states P id w _ c1), (stop_states P id w _ c2) by auto. done.
  - intros w. apply status_report_is.
    rewrite !(remove_absent P id w) by (auto || (by intros k c Hc)). done.
Qed.

Lemma status_follows_lifecycle_witness :
  faultless reliable
  ∧ status_report "w1" provisioned = both (Some Runtime.Running)
  ∧ status_report "w1" (Docker.stopWorkspaceContainer reliable "w1" provisioned).2
    = both (Some Runtime.Exited).
Proof.
  assert (faultless reliable) as HP by done.
  assert (status_report "w1" provisioned = both (Some Runtime.Running)) as Hrun
    by (vm_compute; reflexivity).
  split; [exact HP|]. split; [exact Hrun|].
  exact (proj1 (status_follows_lifecycle reliable "w1" HP) provisioned Hrun).
Defined.

(* ------------------------------------------------------------------------- *)
(** ** The routes of one workspace *)
(* ------------------------------------------------------------------------- *)

Lemma findFirst_owned session id w ws :
  owned session id (store w) ws →
  ∃ u, Routes.authenticated session = Some u
       ∧ Lifecycle.workspace_findFirst id (Routes.user_id u) w = (Returned (Some ws), w).
Proof.
  intros (u & Hu & Hl & Ho). exists u. split; [done|].
  unfold Lifecycle.workspace_findFirst. rewrite Hl, Ho. by rewrite String.eqb_refl.
Qed.

Lemma findFirst_not_owned session id w u :
  (∀ ws, ¬ owned session id (store w) ws) → Routes.authenticated session = Some u →
  Lifecycle.workspace_findFirst id (Routes.user_id u) w = (Returned None, w).
Proof.
  intros Hno Hu. unfold Lifecycle.workspace_findFirst.
  destruct (Store.workspaces (store w) !! id) as [ws|] eqn:Hl; [|done].
  destruct (String.eqb (Store.userId ws) (Routes.user_id u)) eqn:E; [|done].
  apply String.eqb_eq in E. destruct (Hno ws). by exists u.
Qed.

Lemma only_owner_gets f session id w :
  (∀ ws, ¬ owned session id (store w) ws) →
  Lifecycle.GET f session id w = (Returned (refusal session), w).
Proof.
  intros Hno. unfold refusal, Lifecycle.GET, Lifecycle.GET_body.
  destruct (Routes.authenticated session) as [u|] eqn:Hu; [|done].
  unfold try_catch, mbind, Async_bind.
  by rewrite (findFirst_not_owned session id w u Hno Hu).
Qed.

(** X17. A request about a workspace that the signed-in user does not
    own, or that does not exist, or a request without a signed-in user,
    reaches nothing: GET, PATCH and DELETE answer 404, or 401 without a
    user, send no request to the runtime and leave the store as it is,
    whatever the body asks for. *)
Theorem only_the_owner_reaches_a_workspace (P : Runtime.Plan)
    (f : string → option error) (session : option Routes.Session) (id : string)
    (body : option Lifecycle.PatchBody) (w : world) :
  (∀ ws, ¬ owned session id (store w) ws) →
  Lifecycle.GET f session id w = (Returned (refusal session), w)
  ∧ Lifecycle.PATCH P session id body w = (Returned (refusal session), w)
  ∧ Lifecycle.DELETE P session id w = (Returned (refusal session), w).
Proof.
  intros Hno. unfold refusal.
  unfold Lifecycle.GET, Lifecycle.GET_body, Lifecycle.PATCH, Lifecycle.PATCH_body,
    Lifecycle.DELETE, Lifecycle.DELETE_body.
  destruct (Routes.authenticated session) as [u|] eqn:Hu; [|done].
  unfold try_catch, mbind, Async_bind.
  by rewrite (findFirst_not_owned session id w u Hno Hu).
Qed.

Lemma only_the_owner_reaches_a_workspace_witness :
  Lifecycle.DELETE reliable (session_of stranger) "w1" world_of_v
  = (Returned {| Lifecycle.status := 404;
                 Lifecycle.json := Lifecycle.ErrorMessage "Workspace not found" |},
     world_of_v).
Proof.
  apply (only_the_owner_reaches_a_workspace reliable (λ _, None) (session_of stranger)
           "w1" None world_of_v).
  intros ws (u & Hu & Hl & Ho). injection Hu as <-.
  vm_compute in Hl. injection Hl as <-. discriminate Ho.
Defined.

Lemma start_trace P id w :
  ∃ r1 r2,
    trace (Docker.startWorkspaceContainer P id w).2 =
      trace w ++ [Rt (Runtime.Start (Docker.code_server_of id)) r1;
                  Rt (Runtime.Start (Docker.opencode_of id)) r2].
Proof.
  rewrite startWorkspaceContainer_eq. cbn [snd]. rewrite !step_trace.
  rewrite <- app_assoc. eauto.
Qed.

Lemma stop_store P id w : store (Docker.stopWorkspaceContainer P id w).2 = store w.
Proof. rewrite stopWorkspaceContainer_eq. cbn [snd]. by rewrite !step_store. Qed.

Lemma start_store P id w : store (Docker.startWorkspaceContainer P id w).2 = store w.
Proof. rewrite startWorkspaceContainer_eq. cbn [snd]. by rewrite !step_store. Qed.

Lemma remove_store P id w : store (Docker.removeWorkspaceContainer P id w).2 = store w.
Proof.
  rewrite removeWorkspaceContainer_eq, cleanupWorkspace_eq, stopWorkspaceContainer_eq.
  cbn [snd]. by rewrite !step_store.
Qed.

(** The PATCH request of the owner, once the record is found and the
    body read. *)
Lemma PATCH_owned P session id b w ws :
  owned session id (store w) ws →
  Lifecycle.PATCH P session id (Some b) w
  = try_catch
      (if decide (Lifecycle.action b = Some "stop") then
         Docker.stopWorkspaceContainer P (Store.id ws) ;;
         updatedWorkspace ← Routes.workspace_update (Store.id ws) Store.stopped None;
         mret {| Lifecycle.status := 200;
                 Lifecycle.json := Lifecycle.WorkspaceJson updatedWorkspace |}
       else if decide (Lifecycle.action b = Some "start") then
         Docker.startWorkspaceContainer P (Store.id ws) ;;
         updatedWorkspace ← Routes.workspace_update (Store.id ws) Store.running None;
         mret {| Lifecycle.status := 200;
                 Lifecycle.json := Lifecycle.WorkspaceJson updatedWorkspace |}
       else mret {| Lifecycle.status := 400;
                    Lifecycle.json := Lifecycle.ErrorMessage "Invalid action" |})
      (λ error,
         mret {| Lifecycle.status := 500;
                 Lifecycle.json := Lifecycle.ErrorMessage "Failed to update workspace" |})
      w.
Proof.
  intros (u & Hu & Hf)%findFirst_owned.
  unfold Lifecycle.PATCH, Lifecycle.PATCH_body. rewrite Hu.
  unfold try_catch. unfold mbind at 1. unfold Async_bind at 1. rewrite Hf.
  reflexivity.
Qed.

(** X18. A PATCH request of the owner with action [stop] or [start]
    sends the two stops, or the two starts, of the service containers,
    then records [stopped], or [running], and answers 200 with the
    record, whatever the runtime answered: the status recorded tells
    what was asked for, not what the runtime did. *)
Theorem patch_records_the_action (P : Runtime.Plan) (session : option Routes.Session)
    (id act : string) (ws : Store.Workspace) (w : world) :
  owned session id (store w) ws → Store.id ws = id →
  act = "stop" ∨ act = "start" →
  let res := Lifecycle.PATCH P session id (Some {| Lifecycle.action := Some act |}) w in
  ∃ ws' o1 o2,
    res.1 = Returned {| Lifecycle.status := 200;
                        Lifecycle.json := Lifecycle.WorkspaceJson ws' |}
    ∧ Store.status_of ws' = action_status act
    ∧ Store.workspaces (store res.2) !! id = Some ws'
    ∧ new_events w res.2
      = [ Rt (action_call act (Docker.code_server_of id)) o1;
          Rt (action_call act (Docker.opencode_of id)) o2;
          Db (Store.Update id (action_status act)) ].
Proof.
  intros Ho Hid Hact res. subst res. rewrite (PATCH_owned P session id _ w ws Ho).
  destruct Ho as (u & Hu & Hl & _). rewrite Hid. cbn [Lifecycle.action].
  unfold action_status, action_call. destruct Hact as [-> | ->].
  - rewrite !decide_True by done.
    unfold try_catch, mbind, Async_bind, mret, Async_ret.
    destruct (stop_trace P id w) as (o1 & o2 & Htr).
    pose proof (stop_store P id w) as Hst.
    destruct (Docker.stopWorkspaceContainer P id w) as [[s|e] w1] eqn:E;
      [|by rewrite stopWorkspaceContainer_eq in E].
    cbn [snd] in Htr, Hst.
    destruct (workspace_update_found id Store.stopped None w1 ws)
      as (ws' & E' & Hl' & Hs'); [by rewrite Hst|].
    rewrite E'. cbn [fst snd store]. exists ws', o1, o2. split_and!; try done.
    apply new_events_app. cbn [trace]. by rewrite Htr, <- app_assoc.
  - rewrite decide_False by done. rewrite !decide_True by done.
    rewrite decide_False by done.
    unfold try_catch, mbind, Async_bind, mret, Async_ret.
    destruct (start_trace P id w) as (o1 & o2 & Htr).
    pose proof (start_store P id w) as Hst.
    destruct (Docker.startWorkspaceContainer P id w) as [[s|e] w1] eqn:E;
      [|by rewrite startWorkspaceContainer_eq in E].
    cbn [snd] in Htr, Hst.
    destruct (workspace_update_found id Store.running None w1 ws)
      as (ws' & E' & Hl' & Hs'); [by rewrite Hst|].
    rewrite E'. cbn [fst snd store]. exists ws', o1, o2. split_and!; try done.
    apply new_events_app. cbn [trace]. by rewrite Htr, <- app_assoc.
Qed.

Lemma patch_records_the_action_witness :
  let res := Lifecycle.PATCH unreachable (session_of visitor) "w1"
               (Some {| Lifecycle.action := Some "start" |}) world_of_v in
  (∃ ws', res.1 = Returned {| Lifecycle.status := 200;
                              Lifecycle.json := Lifecycle.WorkspaceJson ws' |}
          ∧ Store.status_of ws' = Store.running)
  ∧ Runtime.containers (rt res.2) = ∅.
Proof.
  intros res.
  destruct (patch_records_the_action unreachable (session_of visitor) "w1" "start"
              record_w1 world_of_v)
    as (ws' & o1 & o2 & H1 & H2 & _).
  - exists visitor. split; [reflexivity|]. split; [vm_compute; reflexivity|reflexivity].
  - reflexivity.
  - by right.
  - split; [by exists ws'|]. vm_compute. reflexivity.
Defined.

Lemma DELETE_owned P session id w ws :
  owned session id (store w) ws → Store.id ws = id →
  Lifecycle.DELETE P session id w
  = (Returned {| Lifecycle.status := 200; Lifecycle.json := Lifecycle.SuccessTrue |},
     {| rt := rt (Docker.removeWorkspaceContainer P id w).2;
        store := Store.with_workspaces (delete id (Store.workspaces (store w))) (store w);
        trace := trace (Docker.removeWorkspaceContainer P id w).2 |}).
Proof.
  intros Ho Hid.
  pose proof Ho as (u & Hu & Hf)%findFirst_owned. destruct Ho as (_ & _ & Hl & _).
  unfold Lifecycle.DELETE, Lifecycle.DELETE_body. rewrite Hu.
  unfold try_catch. unfold mbind at 1. unfold Async_bind at 1. rewrite Hf, Hid.
  unfold mbind, Async_bind, mret, Async_ret.
  pose proof (remove_store P id w) as Hst.
  destruct (Docker.removeWorkspaceContainer P id w) as [[s|e] w1] eqn:E;
    [|by rewrite removeWorkspaceContainer_eq in E].
  cbn [snd] in Hst |- *.
  unfold Lifecycle.workspace_delete. by rewrite Hst, Hl.
Qed.

(** X19. A DELETE request of the owner sends the eight requests of
    [removeWorkspaceContainer], then deletes the record and answers 200,
    whatever the runtime answered; the other records are left as they
    are. When the runtime carries out the removals and only the
    workspace's containers hold its network and volumes, nothing of the
    workspace remains in the runtime either. *)
Theorem delete_removes_the_record (P : Runtime.Plan) (session : option Routes.Session)
    (id : string) (ws : Store.Workspace) (w : world) :
  owned session id (store w) ws → Store.id ws = id →
  let res := Lifecycle.DELETE P session id w in
  res.1 = Returned {| Lifecycle.status := 200; Lifecycle.json := Lifecycle.SuccessTrue |}
  ∧ Store.workspaces (store res.2) !! id = None
  ∧ (∀ j, j ≠ id →
       Store.workspaces (store res.2) !! j = Store.workspaces (store w) !! j)
  ∧ calls (new_events w res.2) = teardown id
  ∧ (honours_removals P → exclusive id (rt w) → no_resources id (rt res.2)).
Proof.
  intros Ho Hid res. subst res. rewrite (DELETE_owned P session id w ws Ho Hid).
  cbn [fst snd store rt trace Store.with_workspaces Store.workspaces].
  destruct (remove_trace P id w) as (evs & Htr & Hcalls).
  split; [done|]. split; [apply lookup_delete_eq|].
  split; [by intros j Hj; apply lookup_delete_ne|].
  split.
  - unfold new_events. cbn [trace]. rewrite Htr. by rewrite drop_app_length.
  - intros HP Hex. by destruct (remove_clears P id w HP Hex).
Qed.

Lemma delete_removes_the_record_witness :
  let res := Lifecycle.DELETE reliable (session_of visitor) "w1" world_of_v in
  res.1 = Returned {| Lifecycle.status := 200; Lifecycle.json := Lifecycle.SuccessTrue |}
  ∧ Store.workspaces (store res.2) !! "w1" = None.
Proof.
  intros res.
  destruct (delete_removes_the_record reliable (session_of visitor) "w1"
              record_w1 world_of_v) as (H1 & H2 & _).
  - exists visitor. split; [reflexivity|]. split; [vm_compute; reflexivity|reflexivity].
  - reflexivity.
  - split; [exact H1|exact H2].
Defined.

(** X20. A PATCH request of the owner whose body is no JSON is answered
    500, and one whose action is neither [stop] nor [start], or is
    missing, is answered 400; in both cases nothing is sent to the
    runtime and the record is left as it is. *)
Theorem patch_without_action_changes_nothing (P : Runtime.Plan)
    (session : option Routes.Session) (id : string) (ws : Store.Workspace)
    (body : option Lifecycle.PatchBody) (w : world) :
  owned session id (store w) ws →
  (∀ b, body = Some b → Lifecycle.action b ≠ Some "stop"
                        ∧ Lifecycle.action b ≠ Some "start") →
  Lifecycle.PATCH P session id body w
  = (Returned match body with
              | Some _ =>
                  {| Lifecycle.status := 400;
                     Lifecycle.json := Lifecycle.ErrorMessage "Invalid action" |}
              | None =>
                  {| Lifecycle.status := 500;
                     Lifecycle.json :=
                       Lifecycle.ErrorMessage "Failed to update workspace" |}
              end, w).
Proof.
  intros Ho Hb. destruct body as [b|].
  - rewrite (PATCH_owned P session id b w ws Ho). destruct (Hb b eq_refl) as [H1 H2].
    by rewrite !decide_False by done.
  - apply findFirst_owned in Ho as (u & Hu & Hf).
    unfold Lifecycle.PATCH, Lifecycle.PATCH_body. rewrite Hu.
    unfold try_catch. unfold mbind at 1. unfold Async_bind at 1. by rewrite Hf.
Qed.

Lemma patch_without_action_changes_nothing_witness :
  Lifecycle.PATCH reliable (session_of visitor) "w1"
    (Some {| Lifecycle.action := Some "restart" |}) world_of_v
  = (Returned {| Lifecycle.status := 400;
                 Lifecycle.json := Lifecycle.ErrorMessage "Invalid action" |},
     world_of_v).
Proof.
  apply (patch_without_action_changes_nothing reliable (session_of visitor) "w1"
           record_w1 (Some {| Lifecycle.action := Some "restart" |}) world_of_v).
  - exists visitor. split; [reflexivity|]. split; [vm_compute; reflexivity|reflexivity].
  - intros b [= <-]. split; discriminate.
Defined.

Lemma GET_owned f session id w ws :
  owned session id (store w) ws →
  Lifecycle.GET f session id w
  = (Returned
       {| Lifecycle.status := 200;
          Lifecycle.json :=
            Lifecycle.WorkspaceWithStatus ws
              (Some {| Lifecycle.codeServer :=
                         seen_state f (rt w) (Docker.code_server_of (Store.id ws));
                       Lifecycle.opencode :=
                         seen_state f (rt w) (Docker.opencode_of (Store.id ws)) |}) |},
     w).
Proof.
  intros (u & Hu & Hf)%findFirst_owned.
  unfold Lifecycle.GET, Lifecycle.GET_body. rewrite Hu.
  unfold try_catch. unfold mbind at 1. unfold Async_bind at 1. rewrite Hf.
  unfold mbind, Async_bind. by rewrite getContainerStatus_eq.
Qed.

(** X21. The GET request of one workspace changes nothing, whoever
    asks; to the owner it answers 200 with the record and with what
    [getContainerStatus] reports for the record's identifier. *)
Theorem get_reads_only (f : string → option error) (session : option Routes.Session)
    (id : string) (w : world) :
  (Lifecycle.GET f session id w).2 = w
  ∧ (∀ ws, owned session id (store w) ws →
       (Lifecycle.GET f session id w).1
       = Returned
           {| Lifecycle.status := 200;
              Lifecycle.json :=
                Lifecycle.WorkspaceWithStatus ws
                  (Some {| Lifecycle.codeServer :=
                             seen_state f (rt w) (Docker.code_server_of (Store.id ws));
                           Lifecycle.opencode :=
                             seen_state f (rt w) (Docker.opencode_of (Store.id ws)) |}) |}).
Proof.
  pose proof (GET_owned f session id w) as Hown.
  split; [|by intros ws ->%Hown].
  destruct (Routes.authenticated session) as [u|] eqn:Hu.
  2:{ unfold Lifecycle.GET, Lifecycle.GET_body. by rewrite Hu. }
  destruct (Store.workspaces (store w) !! id) as [ws|] eqn:Hl.
  - destruct (decide (Store.userId ws = Routes.user_id u)) as [Ho|Ho].
    + rewrite (Hown ws); [done|]. by exists u.
    + rewrite (only_owner_gets f session id w); [done|].
      intros ws' (u' & Hu' & Hl' & Ho'). congruence.
  - rewrite (only_owner_gets f session id w); [done|].
    intros ws' (u' & Hu' & Hl' & Ho'). congruence.
Qed.

(* ------------------------------------------------------------------------- *)
(** ** The readiness route, before the probe *)
(* ------------------------------------------------------------------------- *)

Lemma port_3001 : pretty (3001 : Z) = "3001".
Proof. vm_compute. reflexivity. Qed.

Lemma port_8443 : pretty (8443 : Z) = "8443".
Proof. vm_compute. reflexivity. Qed.

(** X22. The readiness route checks, in this order, the session (401),
    the service parameter, which must be [opencode] or [vscode] (400),
    and that the signed-in user owns the workspace (404); only then does
    it probe, and it probes one address: port 3001 of the agent container
    for [opencode], port 8443 of the editor container for [vscode]. In
    the first three cases the answer does not depend on what any address
    does. *)
Theorem readiness_route_checks (net : string → Routes.behaviour)
    (session : option Routes.Session) (id : string) (service : option string)
    (s : Store.t) :
  (Routes.authenticated session = None →
     Routes.health_GET net session id service s
     = {| Routes.status := 401; Routes.json := Routes.ErrorMessage "Unauthorized" |})
  ∧ (is_Some (Routes.authenticated session) →
       service ≠ Some "opencode" → service ≠ Some "vscode" →
       Routes.health_GET net session id service s
       = {| Routes.status := 400;
            Routes.json := Routes.ErrorMessage "Invalid service parameter" |})
  ∧ (∀ u, Routes.authenticated session = Some u →
       service = Some "opencode" ∨ service = Some "vscode" →
       (∀ ws, Store.workspaces s !! id = Some ws →
              Store.userId ws ≠ Routes.user_id u) →
       Routes.health_GET net session id service s
       = {| Routes.status := 404;
            Routes.json := Routes.ErrorMessage "Workspace not found" |})
  ∧ (∀ u ws, Routes.authenticated session = Some u →
       Store.workspaces s !! id = Some ws → Store.userId ws = Routes.user_id u →
       (service = Some "opencode" →
          Routes.health_GET net session id service s
          = (Routes.probe net ("http://opencode-" +:+ Store.id ws +:+ ":3001")).1)
       ∧ (service = Some "vscode" →
            Routes.health_GET net session id service s
            = (Routes.probe net ("http://code-server-" +:+ Store.id ws +:+ ":8443")).1)).
Proof.
  split_and!.
  - intros Hu. unfold Routes.health_GET. by rewrite Hu.
  - intros [u Hu] H1 H2. unfold Routes.health_GET. rewrite Hu.
    destruct service as [[|c sv]|]; try done.
    destruct (JS.includes (String c sv) ["opencode"; "vscode"]) eqn:E; [|done].
    apply includes_elem_of in E. apply in2 in E as [E | E]; congruence.
  - intros u Hu Hsv Hno. unfold Routes.health_GET. rewrite Hu.
    destruct Hsv as [-> | ->]; cbn [JS.includes existsb];
      rewrite ?String.eqb_refl; cbn [orb];
      (destruct (Store.workspaces s !! id) as [ws|] eqn:Hl; [|done]);
      (destruct (String.eqb (Store.userId ws) (Routes.user_id u)) eqn:E; [|done]);
      apply String.eqb_eq in E; by destruct (Hno ws).
  - intros u ws Hu Hl Ho. split; intros ->; unfold Routes.health_GET; rewrite Hu, Hl, Ho;
      cbn [JS.includes existsb]; rewrite !String.eqb_refl.
    + by rewrite port_3001.
    + change (String.eqb "vscode" "opencode") with false. cbn [orb].
      by rewrite port_8443.
Qed.

(* ------------------------------------------------------------------------- *)
(** ** One workspace at a time *)
(* ------------------------------------------------------------------------- *)

Lemma same_outside_refl id s : same_outside id s s.
Proof. by split_and!. Qed.

Lemma same_outside_trans id s1 s2 s3 :
  same_outside id s1 s2 → same_outside id s2 s3 → same_outside id s1 s3.
Proof.
  intros (C1 & N1 & V1 & I1) (C2 & N2 & V2 & I2). split_and!.
  - intros n Hn. by rewrite C2, C1.
  - intros n Hn. by rewrite N2, N1.
  - intros v Hv. by rewrite V2, V1.
  - set_solver.
Qed.

Lemma exec_about P k id c s :
  about id c = true → same_outside id s (Runtime.exec P k c s).2.
Proof.
  intros Hc. unfold Runtime.exec.
  destruct (Runtime.fault P k c); [apply same_outside_refl|].
  destruct c; cbn [about] in Hc; try apply bool_decide_eq_true in Hc;
    cbn [Runtime.answer]; repeat case_match; cbn [snd];
    try apply same_outside_refl;
    (split_and!; cbn;
     [ intros m Hm; try done;
       first [ apply lookup_insert_ne | apply lookup_delete_ne ]; congruence
     | intros m Hm; try done; set_solver
     | intros m Hm; try done; set_solver
     | set_solver ]).
Qed.

Section Confined.
Context {id : string}.

Lemma confined_ret {A} (a : A) : confined id (mret a : Async A).
Proof. intros w. split; [apply same_outside_refl|done]. Qed.

Lemma confined_throw {A} (e : error) : confined id (mthrow e : Async A).
Proof. intros w. split; [apply same_outside_refl|done]. Qed.

Lemma confined_bind {A B} (m : Async A) (k : A → Async B) :
  confined id m → (∀ a, confined id (k a)) → confined id (m ≫= k).
Proof.
  intros Hm Hk w. unfold mbind, Async_bind. destruct (Hm w) as [Hs Hst].
  destruct (m w) as [[a|e] w1]; cbn [snd] in *; [|done].
  destruct (Hk a w1) as [Hs' Hst']. split; [|congruence].
  by eapply same_outside_trans.
Qed.

Lemma confined_try_catch {A} (m : Async A) (h : error → Async A) :
  confined id m → (∀ e, confined id (h e)) → confined id (try_catch m h).
Proof.
  intros Hm Hh w. unfold try_catch. destruct (Hm w) as [Hs Hst].
  destruct (m w) as [[a|e] w1]; cbn [snd] in *; [done|].
  destruct (Hh e w1) as [Hs' Hst']. split; [|congruence].
  by eapply same_outside_trans.
Qed.

Lemma confined_swallow {A} (m : Async A) : confined id m → confined id (swallow m).
Proof. intros Hm w. exact (Hm w). Qed.

Lemma confined_request P c : about id c = true → confined id (Docker.request P c).
Proof.
  intros Hc w. rewrite request_eq. cbn [snd rt store]. split; [|done].
  by apply exec_about.
Qed.

Lemma confined_send P c : about id c = true → confined id (Docker.send P c).
Proof.
  intros Hc w. rewrite send_eq. cbn [snd]. unfold step.
  exact (confined_request P c Hc w).
Qed.

Lemma confined_findSkills u : confined id (Docker.findSkills u).
Proof. intros w. split; [apply same_outside_refl|done]. Qed.

Lemma confined_findProviders u : confined id (Docker.findProviders u).
Proof. intros w. split; [apply same_outside_refl|done]. Qed.

Lemma confined_pullImageIfNeeded P image : confined id (Docker.pullImageIfNeeded P image).
Proof.
  apply confined_bind; [by apply confined_send|]. intros r. apply confined_ret.
Qed.

Lemma confined_resume P t : confined id (Docker.resume P t).
Proof.
  destruct t as [image [[| |[|x l]| |]|e]|image [a|e]|image [a|e]|r]; cbn [Docker.resume];
    first [ apply confined_ret
          | apply confined_bind; [by apply confined_send|intros ?; apply confined_ret] ].
Qed.

Lemma confined_settle P t : confined id (Docker.settle P t).
Proof.
  unfold Docker.settle.
  apply confined_bind; [apply confined_resume|]. intros t1.
  apply confined_bind; [apply confined_resume|]. intros t2.
  apply confined_bind; [apply confined_resume|]. intros t3.
  destruct t3 as [| | |[|]]; first [apply confined_ret|apply confined_throw].
Qed.

Lemma confined_in_order P tasks : confined id (Docker.in_order P tasks).
Proof.
  induction tasks as [|t tasks IH]; cbn [Docker.in_order]; [apply confined_ret|].
  apply confined_bind; [apply confined_settle|]. by intros _.
Qed.

Lemma confined_promise_all P order tasks : confined id (Docker.promise_all P order tasks).
Proof.
  revert tasks. induction order as [|i order IH]; intros tasks; cbn [Docker.promise_all].
  - apply confined_in_order.
  - destruct (tasks !! i) as [t|]; [|apply IH].
    apply confined_bind; [apply confined_resume|]. intros t'.
    destruct t' as [| | |[|]]; first [apply IH|apply confined_throw].
Qed.

End Confined.

(** The request is about a resource of the workspace. *)
Ltac of_workspace :=
  apply bool_decide_eq_true;
  first [ reflexivity | by left | by (right; left) | by (right; right; left) ].

Lemma step_outside P id c w :
  about id c = true → same_outside id (rt w) (rt (step P c w)).
Proof. intros Hc. rewrite step_rt. by apply exec_about. Qed.

Lemma confined_cleanupWorkspace P id : confined id (Docker.cleanupWorkspace P id).
Proof.
  intros w. rewrite cleanupWorkspace_eq. cbn [snd]. split; [|by rewrite !step_store].
  do 4 (eapply same_outside_trans; [|apply step_outside; of_workspace]).
  apply same_outside_refl.
Qed.

Lemma confined_createWorkspaceContainer H P cfg :
  confined (Docker.workspaceId cfg) (Docker.createWorkspaceContainer H P cfg).
Proof.
  unfold Docker.createWorkspaceContainer. cbv zeta.
  apply confined_try_catch.
  2:{ intros e. apply confined_bind; [|intros ?; apply confined_throw].
      apply confined_try_catch; [apply confined_cleanupWorkspace|].
      intros ?. apply confined_ret. }
  repeat first
    [ apply confined_ret
    | apply confined_throw
    | apply confined_pullImageIfNeeded
    | apply confined_promise_all
    | apply confined_findSkills
    | apply confined_findProviders
    | apply confined_request; of_workspace
    | apply confined_bind; [|intros ?]
    | case_decide ].
Qed.

Lemma confined_stop P id : confined id (Docker.stopWorkspaceContainer P id).
Proof.
  intros w. rewrite stopWorkspaceContainer_eq. cbn [snd]. split; [|by rewrite !step_store].
  do 2 (eapply same_outside_trans; [|apply step_outside; of_workspace]).
  apply same_outside_refl.
Qed.

Lemma confined_start P id : confined id (Docker.startWorkspaceContainer P id).
Proof.
  intros w. rewrite startWorkspaceContainer_eq. cbn [snd]. split; [|by rewrite !step_store].
  do 2 (eapply same_outside_trans; [|apply step_outside; of_workspace]).
  apply same_outside_refl.
Qed.

Lemma confined_remove P id : confined id (Docker.removeWorkspaceContainer P id).
Proof.
  intros w. rewrite removeWorkspaceContainer_eq. cbn [snd].
  destruct (confined_cleanupWorkspace P id
              (step P (Runtime.RemoveContainer (Docker.opencode_of id) true)
                 (step P (Runtime.RemoveContainer (Docker.code_server_of id) true)
                    (Docker.stopWorkspaceContainer P id w).2))) as [Hs Hst].
  destruct (confined_stop P id w) as [Hs' Hst']. split.
  - eapply same_outside_trans; [|exact Hs].
    do 2 (eapply same_outside_trans; [|apply step_outside; of_workspace]). exact Hs'.
  - by rewrite Hst, !step_store.
Qed.

(** The names of two workspaces are apart (see the names of a
    workspace), so what is outside one holds the other. *)
Lemma outside_untouched id id' s s' :
  id' ≠ id → same_outside id s s' → untouched id' s s'.
Proof.
  intros Hne (Hc & Hn & Hv & _). split_and!.
  - intros n Hn'. apply Hc. intros Hin. apply Hne.
    unfold workspace_containers, Docker.init_of, Docker.code_server_of,
      Docker.opencode_of in *.
    apply in3 in Hn'. apply in3 in Hin.
    destruct Hn' as [-> | [-> | ->]], Hin as [E | [E | E]]; by simplify_eq/=.
  - apply Hn. unfold Docker.network_of. intros E. apply Hne. by simplify_eq/=.
  - intros v Hv'. apply Hv. intros Hin. apply Hne.
    unfold workspace_volumes, Docker.data_volume_of, Docker.opencode_volume_of in *.
    apply in2 in Hv'. apply in2 in Hin.
    destruct Hv' as [-> | ->], Hin as [E | E]; simplify_eq/=.
    + by eapply app_inj_r.
    + apply (f_equal last_char) in E. rewrite !last_char_app in E; done.
    + apply (f_equal last_char) in E. rewrite !last_char_app in E; done.
    + by eapply app_inj_r.
Qed.

(** X24. The functions of the provisioner and of the lifecycle
    controller stay in their workspace: whatever the runtime does,
    [createWorkspaceContainer], [stopWorkspaceContainer],
    [startWorkspaceContainer] and [removeWorkspaceContainer] for one
    identifier leave the containers, the network and the volumes of
    every other identifier as they are, and they do not write to the
    store. *)
Theorem operations_stay_in_their_workspace (H : Host) (P : Runtime.Plan)
    (cfg : Docker.WorkspaceContainerConfig) (other : string) (w : world) :
  other ≠ Docker.workspaceId cfg →
  let id := Docker.workspaceId cfg in
  let apart (w' : world) := untouched other (rt w) (rt w') ∧ store w' = store w in
  apart (Docker.createWorkspaceContainer H P cfg w).2
  ∧ apart (Docker.stopWorkspaceContainer P id w).2
  ∧ apart (Docker.startWorkspaceContainer P id w).2
  ∧ apart (Docker.removeWorkspaceContainer P id w).2.
Proof.
  intros Hne id apart. subst apart. cbv beta.
  destruct (confined_createWorkspaceContainer H P cfg w) as [H1 S1].
  destruct (confined_stop P id w) as [H2 S2].
  destruct (confined_start P id w) as [H3 S3].
  destruct (confined_remove P id w) as [H4 S4].
  split_and!; try done; by apply (outside_untouched id).
Qed.

Lemma operations_stay_in_their_workspace_witness :
  Runtime.containers
    (rt (Docker.createWorkspaceContainer sample_host unreachable second_config
           provisioned).2) !! "code-server-w1"
  = Runtime.containers (rt provisioned) !! "code-server-w1".
Proof.
  destruct (operations_stay_in_their_workspace sample_host unreachable second_config
              "w1" provisioned) as ((Hc & _) & _).
  - discriminate.
  - apply (proj1 Hc). right. left.
Defined.

(* ------------------------------------------------------------------------- *)
(** ** From the create request to the routes of the workspace *)
(* ------------------------------------------------------------------------- *)

Lemma workspace_update_fields i st cid w ws0 :
  Store.workspaces (store w) !! i = Some ws0 →
  Routes.workspace_update i st cid w
  = (Returned (with_status st cid ws0),
     {| rt := rt w; store := Store.update i st cid (store w);
        trace := trace w ++ [Db (Store.Update i st)] |})
  ∧ Store.workspaces (Store.update i st cid (store w)) !! i = Some (with_status st cid ws0).
Proof.
  intros Hi. unfold Routes.workspace_update. cbv zeta.
  assert (Store.workspaces (Store.update i st cid (store w)) !! i
          = Some (with_status st cid ws0)) as Hws.
  { unfold Store.update, Store.with_workspaces. cbn [Store.workspaces].
    by rewrite lookup_alter_eq, Hi. }
  by rewrite Hws.
Qed.

(** The record a create request answered with status 200 has written. *)
Lemma POST_record H P u c n d r br w ws :
  let session := Some {| Routes.user := Some u |} in
  let body := Some {| Routes.body_name := Some (String c n);
                      Routes.body_githubRepo := Some (String d r);
                      Routes.body_githubBranch := br |} in
  let res := Routes.POST H P session body w in
  let wid := Store.cuid (store w) (Store.created (store w)) in
  res.1 = Returned {| Routes.status := 200; Routes.json := Routes.WorkspaceJson ws |} →
  ws = {| Store.id := wid; Store.name := String c n; Store.githubRepo := String d r;
          Store.githubBranch := default "main" br; Store.userId := Routes.user_id u;
          Store.status_of := Store.running;
          Store.containerId := Some (Runtime.new_id P (Docker.opencode_of wid)) |}
  ∧ Store.workspaces (store res.2) !! wid = Some ws
  ∧ (∀ j, j ≠ wid →
       Store.workspaces (store res.2) !! j = Store.workspaces (store w) !! j)
  ∧ status_report wid res.2 = both (Some Runtime.Running).
Proof.
  intros session body res wid. subst res.
  cbv [Routes.POST Routes.POST_body try_catch mbind Async_bind mret Async_ret
       mthrow Async_throw
       from_option Routes.authenticated option_bind Routes.user session body
       Routes.body_name Routes.body_githubRepo Routes.body_githubBranch].
  rewrite workspace_create_eq.
  change (Store.id (Store.create _ _ _ _ _ (store w)).1) with wid.
  match goal with
  | |- context [Routes.workspace_update wid Store.starting None ?W] => set (W1 := W)
  end.
  destruct (workspace_update_fields wid Store.starting None W1
              (Store.create (String c n) (String d r) (default "main" br)
                 (Routes.user_id u) Store.pending (store w)).1) as (E1 & Hl1).
  { unfold W1. cbn [store Store.create snd Store.workspaces fst Store.id].
    apply lookup_insert_eq. }
  rewrite E1.
  match goal with
  | |- context [Docker.createWorkspaceContainer H P ?cfg ?W] =>
      change cfg with (create_config (store w) u (String d r) br); set (W2 := W)
  end.
  pose proof (provision_store H P (create_config (store w) u (String d r) br) W2) as Hst.
  destruct (Docker.createWorkspaceContainer H P _ W2) as [[h|e] W3] eqn:Hrun;
    cbn [fst snd] in Hst.
  2:{ edestruct (workspace_update_fields wid Store.error None W3)
        as (E2 & _); [rewrite Hst; exact Hl1|].
      rewrite E2. by cbn [fst snd]. }
  edestruct (workspace_update_fields wid Store.running (Docker.opencodeContainerId h) W3)
    as (E2 & Hl2); [rewrite Hst; exact Hl1|].
  rewrite E2. cbn [fst snd store rt].
  destruct (provision_built H P _ W2 h W3 Hrun) as (Hh & Hcs & (sp & Hoc & _) & _).
  cbn [create_config Docker.workspaceId] in Hcs, Hoc, Hh.
  intros [= <-]. split_and!.
  - rewrite Hh. reflexivity.
  - exact Hl2.
  - intros j Hj. rewrite Hst. unfold W2, W1.
    cbn [store Store.update Store.with_workspaces Store.workspaces Store.create snd].
    by rewrite !lookup_alter_ne, lookup_insert_ne by done.
  - apply status_report_is. cbn [rt]. fold wid in Hcs, Hoc. by rewrite Hcs, Hoc.
Qed.

(** X23. After a create request answered with status 200, the record
    returned is the one stored under the new identifier: it belongs to
    the user who asked, shows [running] and carries the identifier the
    runtime gave the agent container; no other record has changed. A
    GET request of that user for the new identifier is then answered
    200 with that record and with both service containers reported
    running, and a GET request of any other user is answered 404. *)
Theorem created_workspace_is_served (H : Host) (P : Runtime.Plan) (u : Routes.User)
    (c : ascii) (n : string) (d : ascii) (r : string) (br : option string)
    (w : world) (ws : Store.Workspace) :
  let session := Some {| Routes.user := Some u |} in
  let body := Some {| Routes.body_name := Some (String c n);
                      Routes.body_githubRepo := Some (String d r);
                      Routes.body_githubBranch := br |} in
  let res := Routes.POST H P session body w in
  let wid := Store.cuid (store w) (Store.created (store w)) in
  res.1 = Returned {| Routes.status := 200; Routes.json := Routes.WorkspaceJson ws |} →
  ws = {| Store.id := wid; Store.name := String c n; Store.githubRepo := String d r;
          Store.githubBranch := default "main" br; Store.userId := Routes.user_id u;
          Store.status_of := Store.running;
          Store.containerId := Some (Runtime.new_id P (Docker.opencode_of wid)) |}
  ∧ Store.workspaces (store res.2) !! wid = Some ws
  ∧ (∀ j, j ≠ wid →
       Store.workspaces (store res.2) !! j = Store.workspaces (store w) !! j)
  ∧ Lifecycle.GET (λ _, None) session wid res.2
    = (Returned {| Lifecycle.status := 200;
                   Lifecycle.json :=
                     Lifecycle.WorkspaceWithStatus ws
                       (Some {| Lifecycle.codeServer := Some Runtime.Running;
                                Lifecycle.opencode := Some Runtime.Running |}) |},
       res.2)
  ∧ (∀ v, Routes.user_id v ≠ Routes.user_id u →
       Lifecycle.GET (λ _, None) (session_of v) wid res.2
       = (Returned {| Lifecycle.status := 404;
                      Lifecycle.json := Lifecycle.ErrorMessage "Workspace not found" |},
          res.2)).
Proof.
  intros session body res wid Hres.
  destruct (POST_record H P u c n d r br w ws Hres) as (Hws & Hl & Hothers & Hrep).
  fold session body res wid in Hl, Hothers, Hrep.
  split; [exact Hws|]. split; [exact Hl|]. split; [exact Hothers|].
  apply status_report_is in Hrep as [Hcs Hoc].
  assert (Store.id ws = wid) as Hid by (by rewrite Hws).
  assert (Store.userId ws = Routes.user_id u) as Hu by (by rewrite Hws).
  split.
  - rewrite (GET_owned (λ _, None) session wid res.2 ws) by (by exists u).
    unfold seen_state. by rewrite Hid, Hcs, Hoc.
  - intros v Hv.
    rewrite (only_owner_gets (λ _, None) (session_of v) wid res.2); [done|].
    intros ws' (v' & [= <-] & Hl' & Hv'). congruence.
Qed.

Lemma created_workspace_is_served_witness :
  let session := Some {| Routes.user := Some visitor |} in
  let res := Routes.POST sample_host reliable session
               (Some {| Routes.body_name := Some "n"; Routes.body_githubRepo := Some "r";
                        Routes.body_githubBranch := None |})
               {| rt := sample_runtime; store := store_of_u; trace := [] |} in
  (Lifecycle.GET (λ _, None) session "w1" res.2).1
  = Returned {| Lifecycle.status := 200;
                Lifecycle.json :=
                  Lifecycle.WorkspaceWithStatus
                    {| Store.id := "w1"; Store.name := "n"; Store.githubRepo := "r";
                       Store.githubBranch := "main"; Store.userId := "v";
                       Store.status_of := Store.running;
                       Store.containerId := Some "id-opencode-w1" |}
                    (Some {| Lifecycle.codeServer := Some Runtime.Running;
                             Lifecycle.opencode := Some Runtime.Running |}) |}.
Proof.
  intros session res.
  destruct (created_workspace_is_served sample_host reliable visitor
              "n" "" "r" "" None
              {| rt := sample_runtime; store := store_of_u; trace := [] |}
              {| Store.id := "w1"; Store.name := "n"; Store.githubRepo := "r";
                 Store.githubBranch := "main"; Store.userId := "v";
                 Store.status_of := Store.running;
                 Store.containerId := Some "id-opencode-w1" |})
    as (_ & _ & _ & Hget & _).
  - vm_compute. reflexivity.
  - exact (f_equal fst Hget).
Defined.
